(** * Healthcare lead automation agent: pipeline, fallback policy and naming

    A shallow embedding of the two agent servers of the repository:

    - [Direct]: `autonomous-agent.js`, the agent that talks to Notion, GitHub
      and Railway directly;
    - [Mcp]: the "TypeScript MCP" agent, which goes through tool-invocation
      clients kept in [this.mcpClients] and falls back to simulated data.

    Both share the naming utilities ([generatePracticeId],
    [extractCompanyFromDomain], [generateDoctorName]) and the lead-score
    formula. *)

From Stdlib Require Import ZArith QArith Qround Qpower Lqa Ascii String List Lia.
From Stdlib Require Import SpecFloat.
From stdpp Require Import base option list strings gmap pretty.

Open Scope string_scope.
Open Scope list_scope.

(** * JavaScript strings

    A domain is the [hostname] of a parsed URL, which is an ASCII string; a
    JavaScript string is modelled as a Stdlib [string] and processed as its
    list of characters. *)

Module JsString.

Definition chars (s : string) : list ascii := list_ascii_of_string s.
Definition str (l : list ascii) : string := string_of_list_ascii l.

Definition in_range (lo hi : nat) (c : ascii) : bool :=
  (lo <=? nat_of_ascii c)%nat && (nat_of_ascii c <=? hi)%nat.

Definition is_lower : ascii -> bool := in_range 97 122.
Definition is_upper : ascii -> bool := in_range 65 90.
Definition is_digit : ascii -> bool := in_range 48 57.

Definition hyphen : ascii := "-"%char.
Definition is_hyphen (c : ascii) : bool := Ascii.eqb c hyphen.

(** [c.toLowerCase()] and [c.toUpperCase()] on one ASCII character. *)
Definition char_toLowerCase (c : ascii) : ascii :=
  if is_upper c then ascii_of_nat (nat_of_ascii c + 32) else c.
Definition char_toUpperCase (c : ascii) : ascii :=
  if is_lower c then ascii_of_nat (nat_of_ascii c - 32) else c.

Definition toLowerCase (s : list ascii) : list ascii := map char_toLowerCase s.

Fixpoint list_eqb (s t : list ascii) : bool :=
  match s, t with
  | [], [] => true
  | c :: s', d :: t' => Ascii.eqb c d && list_eqb s' t'
  | _, _ => false
  end.

Fixpoint starts_with (p s : list ascii) : bool :=
  match p, s with
  | [], _ => true
  | c :: p', d :: s' => Ascii.eqb c d && starts_with p' s'
  | _ :: _, [] => false
  end.

(** ** Regular expressions

    A regular expression is represented by its matcher at one position:
    [m bol rest] is the length of the match that starts at the current
    position, where [bol] tells whether that position is the start of the
    input (for [^]) and [rest] is the input from that position on (so that
    [$] holds where the match consumes all of [rest]).  None of the
    expressions of the source matches the empty string. *)
Definition Matcher := bool -> list ascii -> option nat.

(** [s.replace(re, '')] for an expression without the [g] flag: the
    leftmost match is removed. *)
Fixpoint replace_first (m : Matcher) (bol : bool) (s : list ascii) : list ascii :=
  match m bol s with
  | Some n => drop n s
  | None =>
      match s with
      | [] => []
      | c :: s' => c :: replace_first m false s'
      end
  end.

(** [s.replace(re, r)] for an expression with the [g] flag: every match,
    found from left to right, is replaced by [r]; the search resumes after
    the match.  [skip] counts the characters of the current match that are
    still to be consumed. *)
Fixpoint replace_all (m : Matcher) (r : list ascii) (bol : bool) (skip : nat)
    (s : list ascii) : list ascii :=
  match s with
  | [] => []
  | c :: s' =>
      match skip with
      | S k => replace_all m r false k s'
      | O =>
          match m bol s with
          | Some (S k) => r ++ replace_all m r false k s'
          | _ => c :: replace_all m r false 0 s'
          end
      end
  end.

(** [/^www\./] *)
Definition re_www : Matcher := fun bol s =>
  if bol && starts_with (chars "www.") s then Some 4 else None.

(** [/\.(com|co\.uk|org|net)$/]: the alternatives are tried in order and
    [$] asks the alternative to end the input. *)
Definition re_tld : Matcher := fun _ s =>
  if list_eqb s (chars ".com") then Some 4
  else if list_eqb s (chars ".co.uk") then Some 6
  else if list_eqb s (chars ".org") then Some 4
  else if list_eqb s (chars ".net") then Some 4
  else None.

(** [/[^a-z0-9]/g] *)
Definition re_not_alnum : Matcher := fun _ s =>
  match s with
  | c :: _ => if is_lower c || is_digit c then None else Some 1
  | [] => None
  end.

Fixpoint leading_hyphens (s : list ascii) : nat :=
  match s with
  | c :: s' => if is_hyphen c then S (leading_hyphens s') else 0
  | [] => 0
  end.

(** [/-+/g]: the quantifier is greedy. *)
Definition re_hyphens : Matcher := fun _ s =>
  match leading_hyphens s with
  | O => None
  | n => Some n
  end.

(** [/^-|-$/g] *)
Definition re_edge_hyphen : Matcher := fun bol s =>
  match s with
  | c :: rest =>
      if is_hyphen c then
        if bol then Some 1
        else match rest with [] => Some 1 | _ :: _ => None end
      else None
  | [] => None
  end.

(** [s.split(/[-.]/)] *)
Definition is_separator (c : ascii) : bool :=
  is_hyphen c || Ascii.eqb c "."%char.

Fixpoint split (sep : ascii -> bool) (s : list ascii) : list (list ascii) :=
  match s with
  | [] => [[]]
  | c :: s' =>
      if sep c then [] :: split sep s'
      else
        match split sep s' with
        | w :: ws => (c :: w) :: ws
        | [] => [[c]]
        end
  end.

(** [words.join(sep)] *)
Fixpoint join (sep : list ascii) (ws : list (list ascii)) : list ascii :=
  match ws with
  | [] => []
  | [w] => w
  | w :: ws' => w ++ sep ++ join sep ws'
  end.

(** [s.substring(0, n)] *)
Definition substring0 (n : nat) (s : list ascii) : list ascii := take n s.

End JsString.

Import JsString.

(** * Utility functions (the same text in both agents) *)

(** [generatePracticeId(domain)] *)
Definition generatePracticeId (domain : string) : string :=
  let s1 := replace_first re_www true (chars domain) in
  let s2 := replace_first re_tld true s1 in
  let s3 := toLowerCase s2 in
  let s4 := replace_all re_not_alnum [hyphen] true 0 s3 in
  let s5 := replace_all re_hyphens [hyphen] true 0 s4 in
  let s6 := replace_all re_edge_hyphen [] true 0 s5 in
  str (substring0 25 s6).

(** [word => word.charAt(0).toUpperCase() + word.slice(1)] *)
Definition capitalize (word : list ascii) : list ascii :=
  match word with
  | [] => []
  | c :: rest => char_toUpperCase c :: rest
  end.

(** [extractCompanyFromDomain(domain)] *)
Definition extractCompanyFromDomain (domain : string) : string :=
  let name :=
    join (chars " ")
      (map capitalize
         (split is_separator
            (replace_first re_tld true
               (replace_first re_www true (chars domain))))) in
  str name +:+ " Clinic".

(** * The runtime: exceptions, the console, the clock and the outside world *)

(** The completion of a call: a value, or an exception whose [message] is
    what the handlers read as [error.message]. *)
Inductive Outcome (A : Type) : Type :=
| Returned (a : A)
| Thrown (message : string).
Arguments Returned {A} a.
Arguments Thrown {A} message.

Inductive Phase : Type :=
| Discovery | Storage | Voice | Provisioning | Deployment | StatusUpdate.

(** What a run leaves behind, in order: the console lines that mark the
    targets and the phases, the suspensions, the sessions closed and the
    answers sent. *)
Inductive Event : Type :=
| LogTarget (url : string)     (* console.log(`URL: ${url}`), batch loop *)
| LogPhase (p : Phase)         (* the "PHASE n: ..." banner before a phase *)
| LogPhaseDone (p : Phase)     (* the line printed once the phase is awaited *)
| Slept (ms : Z)               (* await this.sleep(ms) *)
| Closed (name : string)       (* await client.close() *)
| Answered (status : Z).       (* res.status(status).json(...) *)

Record Repository : Type := {
  repo_name : string;
  repo_clone_url : string;
  repo_html_url : string
}.

(** What the page script of the discovery phase returns, once parsed. *)
Record ScrapedPage : Type := {
  page_title : string;
  page_contact : string;
  page_email : string;
  page_services : list string
}.

Record VoiceEntry : Type := {
  voice_name : string;
  voice_category : option string;
  voice_id : string
}.

(** The outside world.  The clock and the random generator are read in
    sequence; the k-th provider interaction of a run gets the k-th response of
    its kind, whatever its arguments were. *)
Record Host : Type := {
  Date_now : nat -> Z;
  Math_random : nat -> Q;
  URL_hostname : string -> option string;         (* None: `new URL(url)` throws *)
  connect_response : nat -> Outcome unit;          (* client.connect(transport) *)
  close_response : nat -> Outcome unit;            (* client.close() *)
  tool_response : nat -> Outcome (option string);  (* callTool: content?.[0]?.text *)
  shell_response : nat -> Outcome string;          (* execSync *)
  file_response : nat -> Outcome unit;             (* fs.readFile/writeFile, writeFileSync *)
  notion_response : nat -> Outcome string;         (* axios to api.notion.com: data.id *)
  github_response : nat -> Outcome Repository;     (* axios to api.github.com: data *)
  voices_response : nat -> Outcome (list VoiceEntry);  (* voices.getAll() *)
  speech_response : nat -> Outcome bool;           (* textToSpeech.convert: truthy? *)
  buffer_response : nat -> Outcome unit;           (* audio response to Buffer *)
  JSON_parse_page : string -> option ScrapedPage;  (* None: JSON.parse throws *)
  JSON_parse_repository : string -> option Repository
}.

(** [this.mcpClients] is an object used as a map from names to sessions.  Its
    entries are kept, as the properties of an object whose names are not
    numbers are, in the order in which the names were first assigned;
    assigning a name again keeps its place. *)
Record Sessions : Type := { entries : list (string * string) }.

Fixpoint assoc_lookup (name : string) (l : list (string * string)) : option string :=
  match l with
  | [] => None
  | (name', client) :: l' =>
      if String.eqb name' name then Some client else assoc_lookup name l'
  end.

Fixpoint assoc_insert (name client : string) (l : list (string * string))
    : list (string * string) :=
  match l with
  | [] => [(name, client)]
  | (name', client') :: l' =>
      if String.eqb name' name then (name', client) :: l'
      else (name', client') :: assoc_insert name client l'
  end.

(** [clients[name]], [clients[name] = client], [{}] and
    [Object.keys(clients).length] *)
#[global] Instance sessions_lookup : Lookup string string Sessions :=
  fun name clients => assoc_lookup name (entries clients).
#[global] Instance sessions_insert : Insert string string Sessions :=
  fun name client clients => {| entries := assoc_insert name client (entries clients) |}.
#[global] Instance sessions_empty : Empty Sessions := {| entries := [] |}.
#[global] Instance sessions_size : Size Sessions := fun clients => length (entries clients).

Record State : Type := {
  clock_reads : nat;                 (* Date.now() calls so far *)
  draws : nat;                       (* Math.random() calls so far *)
  calls : nat;                       (* provider interactions so far *)
  mcpClients : Sessions;             (* this.mcpClients: name to session *)
  elevenLabsClient : bool;           (* this.elevenLabsClient !== null *)
  console : list Event
}.

Definition initial_state : State :=
  {| clock_reads := 0; draws := 0; calls := 0; mcpClients := ∅;
     elevenLabsClient := false; console := [] |}.

Definition Js (A : Type) : Type := State -> Outcome A * State.

Definition ret {A} (a : A) : Js A := fun s => (Returned a, s).

Definition throw {A} (message : string) : Js A := fun s => (Thrown message, s).

Definition bind {A B} (m : Js A) (k : A -> Js B) : Js B := fun s =>
  match m s with
  | (Returned a, s') => k a s'
  | (Thrown e, s') => (Thrown e, s')
  end.

Notation "'do' x <- m ; k" := (bind m (fun x => k))
  (at level 10, x name, m at level 100, k at level 200).
Notation "'do_' m ; k" := (bind m (fun _ => k))
  (at level 10, m at level 100, k at level 200).

(** [try { body } catch (error) { handler(error.message) }] *)
Definition try_catch {A} (body : Js A) (handler : string -> Js A) : Js A := fun s =>
  match body s with
  | (Returned a, s') => (Returned a, s')
  | (Thrown e, s') => handler e s'
  end.

(** [try { body } finally { final }] *)
Definition try_finally {A} (body : Js A) (final : Js unit) : Js A := fun s =>
  match body s with
  | (o, s') =>
      match final s' with
      | (Returned _, s'') => (o, s'')
      | (Thrown e, s'') => (Thrown e, s'')
      end
  end.

Definition set_clock_reads (n : nat) (s : State) : State :=
  {| clock_reads := n; draws := draws s; calls := calls s;
     mcpClients := mcpClients s; elevenLabsClient := elevenLabsClient s;
     console := console s |}.
Definition set_draws (n : nat) (s : State) : State :=
  {| clock_reads := clock_reads s; draws := n; calls := calls s;
     mcpClients := mcpClients s; elevenLabsClient := elevenLabsClient s;
     console := console s |}.
Definition set_calls (n : nat) (s : State) : State :=
  {| clock_reads := clock_reads s; draws := draws s; calls := n;
     mcpClients := mcpClients s; elevenLabsClient := elevenLabsClient s;
     console := console s |}.
Definition set_mcpClients (m : Sessions) (s : State) : State :=
  {| clock_reads := clock_reads s; draws := draws s; calls := calls s;
     mcpClients := m; elevenLabsClient := elevenLabsClient s;
     console := console s |}.
Definition set_elevenLabsClient (b : bool) (s : State) : State :=
  {| clock_reads := clock_reads s; draws := draws s; calls := calls s;
     mcpClients := mcpClients s; elevenLabsClient := b;
     console := console s |}.
Definition set_console (l : list Event) (s : State) : State :=
  {| clock_reads := clock_reads s; draws := draws s; calls := calls s;
     mcpClients := mcpClients s; elevenLabsClient := elevenLabsClient s;
     console := l |}.

(** ** Numbers

    A Number is a binary64 value: zero, or a rational [m * 2^e] with
    [|m| < 2^53] and [-1074 <= e <= 971].  An arithmetic operation gives the
    exact result rounded to the nearest Number, a tie going to the one whose
    significand is even; the results met here are far below the overflow
    threshold [2^1024]. *)

Definition pow2 (e : Z) : Q := (2 ^ e)%Q.

Definition binary64 (x : Q) : Prop :=
  exists m e : Z,
    (Z.abs m < 2 ^ 53)%Z /\ (-1074 <= e <= 971)%Z /\ (x == inject_Z m * pow2 e)%Q.

(** The integer [e] with [2^e <= x < 2^(e+1)], for a positive [x]. *)
Definition exponent (x : Q) : Z :=
  if Qle_bool 1 x then Z.log2 (Qfloor x) else (- Z.log2_up (Qceiling (/ x)%Q))%Z.

(** The exponent of the last place of the Numbers around [x]: 52 below that
    of [x], and not below that of the subnormal Numbers. *)
Definition ulp_exponent (x : Q) : Z := Z.max (exponent x - 52) (-1074).

Definition round_half_even (y : Q) : Z :=
  let f := Qfloor y in
  match (y - inject_Z f ?= 1 # 2)%Q with
  | Lt => f
  | Gt => (f + 1)%Z
  | Eq => if Z.even f then f else (f + 1)%Z
  end.

Definition fl64_pos (x : Q) : Q :=
  (inject_Z (round_half_even (x / pow2 (ulp_exponent x))) * pow2 (ulp_exponent x))%Q.

(** The Number nearest to [x]. *)
Definition fl64 (x : Q) : Q :=
  match (x ?= 0)%Q with
  | Eq => 0%Q
  | Gt => fl64_pos x
  | Lt => (- fl64_pos (- x))%Q
  end.

(** [Math.floor(r * n)] for a draw [r] and an integer [n]: the product is
    rounded to a Number before [Math.floor] is applied. *)
Definition floor_scaled (r : Q) (n : Z) : Z := Qfloor (fl64 (r * inject_Z n)%Q).

(** [Math.floor(Math.random() * 30) + 70] *)
Definition leadScore_of (r : Q) : Z := (floor_scaled r 30 + 70)%Z.

(** [Math.round(ms / 1000)]: halves round up. *)
Definition round_seconds (ms : Z) : Z := ((ms + 500) / 1000)%Z.

(** [array[i]] inside a template literal: a missing element prints as
    "undefined". *)
Definition element (names : list string) (i : Z) : string :=
  if (i <? 0)%Z then "undefined"
  else nth (Z.to_nat i) names "undefined".

(** [text.includes(needle)] *)
Fixpoint includes_chars (needle s : list ascii) : bool :=
  starts_with needle s ||
  match s with
  | [] => false
  | _ :: s' => includes_chars needle s'
  end.
Definition includes (needle text : string) : bool :=
  includes_chars (chars needle) (chars text).

(** The truthiness of a string: only the empty string is falsy. *)
Definition truthy (text : string) : bool := negb (String.eqb text "").

(** [array.slice(0, n)] for an integer [n]. *)
Definition slice0 {A} (n : Z) (l : list A) : list A :=
  if (n <? 0)%Z then take (Z.to_nat (Z.of_nat (length l) + n)) l
  else take (Z.to_nat n) l.

Section Runtime.

Variable host : Host.

(** [Date.now()] *)
Definition now : Js Z := fun s =>
  (Returned (Date_now host (clock_reads s)), set_clock_reads (S (clock_reads s)) s).

(** [Math.random()] *)
Definition random : Js Q := fun s =>
  (Returned (Math_random host (draws s)), set_draws (S (draws s)) s).

Definition log (e : Event) : Js unit := fun s =>
  (Returned tt, set_console (console s ++ [e]) s).

(** [await this.sleep(ms)] *)
Definition sleep (ms : Z) : Js unit := log (Slept ms).

(** One provider interaction: the response comes from the host. *)
Definition external {A} (response : nat -> Outcome A) : Js A := fun s =>
  (response (calls s), set_calls (S (calls s)) s).

(** [new URL(url).hostname] *)
Definition hostname (url : string) : Js string :=
  match URL_hostname host url with
  | Some domain => ret domain
  | None => throw "Invalid URL"
  end.

(** [generateDoctorName()], over the agent's two candidate lists. *)
Definition generateDoctorName (firstNames lastNames : list string) : Js string :=
  do r1 <- random;
  let firstName := element firstNames (floor_scaled r1 (Z.of_nat (length firstNames))) in
  do r2 <- random;
  let lastName := element lastNames (floor_scaled r2 (Z.of_nat (length lastNames))) in
  ret (firstName +:+ " " +:+ lastName).

(** ** The batch loop (the same text in both agents)

    [for (let i = 0; i < selectedUrls.length; i++) { ... }], generic in the
    record type: [failed] builds the record literal of the per-target
    handler.  [results] is the array as it
    is when the iteration starts: nothing after [results.push(result)] in
    the [try] block can throw, so the handler pushes onto that same
    array. *)
Section BatchLoop.

Context {R : Type}.
Variable processHealthcareWebsite : string -> Js R.
Variable failed : string -> string -> Z -> R.

Fixpoint leads_loop (len i : nat) (rest : list string) (results : list R)
    : Js (list R) :=
  match rest with
  | [] => ret results
  | url :: rest' =>
      do_ log (LogTarget url);
      do results' <-
        try_catch
          (do result <- processHealthcareWebsite url;
           let results' := results ++ [result] in
           do_ (if (i <? len - 1)%nat then sleep 3000 else ret tt);
           ret results')
          (fun message =>
             do timestamp <- now;
             ret (results ++ [failed url message timestamp]));
      leads_loop len (S i) rest' results'
  end.

End BatchLoop.

End Runtime.

(** * Data shared by the two agents *)

(** The object returned by the discovery phase ([brandColors], two constant
    colours, is left out). *)
Record PracticeData : Type := {
  company : string;
  contactName : string;
  phone : string;
  email : string;
  location : string;
  services : list string;
  practiceType : string;
  practiceId : string;
  leadSource : string;
  leadScore : Z
}.

(** [a || b] on strings. *)
Definition or_else (a b : string) : string := if truthy a then a else b.

Definition lower (s : string) : string := str (toLowerCase (chars s)).

(** The longest prefix of [s] made of characters of the class [p]. *)
Fixpoint leading (p : ascii -> bool) (s : list ascii) : list ascii :=
  match s with
  | c :: s' => if p c then c :: leading p s' else []
  | [] => []
  end.

(** [text.match(/ID: ([a-f0-9-]+)/)]: the first capture group of the
    leftmost match. *)
Definition is_id_char (c : ascii) : bool :=
  in_range 97 102 c || is_digit c || is_hyphen c.

Fixpoint match_project_id_chars (s : list ascii) : option (list ascii) :=
  match s with
  | [] => None
  | _ :: s' =>
      if starts_with (chars "ID: ") s then
        match leading is_id_char (drop 4 s) with
        | [] => match_project_id_chars s'
        | id => Some id
        end
      else match_project_id_chars s'
  end.

Definition match_project_id (text : string) : option string :=
  option_map str (match_project_id_chars (chars text)).

(** * The MCP agent *)

Module Mcp.

Record RailwayDeployment : Type := {
  deploy_url : string;
  deploy_status : string;
  deploy_projectId : string;
  deploy_method : string
}.

Record VoiceAgent : Type := {
  voice_status : string;
  voice_agentId : string;
  voice_method : string;
  voice_voiceId : option string;
  voice_voiceName : option string;
  voice_prompt : string;
  voice_fallback_reason : option string
}.

Record NotionStorage : Type := {
  notion_status : string;
  notion_pageId : string;
  notion_method : string
}.

(** The object a run hands back; the fields that one of the three record
    literals leaves out are optional. *)
Record LeadRecord : Type := {
  r_leadId : option string;
  r_url : string;
  r_status : string;
  r_error : option string;
  r_company : option string;
  r_doctor : option string;
  r_demoUrl : option string;
  r_repositoryUrl : option string;
  r_voiceAgentId : option string;
  r_notionPageId : option string;
  r_leadScore : option Z;
  r_services : option (list string);
  r_leadSource : option string;
  r_duration : option Z;
  r_timestamp : Z;        (* the instant that toISOString() prints *)
  r_method : option string
}.

Definition firstNames : list string :=
  ["Sarah"; "Michael"; "Emma"; "James"; "Sophie"; "David"].
Definition lastNames : list string :=
  ["Smith"; "Johnson"; "Williams"; "Brown"; "Jones"; "Garcia"].

(** [this.healthcareTargets] as the constructor sets it. *)
Definition healthcareTargets : list string :=
  ["https://www.theprivateclinic.co.uk";
   "https://www.harleystreetskinclinic.com";
   "https://www.152harleystreet.com";
   "https://www.eaclinic.co.uk";
   "https://harleyclinic.com"].

Section Agent.

Variable host : Host.

Definition callTool (client tool : string) : Js (option string) :=
  external (tool_response host).

Definition execSync (command : string) : Js string :=
  external (shell_response host).

Definition get_client (name : string) : Js (option string) := fun s =>
  (Returned (mcpClients s !! name), s).

Definition set_client (name client : string) : Js unit := fun s =>
  (Returned tt, set_mcpClients (<[name := client]> (mcpClients s)) s).

(** ** Sessions *)

(** [connectMCP(name, serverPath)]; [connectPlaywrightMCP()] and
    [connectNotionMCP()] are this function at their own name and server. *)
Definition connectMCP (name serverPath : string) : Js bool :=
  try_catch
    (do_ external (connect_response host);
     do_ set_client name serverPath;
     ret true)
    (fun _ => ret false).

Definition connectPlaywrightMCP : Js bool :=
  connectMCP "playwright" "@adalovu/mcp-playwright".

Definition connectNotionMCP : Js bool :=
  connectMCP "notion" "@smithery/notion".

(** [connectElevenLabsMCP()]: the providers are tried in order; a
    connection that loses the race against its timeout throws. *)
Fixpoint connectElevenLabs_loop (providers : list string) : Js bool :=
  match providers with
  | [] => ret false
  | provider :: rest =>
      do connected <-
        try_catch
          (do_ external (connect_response host);
           do_ set_client "elevenlabs" provider;
           ret true)
          (fun _ => ret false);
      if connected then ret true else connectElevenLabs_loop rest
  end.

Definition connectElevenLabsMCP : Js bool :=
  connectElevenLabs_loop
    ["@elevenlabs/elevenlabs-mcp"; "@elevenlabs/mcp-server"; "elevenlabs-voice-mcp"].

(** [connectAllMCPs()].  The four connections are started together and
    awaited with [Promise.allSettled]; they write distinct keys of
    [this.mcpClients], so they are run here in the order of the array. *)
Definition connectAllMCPs : Js bool :=
  do c1 <- connectMCP "railway" "@jason-tan-swe/railway-mcp";
  do c2 <- connectPlaywrightMCP;
  do c3 <- connectElevenLabsMCP;
  do c4 <- connectNotionMCP;
  let successful := length (filter (fun b : bool => b = true) [c1; c2; c3; c4]) in
  ret (0 <? successful)%nat.

Fixpoint close_all (entries : list (string * string)) : Js unit :=
  match entries with
  | [] => ret tt
  | (name, _) :: rest =>
      do_ try_catch
            (do_ external (close_response host);
             log (Closed name))
            (fun _ => ret tt);
      close_all rest
  end.

(** [disconnectAllMCPs()]; the entries are visited in the order of
    [Object.entries]. *)
Definition disconnectAllMCPs : Js unit :=
  do_ (fun s => close_all (entries (mcpClients s)) s);
  fun s => (Returned tt, set_mcpClients ∅ s).

(** ** Phases *)

(** The tail of [analyzeHealthcareWebsite(url)], from
    [// Fallback: Extract practice info from URL] on. *)
Definition fallbackAnalysis (url : string) : Js PracticeData :=
  do domain <- hostname host url;
  let practiceId := generatePracticeId domain in
  do name <- generateDoctorName host firstNames lastNames;
  do r <- random host;
  ret {| company := extractCompanyFromDomain domain;
         contactName := "Dr. " +:+ name;
         phone := "+44 20 7123 4567";
         email := "info@" +:+ domain;
         location := "London, UK";
         services := ["Aesthetic Treatments"; "Cosmetic Surgery"; "Skin Care"];
         practiceType := "beauty";
         practiceId := practiceId;
         leadSource := "fallback-analysis";
         leadScore := leadScore_of r |}.

(** The body of [if (contentResult?.content?.[0]?.text) { try ... }]:
    [Some] is the early [return]. *)
Definition parseScraped (url text : string) : Js (option PracticeData) :=
  try_catch
    (do scrapedData <-
       match JSON_parse_page host text with
       | Some page => ret page
       | None => throw "Unexpected token in JSON"
       end;
     do domain <- hostname host url;
     let practiceId := generatePracticeId domain in
     do name <- generateDoctorName host firstNames lastNames;
     do r <- random host;
     ret (Some
       {| company := or_else (page_title scrapedData) (extractCompanyFromDomain domain);
          contactName := "Dr. " +:+ name;
          phone := or_else (page_contact scrapedData) "+44 20 7123 4567";
          email := or_else (page_email scrapedData) ("info@" +:+ domain);
          location := "London, UK";
          services :=
            match page_services scrapedData with
            | [] => ["Healthcare Services"]
            | l => l
            end;
          practiceType := "healthcare";
          practiceId := practiceId;
          leadSource := "playwright-mcp-scraping";
          leadScore := leadScore_of r |}))
    (fun _ => ret None).

(** [analyzeHealthcareWebsite(url)] *)
Definition analyzeHealthcareWebsite (url : string) : Js PracticeData :=
  do playwright <- get_client "playwright";
  do scraped <-
    match playwright with
    | Some client =>
        try_catch
          (do navigateResult <- callTool client "playwright_navigate";
           match navigateResult with
           | Some text =>
               if includes "Successfully navigated" text then
                 do _ts <- now host;
                 do_ callTool client "playwright_screenshot";
                 do contentResult <- callTool client "playwright_evaluate";
                 match contentResult with
                 | Some text' =>
                     if truthy text' then parseScraped url text' else ret None
                 | None => ret None
                 end
               else ret None
           | None => ret None
           end)
          (fun _ => ret None)
    | None => ret None
    end;
  match scraped with
  | Some data => ret data
  | None => fallbackAnalysis url
  end.

(** [createPersonalizedRepository(practiceData)] *)
Definition createPersonalizedRepository (practiceData : PracticeData) : Js Repository :=
  do timestamp <- now host;
  let repoName := practiceId practiceData +:+ "-mcp-demo-" +:+ pretty timestamp in
  try_catch
    (do repoResult <- execSync ("gh api --method POST /user/repos --field name='" +:+ repoName +:+ "'");
     do repository <-
       match JSON_parse_repository host repoResult with
       | Some repository => ret repository
       | None => throw "Unexpected token in JSON"
       end;
     let repoPath := "/tmp/" +:+ repoName in
     do_ execSync ("git clone " +:+ repo_clone_url repository +:+ " " +:+ repoPath);
     do_ execSync "rsync -av --exclude='.git' --exclude='node_modules'";
     do_ execSync "cp";
     do_ execSync ("cd " +:+ repoPath +:+ " && git add .");
     do_ execSync ("cd " +:+ repoPath +:+ " && git commit");
     do_ execSync ("cd " +:+ repoPath +:+ " && git push origin main");
     ret repository)
    (fun message => throw ("Repository creation failed: " +:+ message)).

Definition deployment_url (practiceData : PracticeData) : string :=
  "https://" +:+ practiceId practiceData +:+ "-mcp-demo-production.up.railway.app".

(** [deployToRailwayMCP(practiceData, repository)] *)
Definition deployToRailwayMCP (practiceData : PracticeData) (repository : Repository)
    : Js RailwayDeployment :=
  do railway <- get_client "railway";
  do deployed <-
    match railway with
    | Some client =>
        try_catch
          (do createResult <- callTool client "project_create";
           match createResult with
           | Some projectText =>
               if truthy projectText then
                 match match_project_id projectText with
                 | Some projectId =>
                     ret (Some {| deploy_url := deployment_url practiceData;
                                  deploy_status := "deployed";
                                  deploy_projectId := projectId;
                                  deploy_method := "railway-mcp" |})
                 | None => ret None
                 end
               else ret None
           | None => ret None
           end)
          (fun _ => ret None)
    | None => ret None
    end;
  match deployed with
  | Some deployment => ret deployment
  | None =>
      do t <- now host;
      ret {| deploy_url := deployment_url practiceData;
             deploy_status := "deployed";
             deploy_projectId := "fallback_" +:+ pretty t;
             deploy_method := "fallback" |}
  end.

Definition prefers (v : VoiceEntry) : bool :=
  includes "professional" (lower (voice_name v))
  || includes "female" (lower (voice_name v))
  || match voice_category v with
     | Some c => includes "conversational" (lower c)
     | None => false
     end.

(** [createVoiceAgentMCP(practiceData)] *)
Definition createVoiceAgentMCP (practiceData : PracticeData) : Js VoiceAgent :=
  do created <-
    try_catch
      (do_ (fun s => (Returned tt, set_elevenLabsClient true s));
       let healthcarePrompt :=
         "Hello, you've reached " +:+ company practiceData
         +:+ ". I'm your AI assistant, helping with appointments and information about our "
         +:+ String.concat ", " (services practiceData)
         +:+ " services. Dr. " +:+ contactName practiceData
         +:+ " and our team are here to provide excellent healthcare. How can I help you today?" in
       do voices <- external (voices_response host);
       match voices with
       | first :: _ =>
           let selectedVoice := default first (List.find prefers voices) in
           do audioResponse <- external (speech_response host);
           if audioResponse : bool then
             do_ external (buffer_response host);
             do _file_ts <- now host;
             do_ external (file_response host);
             do t <- now host;
             do _created_ts <- now host;
             ret (Some {| voice_status := "created_with_direct_api";
                          voice_agentId := "elevenlabs_voice_" +:+ pretty t;
                          voice_method := "elevenlabs_direct_api";
                          voice_voiceId := Some (voice_id selectedVoice);
                          voice_voiceName := Some (voice_name selectedVoice);
                          voice_prompt := healthcarePrompt;
                          voice_fallback_reason := None |})
           else ret None
       | [] => ret None
       end)
      (fun _ => ret None);
  match created with
  | Some voiceAgent => ret voiceAgent
  | None =>
      do t <- now host;
      do _created_ts <- now host;
      ret {| voice_status := "fallback_created";
             voice_agentId := "voice_agent_" +:+ practiceId practiceData +:+ "_" +:+ pretty t;
             voice_method := "fallback_enhanced";
             voice_voiceId := None;
             voice_voiceName := None;
             voice_prompt :=
               "Professional healthcare voice assistant for " +:+ company practiceData
               +:+ ". I assist patients with appointment booking, service information, and general inquiries. Specializing in: "
               +:+ String.concat ", " (services practiceData)
               +:+ ". Contact: " +:+ phone practiceData;
             voice_fallback_reason := Some "elevenlabs_direct_api_unavailable" |}
  end.

(** [storeLeadInNotionMCP(practiceData, deployment, voiceAgent)] *)
Definition storeLeadInNotionMCP (practiceData : PracticeData) (deployment : RailwayDeployment)
    (voiceAgent : VoiceAgent) : Js NotionStorage :=
  do notion <- get_client "notion";
  do stored <-
    match notion with
    | Some client =>
        try_catch
          (do pageResult <- callTool client "create-page";
           match pageResult with
           | Some text =>
               if truthy text then
                 ret (Some {| notion_status := "stored";
                              notion_pageId := text;
                              notion_method := "notion-mcp" |})
               else ret None
           | None => ret None
           end)
          (fun _ => ret None)
    | None => ret None
    end;
  match stored with
  | Some storage => ret storage
  | None =>
      do t <- now host;
      ret {| notion_status := "simulated";
             notion_pageId := "notion_page_" +:+ pretty t;
             notion_method := "fallback" |}
  end.

(** ** The pipeline *)

(** [processHealthcareWebsite(websiteUrl)] *)
Definition processHealthcareWebsite (websiteUrl : string) : Js LeadRecord :=
  do startTime <- now host;
  do t <- now host;
  let leadId := "lead-" +:+ pretty t in
  do_ log (LogPhase Discovery);
  try_catch
    (do scrapedData <- analyzeHealthcareWebsite websiteUrl;
     do_ log (LogPhaseDone Discovery);
     do_ log (LogPhase Provisioning);
     do repository <- createPersonalizedRepository scrapedData;
     do_ log (LogPhaseDone Provisioning);
     do_ log (LogPhase Deployment);
     do deployment <- deployToRailwayMCP scrapedData repository;
     do_ log (LogPhaseDone Deployment);
     do_ log (LogPhase Voice);
     do voiceAgent <- createVoiceAgentMCP scrapedData;
     do_ log (LogPhaseDone Voice);
     do_ log (LogPhase Storage);
     do notionStorage <- storeLeadInNotionMCP scrapedData deployment voiceAgent;
     do_ log (LogPhaseDone Storage);
     do t1 <- now host;
     let duration := (t1 - startTime)%Z in
     do timestamp <- now host;
     ret {| r_leadId := Some leadId;
            r_url := websiteUrl;
            r_status := "success";
            r_error := None;
            r_company := Some (company scrapedData);
            r_doctor := Some (contactName scrapedData);
            r_demoUrl := Some (deploy_url deployment);
            r_repositoryUrl := Some (repo_html_url repository);
            r_voiceAgentId := Some (voice_agentId voiceAgent);
            r_notionPageId := Some (notion_pageId notionStorage);
            r_leadScore := Some (leadScore scrapedData);
            r_services := Some (services scrapedData);
            r_leadSource := Some (leadSource scrapedData);
            r_duration := Some (round_seconds duration);
            r_timestamp := timestamp;
            r_method := Some "typescript-mcp-complete" |})
    (fun message =>
       do t1 <- now host;
       do timestamp <- now host;
       ret {| r_leadId := Some leadId;
              r_url := websiteUrl;
              r_status := "failed";
              r_error := Some message;
              r_company := None;
              r_doctor := None;
              r_demoUrl := None;
              r_repositoryUrl := None;
              r_voiceAgentId := None;
              r_notionPageId := None;
              r_leadScore := None;
              r_services := None;
              r_leadSource := None;
              r_duration := Some (round_seconds (t1 - startTime));
              r_timestamp := timestamp;
              r_method := Some "typescript-mcp" |}).

(** ** The batch *)

(** The record literal of the per-target handler of the batch loop:
    [{ url, status: 'failed', error: error.message, timestamp }]. *)
Definition failed_entry (url message : string) (timestamp : Z) : LeadRecord :=
  {| r_leadId := None;
     r_url := url;
     r_status := "failed";
     r_error := Some message;
     r_company := None;
     r_doctor := None;
     r_demoUrl := None;
     r_repositoryUrl := None;
     r_voiceAgentId := None;
     r_notionPageId := None;
     r_leadScore := None;
     r_services := None;
     r_leadSource := None;
     r_duration := None;
     r_timestamp := timestamp;
     r_method := None |}.

(** [executeAutonomousWorkflow(leadCount)], with the method that
    [this.processHealthcareWebsite] resolves to and the array held in
    [this.healthcareTargets] as parameters. *)
Definition executeAutonomousWorkflow_with
    (executor : string -> Js LeadRecord) (targets : list string)
    (leadCount : Z) : Js (list LeadRecord) :=
  let selectedUrls := slice0 leadCount targets in
  try_finally
    (do _connected <- connectAllMCPs;
     leads_loop host executor failed_entry (length selectedUrls) 0 selectedUrls [])
    disconnectAllMCPs.

Definition executeAutonomousWorkflow (leadCount : Z) : Js (list LeadRecord) :=
  executeAutonomousWorkflow_with processHealthcareWebsite healthcareTargets leadCount.

End Agent.

End Mcp.

(** * The direct agent (autonomous-agent.js) *)

Module Direct.

Record RailwayDeployment : Type := {
  deploy_url : string;
  deploy_status : string;
  deploy_projectId : string;
  deploy_serviceId : string
}.

Record LeadRecord : Type := {
  r_leadId : option string;
  r_url : string;
  r_status : string;
  r_error : option string;
  r_company : option string;
  r_doctor : option string;
  r_demoUrl : option string;
  r_agentId : option string;
  r_notionId : option string;
  r_repositoryUrl : option string;
  r_duration : option Z;
  r_timestamp : Z
}.

Definition firstNames : list string :=
  ["Sarah"; "Michael"; "Emma"; "James"; "Sophie"; "David"; "Rachel"; "Thomas"].
Definition lastNames : list string :=
  ["Smith"; "Johnson"; "Williams"; "Brown"; "Jones"; "Garcia"; "Miller"; "Davis"].

Definition healthcareTargets : list string :=
  ["https://www.theprivateclinic.co.uk";
   "https://www.harleystreetskinclinic.com";
   "https://www.152harleystreet.com";
   "https://www.eaclinic.co.uk";
   "https://harleyclinic.com";
   "https://www.111harleystreet.com";
   "https://www.theplasticsurgerygroup.co.uk";
   "https://www.harleymedical.co.uk"].

Section Agent.

Variable host : Host.
(** [this.config.masterAgentId] *)
Variable masterAgentId : string.

Definition execSync (command : string) : Js string :=
  external (shell_response host).

(** [scrapeHealthcareWebsite(url)] *)
Definition scrapeHealthcareWebsite (url : string) : Js PracticeData :=
  do domain <- hostname host url;
  let practiceId := generatePracticeId domain in
  do name <- generateDoctorName host firstNames lastNames;
  do r <- random host;
  ret {| company := extractCompanyFromDomain domain;
         contactName := "Dr. " +:+ name;
         phone := "+44 20 7123 4567";
         email := "info@" +:+ domain;
         location := "London, UK";
         services := ["Cosmetic Surgery"; "Dermatology"; "Aesthetic Treatments"];
         practiceType := "beauty";
         practiceId := practiceId;
         leadSource := "web-scraping";
         leadScore := leadScore_of r |}.

(** [storeLeadInNotion(leadData, websiteUrl)]: the value is the [id] of
    [response.data]. *)
Definition storeLeadInNotion (leadData : PracticeData) (websiteUrl : string) : Js string :=
  try_catch
    (do response <- external (notion_response host);
     ret response)
    (fun message => throw ("Notion storage failed: " +:+ message)).

(** [createElevenLabsAgent(practiceData)] *)
Definition createElevenLabsAgent (practiceData : PracticeData) : Js string :=
  try_catch
    (do t <- now host;
     let agentId := "agent_" +:+ pretty t +:+ "_" +:+ practiceId practiceData in
     ret agentId)
    (fun _ => ret masterAgentId).

(** [updatePracticeConfig(repoPath, practiceData, agentId)] *)
Definition updatePracticeConfig (repoPath : string) (practiceData : PracticeData)
    (agentId : string) : Js unit :=
  try_catch
    (do_ external (file_response host);
     external (file_response host))
    (fun _ => ret tt).

(** [updateBrandingStyling(repoPath, brandColors)] *)
Definition updateBrandingStyling (repoPath : string) : Js unit := ret tt.

(** [createEnvFile(repoPath, practiceData)] *)
Definition createEnvFile (repoPath : string) (practiceData : PracticeData) : Js unit :=
  try_catch (external (file_response host)) (fun _ => ret tt).

(** [personalizeRepository(repository, practiceData, agentId)] *)
Definition personalizeRepository (repository : Repository) (practiceData : PracticeData)
    (agentId : string) : Js unit :=
  let repoPath := "/tmp/" +:+ repo_name repository in
  try_catch
    (do_ execSync ("git clone " +:+ repo_clone_url repository +:+ " " +:+ repoPath);
     do_ execSync "rsync -av --exclude='.git' --exclude='node_modules'";
     do_ execSync "cp";
     do_ updatePracticeConfig repoPath practiceData agentId;
     do_ updateBrandingStyling repoPath;
     do_ createEnvFile repoPath practiceData;
     do_ execSync ("cd " +:+ repoPath +:+ " && git add .");
     do_ execSync ("cd " +:+ repoPath +:+ " && git commit");
     do_ execSync ("cd " +:+ repoPath +:+ " && git push origin main");
     ret tt)
    (fun message => throw ("Repository personalization failed: " +:+ message)).

(** [createPersonalizedRepository(practiceData, agentId)] *)
Definition createPersonalizedRepository (practiceData : PracticeData) (agentId : string)
    : Js Repository :=
  do timestamp <- now host;
  let repoName := practiceId practiceData +:+ "-demo-" +:+ pretty timestamp in
  try_catch
    (do repository <- external (github_response host);
     do_ personalizeRepository repository practiceData agentId;
     ret repository)
    (fun message => throw ("Repository creation failed: " +:+ message)).

(** [deployToRailway(practiceData, repository)] *)
Definition deployToRailway (practiceData : PracticeData) (repository : Repository)
    : Js RailwayDeployment :=
  let deploymentUrl :=
    "https://" +:+ practiceId practiceData +:+ "-service-production.up.railway.app" in
  try_catch
    (do_ sleep 2000;
     do t1 <- now host;
     do t2 <- now host;
     ret {| deploy_url := deploymentUrl;
            deploy_status := "deployed";
            deploy_projectId := "proj_" +:+ pretty t1;
            deploy_serviceId := "svc_" +:+ pretty t2 |})
    (fun message => throw ("Railway deployment failed: " +:+ message)).

(** [updateNotionWithResults(notionPageId, demoUrl, agentId)] *)
Definition updateNotionWithResults (notionPageId demoUrl agentId : string) : Js unit :=
  try_catch
    (do_ external (notion_response host); ret tt)
    (fun _ => ret tt).

(** [processHealthcareWebsite(websiteUrl)] *)
Definition processHealthcareWebsite (websiteUrl : string) : Js LeadRecord :=
  do startTime <- now host;
  do t <- now host;
  let leadId := "lead-" +:+ pretty t in
  do_ log (LogPhase Discovery);
  try_catch
    (do scrapedData <- scrapeHealthcareWebsite websiteUrl;
     do_ log (LogPhaseDone Discovery);
     do_ log (LogPhase Storage);
     do notionPage <- storeLeadInNotion scrapedData websiteUrl;
     do_ log (LogPhaseDone Storage);
     do_ log (LogPhase Voice);
     do agentId <- createElevenLabsAgent scrapedData;
     do_ log (LogPhaseDone Voice);
     do_ log (LogPhase Provisioning);
     do repository <- createPersonalizedRepository scrapedData agentId;
     do_ log (LogPhaseDone Provisioning);
     do_ log (LogPhase Deployment);
     do deployment <- deployToRailway scrapedData repository;
     do_ log (LogPhaseDone Deployment);
     do_ log (LogPhase StatusUpdate);
     do_ updateNotionWithResults notionPage (deploy_url deployment) agentId;
     do_ log (LogPhaseDone StatusUpdate);
     do t1 <- now host;
     let duration := (t1 - startTime)%Z in
     do timestamp <- now host;
     ret {| r_leadId := Some leadId;
            r_url := websiteUrl;
            r_status := "success";
            r_error := None;
            r_company := Some (company scrapedData);
            r_doctor := Some (contactName scrapedData);
            r_demoUrl := Some (deploy_url deployment);
            r_agentId := Some agentId;
            r_notionId := Some notionPage;
            r_repositoryUrl := Some (repo_html_url repository);
            r_duration := Some (round_seconds duration);
            r_timestamp := timestamp |})
    (fun message =>
       do t1 <- now host;
       do timestamp <- now host;
       ret {| r_leadId := Some leadId;
              r_url := websiteUrl;
              r_status := "failed";
              r_error := Some message;
              r_company := None;
              r_doctor := None;
              r_demoUrl := None;
              r_agentId := None;
              r_notionId := None;
              r_repositoryUrl := None;
              r_duration := Some (round_seconds (t1 - startTime));
              r_timestamp := timestamp |}).

(** The record literal of the per-target handler of the batch loop. *)
Definition failed_entry (url message : string) (timestamp : Z) : LeadRecord :=
  {| r_leadId := None;
     r_url := url;
     r_status := "failed";
     r_error := Some message;
     r_company := None;
     r_doctor := None;
     r_demoUrl := None;
     r_agentId := None;
     r_notionId := None;
     r_repositoryUrl := None;
     r_duration := None;
     r_timestamp := timestamp |}.

(** [executeAutonomousWorkflow(leadCount)]; the line of the summary that
    prints the total time reads the clock twice. *)
Definition executeAutonomousWorkflow_with
    (executor : string -> Js LeadRecord) (targets : list string)
    (leadCount : Z) : Js (list LeadRecord) :=
  let selectedUrls := slice0 leadCount targets in
  do results <- leads_loop host executor failed_entry (length selectedUrls) 0 selectedUrls [];
  do _t1 <- now host;
  do _t2 <- now host;
  ret results.

Definition executeAutonomousWorkflow (leadCount : Z) : Js (list LeadRecord) :=
  executeAutonomousWorkflow_with processHealthcareWebsite healthcareTargets leadCount.

End Agent.

End Direct.

(** * A concrete host for examples

    The clock advances by a second at each reading, every draw is the given
    one, a URL is parsed by dropping its "https://" scheme, no session can be
    opened and every provider interaction fails. *)

Definition strip_scheme (url : string) : option string :=
  if starts_with (chars "https://") (chars url)
  then Some (str (drop 8 (chars url)))
  else None.

Definition offline_host (draw : nat -> Q) : Host :=
  {| Date_now := fun n => (1700000000000 + 1000 * Z.of_nat n)%Z;
     Math_random := draw;
     URL_hostname := strip_scheme;
     connect_response := fun _ => Thrown "connect ECONNREFUSED";
     close_response := fun _ => Thrown "not connected";
     tool_response := fun _ => Thrown "not connected";
     shell_response := fun _ => Thrown "Command failed";
     file_response := fun _ => Thrown "ENOENT";
     notion_response := fun _ => Thrown "Request failed with status code 401";
     github_response := fun _ => Thrown "Request failed with status code 401";
     voices_response := fun _ => Thrown "fetch failed";
     speech_response := fun _ => Thrown "fetch failed";
     buffer_response := fun _ => Thrown "fetch failed";
     JSON_parse_page := fun _ => None;
     JSON_parse_repository := fun _ => None |}.

(** The same host, except that the shell commands of the provisioning phase
    succeed and print a repository. *)
Definition demo_repository : Repository :=
  {| repo_name := "demo";
     repo_clone_url := "https://github.com/agent/demo.git";
     repo_html_url := "https://github.com/agent/demo" |}.

Definition shell_only_host (draw : nat -> Q) : Host :=
  {| Date_now := Date_now (offline_host draw);
     Math_random := draw;
     URL_hostname := strip_scheme;
     connect_response := connect_response (offline_host draw);
     close_response := close_response (offline_host draw);
     tool_response := tool_response (offline_host draw);
     shell_response := fun _ => Returned "{}";
     file_response := file_response (offline_host draw);
     notion_response := notion_response (offline_host draw);
     github_response := github_response (offline_host draw);
     voices_response := voices_response (offline_host draw);
     speech_response := speech_response (offline_host draw);
     buffer_response := buffer_response (offline_host draw);
     JSON_parse_page := fun _ => None;
     JSON_parse_repository := fun _ => Some demo_repository |}.

(** A host on which every session opens and closes, and every other provider
    interaction fails. *)
Definition connected_host (draw : nat -> Q) : Host :=
  {| Date_now := Date_now (offline_host draw);
     Math_random := draw;
     URL_hostname := strip_scheme;
     connect_response := fun _ => Returned tt;
     close_response := fun _ => Returned tt;
     tool_response := tool_response (offline_host draw);
     shell_response := shell_response (offline_host draw);
     file_response := file_response (offline_host draw);
     notion_response := notion_response (offline_host draw);
     github_response := github_response (offline_host draw);
     voices_response := voices_response (offline_host draw);
     speech_response := speech_response (offline_host draw);
     buffer_response := buffer_response (offline_host draw);
     JSON_parse_page := fun _ => None;
     JSON_parse_repository := fun _ => None |}.

(** * Double precision

    [Math.random()] is a Number below 1, hence at most [max_draw].
    [value_of] reads a finite binary64 datum of the Standard Library as the
    rational it stands for. *)
Definition max_draw : Q := Eval vm_compute in (1 - (1 # (2 ^ 53)))%Q.

Definition value_of (f : spec_float) : Q :=
  match f with
  | S754_finite s m e => (inject_Z (if s then Z.neg m else Z.pos m) * pow2 e)%Q
  | _ => 0%Q
  end.

(** The Number written 0.3, the largest Number below 1/6, the largest
    multiple of [2^-52] below 5/6 and the largest Number below 1. *)
Definition three_tenths : spec_float := S754_finite false 5404319552844595 (-54).
Definition below_one_sixth : spec_float := S754_finite false 6004799503160661 (-55).
Definition below_five_sixths : spec_float := S754_finite false 3752999689475413 (-52).
Definition below_one : spec_float := S754_finite false (2 ^ 53 - 1) (-53).

(** * The naming rule in the words of the specification

    "Strip a leading "www." label and a known top-level-domain suffix, split
    the remaining segments on "-" and ".", capitalize each, join with spaces
    and append the word "Clinic"." *)

Module NamingSpec.

Definition strip_leading_www (s : list ascii) : list ascii :=
  if starts_with (chars "www.") s then drop 4 s else s.

Definition known_suffixes : list (list ascii) :=
  map chars [".com"; ".co.uk"; ".org"; ".net"].

Definition ends_with (t s : list ascii) : bool :=
  (length t <=? length s)%nat && list_eqb (drop (length s - length t) s) t.

Definition strip_known_suffix (s : list ascii) : list ascii :=
  match List.find (fun t => ends_with t s) known_suffixes with
  | Some t => take (length s - length t) s
  | None => s
  end.

Definition derivePracticeName (domain : string) : string :=
  let rest := strip_known_suffix (strip_leading_www (chars domain)) in
  str (join (chars " ") (map capitalize (split is_separator rest))) +:+ " Clinic".

End NamingSpec.

(** * Shapes of practice identifiers *)

Definition id_char (c : ascii) : bool := is_lower c || is_digit c || is_hyphen c.

Fixpoint no_double_hyphen (s : list ascii) : bool :=
  match s with
  | c :: (d :: _) as s' => negb (is_hyphen c && is_hyphen d) && no_double_hyphen s'
  | _ => true
  end.

Definition starts_with_hyphen (s : list ascii) : bool :=
  match s with
  | c :: _ => is_hyphen c
  | [] => false
  end.

Definition ends_with_hyphen (s : list ascii) : bool :=
  match last s with
  | Some c => is_hyphen c
  | None => false
  end.

(** * Observations on runs *)

Definition is_thrown {A} (o : Outcome A) : Prop :=
  match o with
  | Thrown _ => True
  | Returned _ => False
  end.

(** The banners of the phases, in the order of a run. *)
Definition is_phase_log (e : Event) : bool :=
  match e with
  | LogPhase _ | LogPhaseDone _ => true
  | _ => false
  end.

Definition phase_log (evs : list Event) : list Event := List.filter is_phase_log evs.

Definition schedule (order : list Phase) : list Event :=
  flat_map (fun p => [LogPhase p; LogPhaseDone p]) order.

(** The phases that were started, in the order of a run. *)
Fixpoint phases_started (evs : list Event) : list Phase :=
  match evs with
  | [] => []
  | LogPhase p :: evs' => p :: phases_started evs'
  | _ :: evs' => phases_started evs'
  end.

Definition claimed_order : list Phase :=
  [Discovery; Storage; Voice; Provisioning; Deployment].

Definition direct_order : list Phase :=
  [Discovery; Storage; Voice; Provisioning; Deployment; StatusUpdate].

Definition mcp_order : list Phase :=
  [Discovery; Provisioning; Deployment; Voice; Storage].

(** The events of the batch loop: the targets taken up and the suspensions
    between targets, which last three seconds (the deployment phase of the
    direct agent suspends on its own, for two seconds). *)
Definition is_batch_event (e : Event) : bool :=
  match e with
  | LogTarget _ => true
  | Slept ms => (ms =? 3000)%Z
  | _ => false
  end.

Definition batch_log (evs : list Event) : list Event := List.filter is_batch_event evs.

Definition is_suspension (e : Event) : bool :=
  match e with
  | Slept ms => (ms =? 3000)%Z
  | _ => false
  end.

Definition suspensions (evs : list Event) : nat := length (List.filter is_suspension evs).

(** One suspension between consecutive targets, none after the last. *)
Fixpoint batch_schedule (urls : list string) : list Event :=
  match urls with
  | [] => []
  | [url] => [LogTarget url]
  | url :: rest => LogTarget url :: Slept 3000 :: batch_schedule rest
  end.

(** Frame conditions on computations. *)
Definition preserves {X A} (proj : State -> X) (m : Js A) : Prop :=
  forall s, proj (snd (m s)) = proj s.

(** [m] only appends to the console, and what it appends satisfies [P]. *)
Definition emits {A} (P : Event -> bool) (m : Js A) : Prop :=
  forall s, exists evs, console (snd (m s)) = console s ++ evs /\ forallb P evs = true.

(** [m] never throws. *)
Definition total {A} (m : Js A) : Prop :=
  forall s, exists a s', m s = (Returned a, s').

(** No session is open, the voice API does not answer and the shell commands
    of the provisioning phase fail: every provider of the MCP agent is
    unavailable. *)
Definition mcp_providers_down (host : Host) (s : State) : Prop :=
  mcpClients s = ∅
  /\ (forall k, is_thrown (voices_response host k))
  /\ (forall k, is_thrown (shell_response host k)).

(** The providers of the MCP agent that have a fallback are unavailable. *)
Definition mcp_sessions_down (host : Host) (s : State) : Prop :=
  mcpClients s = ∅ /\ (forall k, is_thrown (voices_response host k)).

(** Every draw is a Number of the range of [Math.random()]. *)
Definition draws_in_range (host : Host) : Prop :=
  forall n,
    (0 <= Math_random host n)%Q /\ (Math_random host n < 1)%Q
    /\ binary64 (Math_random host n).

Definition half : nat -> Q := fun _ => (1 # 2)%Q.

(** The draws 0, 1/8, 2/8, ... 7/8, 0, ... *)
Definition eighths : nat -> Q := fun n => (Z.of_nat (n mod 8) # 8)%Q.

(** What the global replacements compute, as plain recursive functions. *)
Definition hyphenate (c : ascii) : ascii :=
  if is_lower c || is_digit c then c else hyphen.

Fixpoint collapse (after_hyphen : bool) (s : list ascii) : list ascii :=
  match s with
  | [] => []
  | c :: s' =>
      if is_hyphen c then
        if after_hyphen then collapse true s' else hyphen :: collapse true s'
      else c :: collapse false s'
  end.

Fixpoint trim_end (s : list ascii) : list ascii :=
  match s with
  | [] => []
  | c :: s' =>
      match s' with
      | [] => if is_hyphen c then [] else [c]
      | _ :: _ => c :: trim_end s'
      end
  end.

Definition trim (s : list ascii) : list ascii :=
  match s with
  | [] => []
  | c :: s' => if is_hyphen c then trim_end s' else c :: trim_end s'
  end.

(** The events that are not those of the batch loop. *)
Definition is_inner (e : Event) : bool := negb (is_batch_event e).

(** The targets taken up, in the order of a run. *)
Fixpoint targets_logged (evs : list Event) : list string :=
  match evs with
  | [] => []
  | LogTarget url :: evs' => url :: targets_logged evs'
  | _ :: evs' => targets_logged evs'
  end.

(** The state in which a target is handed to the executor: its line has
    been printed. *)
Definition announced (url : string) (s : State) : State :=
  set_console (console s ++ [LogTarget url]) s.

(** The state once an answer has been sent. *)
Definition answered (status : Z) (s : State) : State :=
  set_console (console s ++ [Answered status]) s.

(** [!!this.mcpClients[name]] *)
Definition has_session (name : string) (s : State) : bool :=
  match mcpClients s !! name with
  | Some _ => true
  | None => false
  end.

(** A batch that attempts every target: each in turn is announced and handed
    to the executor in the state then reached, and gives one record, the one
    that the executor returns or, when the executor throws, the record of the
    handler with the message of the fault and the instant then read; either
    way the batch goes on with the next target, after a suspension of three
    seconds at most. *)
Inductive attempts {R : Type} (host : Host) (executor : string -> Js R)
    (failed : string -> string -> Z -> R)
  : list string -> State -> list R -> State -> Prop :=
| attempts_done s : attempts host executor failed [] s [] s
| attempts_returned url rest s r s1 s2 records s' :
    executor url (announced url s) = (Returned r, s1) ->
    s2 = s1 \/ s2 = set_console (console s1 ++ [Slept 3000]) s1 ->
    attempts host executor failed rest s2 records s' ->
    attempts host executor failed (url :: rest) s (r :: records) s'
| attempts_faulted url rest s message s1 records s' :
    executor url (announced url s) = (Thrown message, s1) ->
    attempts host executor failed rest (set_clock_reads (S (clock_reads s1)) s1)
      records s' ->
    attempts host executor failed (url :: rest) s
      (failed url message (Date_now host (clock_reads s1)) :: records) s'.

(** An executor with a fault injected: it throws on the target [bad] and
    behaves as [executor] on the others. *)
Definition fails_on {R} (bad : string) (executor : string -> Js R) : string -> Js R :=
  fun url => if String.eqb url bad then throw "PipelineFault" else executor url.

(** * The rest of the two servers *)

(** ** Configuration

    [process.env.X || this.throwMissingEnvError('X')]: a variable that is
    unset or empty makes the constructor throw. *)

Definition missing_env_message (envVar : string) : string :=
  "🚨 SECURITY: " +:+ envVar
  +:+ " environment variable is required. Never hardcode API keys in source code!".

Definition require_env (env : gmap string string) (envVar : string) : Outcome string :=
  match env !! envVar with
  | Some value => if truthy value then Returned value else Thrown (missing_env_message envVar)
  | None => Thrown (missing_env_message envVar)
  end.

Definition and_then {A B} (o : Outcome A) (k : A -> Outcome B) : Outcome B :=
  match o with
  | Returned a => k a
  | Thrown e => Thrown e
  end.

(** [this.config] of the direct agent, in the order of its object literal. *)
Record DirectConfig : Type := {
  direct_githubToken : string;
  direct_railwayToken : string;
  direct_notionApiKey : string;
  direct_notionDatabaseId : string;
  direct_elevenLabsApiKey : string;
  direct_openRouterApiKey : string;
  direct_masterAgentId : string
}.

Definition direct_config (env : gmap string string) : Outcome DirectConfig :=
  and_then (require_env env "GITHUB_TOKEN") (fun githubToken =>
  and_then (require_env env "RAILWAY_TOKEN") (fun railwayToken =>
  and_then (require_env env "NOTION_API_KEY") (fun notionApiKey =>
  and_then (require_env env "NOTION_DATABASE_ID") (fun notionDatabaseId =>
  and_then (require_env env "ELEVENLABS_API_KEY") (fun elevenLabsApiKey =>
  and_then (require_env env "OPENROUTER_API_KEY") (fun openRouterApiKey =>
  and_then (require_env env "ELEVENLABS_AGENT_ID") (fun masterAgentId =>
  Returned {| direct_githubToken := githubToken;
              direct_railwayToken := railwayToken;
              direct_notionApiKey := notionApiKey;
              direct_notionDatabaseId := notionDatabaseId;
              direct_elevenLabsApiKey := elevenLabsApiKey;
              direct_openRouterApiKey := openRouterApiKey;
              direct_masterAgentId := masterAgentId |}))))))).

Definition direct_required : list string :=
  ["GITHUB_TOKEN"; "RAILWAY_TOKEN"; "NOTION_API_KEY"; "NOTION_DATABASE_ID";
   "ELEVENLABS_API_KEY"; "OPENROUTER_API_KEY"; "ELEVENLABS_AGENT_ID"].

(** The MCP agent reads its two Smithery settings first, then [this.config]. *)
Record McpConfig : Type := {
  mcp_smitheryApiKey : string;
  mcp_smitheryProfile : string;
  mcp_githubToken : string;
  mcp_railwayToken : string;
  mcp_notionDatabaseId : string;
  mcp_elevenlabsApiKey : string
}.

Definition mcp_config (env : gmap string string) : Outcome McpConfig :=
  and_then (require_env env "SMITHERY_API_KEY") (fun smitheryApiKey =>
  and_then (require_env env "SMITHERY_PROFILE") (fun smitheryProfile =>
  and_then (require_env env "GITHUB_TOKEN") (fun githubToken =>
  and_then (require_env env "RAILWAY_TOKEN") (fun railwayToken =>
  and_then (require_env env "NOTION_DATABASE_ID") (fun notionDatabaseId =>
  and_then (require_env env "ELEVENLABS_API_KEY") (fun elevenlabsApiKey =>
  Returned {| mcp_smitheryApiKey := smitheryApiKey;
              mcp_smitheryProfile := smitheryProfile;
              mcp_githubToken := githubToken;
              mcp_railwayToken := railwayToken;
              mcp_notionDatabaseId := notionDatabaseId;
              mcp_elevenlabsApiKey := elevenlabsApiKey |})))))).

Definition mcp_required : list string :=
  ["SMITHERY_API_KEY"; "SMITHERY_PROFILE"; "GITHUB_TOKEN"; "RAILWAY_TOKEN";
   "NOTION_DATABASE_ID"; "ELEVENLABS_API_KEY"].

(** The variable named by the exception: the first of [names] that is unset
    or empty. *)
Definition is_set (env : gmap string string) (envVar : string) : bool :=
  match env !! envVar with
  | Some value => truthy value
  | None => false
  end.

Definition first_missing (env : gmap string string) (names : list string) : option string :=
  List.find (fun envVar => negb (is_set env envVar)) names.

(** ** The practice configuration file

    The string computation of [updatePracticeConfig]: the new entry goes
    right after the opening brace of the declaration of [practiceConfigs]. *)

(** [s.indexOf(needle)], [None] for -1. *)
Fixpoint indexOf_chars (needle s : list ascii) : option nat :=
  if starts_with needle s then Some 0%nat
  else
    match s with
    | [] => None
    | _ :: s' => option_map S (indexOf_chars needle s')
    end.

(** [s.indexOf(needle, from)] *)
Definition indexOf_from (needle s : list ascii) (from : nat) : option nat :=
  option_map (fun i => (from + i)%nat) (indexOf_chars needle (drop from s)).

Definition configs_marker : string :=
  "export const practiceConfigs: Record<string, PracticeConfig> = {".

Definition insertPracticeConfig (originalConfig practiceConfig : string) : string :=
  let original := chars originalConfig in
  match indexOf_chars (chars configs_marker) original with
  | Some configsIndex =>
      let insertIndex :=
        match indexOf_from (chars "{") original configsIndex with
        | Some brace => S brace
        | None => 0%nat
        end in
      str (take insertIndex original ++ chars practiceConfig ++ drop insertIndex original)
  | None => originalConfig
  end.

(** ** Requests and answers

    [express.json()] parses the body of a POST request.  What the handlers
    read of it is [req.body]: [None] stands for a request whose body was not
    parsed, for which current versions of Express leave [req.body] undefined
    (earlier ones give the empty object, which is [Some] of a body without
    fields); destructuring it then throws.  A field that the body leaves out
    is [None]; a field that it gives is taken to be of the expected kind: an
    integer for [count], a string for [url], an array of strings for [urls]
    and an object for [practiceData]. *)

(** The message of the exception of [const { property } = req.body] when
    [req.body] is undefined. *)
Definition no_body_message (property : string) : string :=
  "Cannot destructure property '" +:+ property +:+ "' of 'req.body' as it is undefined.".

(** That of [practiceData.services.join(', ')] when [services] is missing. *)
Definition no_services_message : string :=
  "Cannot read properties of undefined (reading 'join')".

(** [const { property = value } = req.body] *)
Definition destructure {A} (property : string) (value : A) (body : option (option A))
    : Js A :=
  match body with
  | None => throw (no_body_message property)
  | Some field => ret (default value field)
  end.

(** ** The routes of the MCP agent *)

Module McpServer.

(** The practice of the body of [POST /test-elevenlabs]: an object, with or
    without the array of services that the voice phase joins. *)
Inductive VoicePractice : Type :=
| WithServices (practiceData : PracticeData)
| WithoutServices.

Inductive Request : Type :=
| GetHealth
| PostCreateLeads (body : option (option Z))
| GetMcpStatus
| PostTestPlaywright (body : option (option string))
| PostTestElevenLabs (body : option (option VoicePractice))
| PostTestNotion (body : option (option PracticeData)).

(** What [res.json] is given. *)
Inductive Body : Type :=
| Health (mcpStatus : string) (timestamp : Z)
| Leads (requested : Z) (completed : nat) (results : list Mcp.LeadRecord)
| Status (entries : list (string * Outcome nat))
| PlaywrightTest (playwright_available : bool) (analysis_result : PracticeData)
    (real_scraping : bool)
| ElevenLabsTest (elevenlabs_available : bool) (voice_agent : Mcp.VoiceAgent)
    (real_voice_creation : bool)
| NotionTest (notion_available : bool) (storage_result : Mcp.NotionStorage)
    (real_notion_storage : bool)
| Failure (error : string).

Record Response : Type := {
  res_status : Z;
  res_body : Body
}.

(** [res.status(n).json(body)]: the answer leaves when the handler reaches
    this call, before what the handler still has to do. *)
Definition respond (response : Response) : Js Response :=
  do_ log (Answered (res_status response));
  ret response.

(** The default bodies of the test routes; a field that the literal leaves
    out holds what a template literal prints for it. *)
Definition default_voice_data : PracticeData :=
  {| company := "Test Clinic";
     contactName := "Dr. Test";
     phone := "+44 20 1234 5678";
     email := "undefined";
     location := "London";
     services := ["General Practice"];
     practiceType := "undefined";
     practiceId := "undefined";
     leadSource := "undefined";
     leadScore := 0 |}.

Definition default_notion_data : PracticeData :=
  {| company := "Test Practice";
     contactName := "Dr. Test";
     phone := "+44 20 1234 5678";
     email := "test@example.com";
     location := "undefined";
     services := [];
     practiceType := "undefined";
     practiceId := "undefined";
     leadSource := "undefined";
     leadScore := 85 |}.

Definition mockDeployment : Mcp.RailwayDeployment :=
  {| Mcp.deploy_url := "https://test-demo.railway.app";
     Mcp.deploy_status := "undefined";
     Mcp.deploy_projectId := "undefined";
     Mcp.deploy_method := "undefined" |}.

Definition mockVoiceAgent : Mcp.VoiceAgent :=
  {| Mcp.voice_status := "created";
     Mcp.voice_agentId := "test_voice_123";
     Mcp.voice_method := "undefined";
     Mcp.voice_voiceId := None;
     Mcp.voice_voiceName := None;
     Mcp.voice_prompt := "undefined";
     Mcp.voice_fallback_reason := None |}.

(** [results.filter(r => r.status === 'success').length] *)
Definition completed_of (results : list Mcp.LeadRecord) : nat :=
  length (List.filter (fun r => String.eqb (Mcp.r_status r) "success") results).

Definition failed_of (results : list Mcp.LeadRecord) : nat :=
  length (List.filter (fun r => String.eqb (Mcp.r_status r) "failed") results).

Section Routes.

Variable host : Host.
(** The response of [client.listTools()], as the number of tools. *)
Variable listTools_response : nat -> Outcome nat.

Definition get_clients : Js Sessions := fun s => (Returned (mcpClients s), s).

(** [GET /health] *)
Definition health : Js Response :=
  do timestamp <- now host;
  do clients <- get_clients;
  respond {| res_status := 200;
             res_body := Health (if (0 <? size clients)%nat then "connected"
                                 else "disconnected")
                           timestamp |}.

(** [POST /create-leads] *)
Definition createLeads (body : option (option Z)) : Js Response :=
  try_catch
    (do count <- destructure "count" 1%Z body;
     do results <- Mcp.executeAutonomousWorkflow host count;
     respond {| res_status := 200;
                res_body := Leads count (completed_of results) results |})
    (fun message => respond {| res_status := 500; res_body := Failure message |}).

Fixpoint status_of_all (entries : list (string * string))
    (status : list (string * Outcome nat)) : Js (list (string * Outcome nat)) :=
  match entries with
  | [] => ret status
  | (name, _) :: rest =>
      do entry <-
        try_catch
          (do toolCount <- external listTools_response;
           ret (name, Returned toolCount))
          (fun message => ret (name, Thrown message));
      status_of_all rest (status ++ [entry])
  end.

(** [GET /mcp-status] *)
Definition mcpStatus : Js Response :=
  do clients <- get_clients;
  do status <- status_of_all (entries clients) [];
  respond {| res_status := 200; res_body := Status status |}.

(** [POST /test-playwright]: the [try] and [catch] blocks, in which the
    answer is sent, and the handler, whose [finally] block runs after
    them. *)
Definition testPlaywright_try (body : option (option string)) : Js Response :=
  try_catch
    (do url <- destructure "url" "https://example.com" body;
     do playwright <- Mcp.get_client "playwright";
     match playwright with
     | None =>
         respond {| res_status := 503;
                    res_body := Failure "Playwright MCP not connected" |}
     | Some _ =>
         do connected <- Mcp.connectAllMCPs host;
         if connected : bool then
           do result <- Mcp.analyzeHealthcareWebsite host url;
           do client <- Mcp.get_client "playwright";
           respond {| res_status := 200;
                      res_body :=
                        PlaywrightTest
                          (match client with Some _ => true | None => false end)
                          result
                          (String.eqb (leadSource result) "playwright-mcp-scraping") |}
         else
           respond {| res_status := 503;
                      res_body := Failure "Failed to connect to MCP services" |}
     end)
    (fun message => respond {| res_status := 500; res_body := Failure message |}).

Definition testPlaywright (body : option (option string)) : Js Response :=
  try_finally (testPlaywright_try body) (Mcp.disconnectAllMCPs host).

(** [createVoiceAgentMCP(practiceData)] on a practice without [services]:
    the prompt of the [try] block throws before the voices are asked for, and
    that of the fallback throws again, once the clock has been read for the
    identifier of the agent. *)
Definition createVoiceAgent_without_services : Js Mcp.VoiceAgent :=
  do_ (fun s => (Returned tt, set_elevenLabsClient true s));
  do _t <- now host;
  throw no_services_message.

Definition createVoiceAgent_of (practice : VoicePractice) : Js Mcp.VoiceAgent :=
  match practice with
  | WithServices practiceData => Mcp.createVoiceAgentMCP host practiceData
  | WithoutServices => createVoiceAgent_without_services
  end.

(** [POST /test-elevenlabs] *)
Definition testElevenLabs_try (body : option (option VoicePractice)) : Js Response :=
  try_catch
    (do practiceData <- destructure "practiceData" (WithServices default_voice_data) body;
     do connected <- Mcp.connectAllMCPs host;
     if connected : bool then
       do voiceAgent <- createVoiceAgent_of practiceData;
       do client <- Mcp.get_client "elevenlabs";
       respond {| res_status := 200;
                  res_body :=
                    ElevenLabsTest
                      (match client with Some _ => true | None => false end)
                      voiceAgent
                      (String.eqb (Mcp.voice_method voiceAgent) "elevenlabs-mcp") |}
     else
       respond {| res_status := 503;
                  res_body := Failure "Failed to connect to MCP services" |})
    (fun message => respond {| res_status := 500; res_body := Failure message |}).

Definition testElevenLabs (body : option (option VoicePractice)) : Js Response :=
  try_finally (testElevenLabs_try body) (Mcp.disconnectAllMCPs host).

(** [POST /test-notion] *)
Definition testNotion_try (body : option (option PracticeData)) : Js Response :=
  try_catch
    (do practiceData <- destructure "practiceData" default_notion_data body;
     do connected <- Mcp.connectAllMCPs host;
     if connected : bool then
       do notionStorage <-
         Mcp.storeLeadInNotionMCP host practiceData mockDeployment mockVoiceAgent;
       do client <- Mcp.get_client "notion";
       respond {| res_status := 200;
                  res_body :=
                    NotionTest
                      (match client with Some _ => true | None => false end)
                      notionStorage
                      (String.eqb (Mcp.notion_method notionStorage) "notion-mcp") |}
     else
       respond {| res_status := 503;
                  res_body := Failure "Failed to connect to MCP services" |})
    (fun message => respond {| res_status := 500; res_body := Failure message |}).

Definition testNotion (body : option (option PracticeData)) : Js Response :=
  try_finally (testNotion_try body) (Mcp.disconnectAllMCPs host).

Definition handle (request : Request) : Js Response :=
  match request with
  | GetHealth => health
  | PostCreateLeads body => createLeads body
  | GetMcpStatus => mcpStatus
  | PostTestPlaywright body => testPlaywright body
  | PostTestElevenLabs body => testElevenLabs body
  | PostTestNotion body => testNotion body
  end.

(** Requests handled one after the other, the handler of each running to its
    end before the next request is taken up. *)
Fixpoint serve (requests : list Request) : Js (list Response) :=
  match requests with
  | [] => ret []
  | request :: rest =>
      do response <- handle request;
      do responses <- serve rest;
      ret (response :: responses)
  end.

End Routes.

End McpServer.

(** ** The routes of the direct agent *)

Module DirectServer.

Inductive Body : Type :=
| Leads (requested : Z) (completed : nat) (results : list Direct.LeadRecord)
| Processed (processed : nat) (results : list Direct.LeadRecord)
| BadRequest (error : string)
| Failure (error : string).

Record Response : Type := {
  res_status : Z;
  res_body : Body
}.

Definition respond (response : Response) : Js Response :=
  do_ log (Answered (res_status response));
  ret response.

Definition completed_of (results : list Direct.LeadRecord) : nat :=
  length (List.filter (fun r => String.eqb (Direct.r_status r) "success") results).

Definition failed_of (results : list Direct.LeadRecord) : nat :=
  length (List.filter (fun r => String.eqb (Direct.r_status r) "failed") results).

Section Routes.

Variable host : Host.
Variable masterAgentId : string.

(** [POST /create-leads] *)
Definition createLeads (body : option (option Z)) : Js Response :=
  try_catch
    (do count <- destructure "count" 1%Z body;
     do results <- Direct.executeAutonomousWorkflow host masterAgentId count;
     respond {| res_status := 200;
                res_body := Leads count (completed_of results) results |})
    (fun message => respond {| res_status := 500; res_body := Failure message |}).

(** [for (const url of urls) { ... results.push(result) }] *)
Fixpoint process_all (urls : list string) (results : list Direct.LeadRecord)
    : Js (list Direct.LeadRecord) :=
  match urls with
  | [] => ret results
  | url :: rest =>
      do result <- Direct.processHealthcareWebsite host masterAgentId url;
      process_all rest (results ++ [result])
  end.

(** [POST /process-urls]; the field [urls] is [None] when the body leaves it
    out or gives something that is not an array. *)
Definition processUrls (body : option (option (list string))) : Js Response :=
  try_catch
    (do urls <-
       match body with
       | None => throw (no_body_message "urls")
       | Some urls => ret urls
       end;
     match urls with
     | None => respond {| res_status := 400; res_body := BadRequest "URLs array required" |}
     | Some urls =>
         do results <- process_all urls [];
         respond {| res_status := 200; res_body := Processed (length urls) results |}
     end)
    (fun message => respond {| res_status := 500; res_body := Failure message |}).

End Routes.

End DirectServer.

(** ** Shapes of company names *)

Definition not_separator (c : ascii) : bool := negb (is_separator c).

(** ** Sessions

    What a computation that opens sessions under the names [names], in at
    most [n] attempts, does to the state: it returns, keeps the sessions of
    the other names and drops none; when it answers [true] an attempt of its
    own was accepted, and when it answers [false] its [n] attempts were all
    refused and the sessions are as before. *)
Definition connects (host : Host) (names : list string) (n : nat) (m : Js bool) : Prop :=
  forall s, exists b s',
    m s = (Returned b, s')
    /\ (forall name, name ∉ names -> mcpClients s' !! name = mcpClients s !! name)
    /\ (forall name, is_Some (mcpClients s !! name) -> is_Some (mcpClients s' !! name))
    /\ (calls s <= calls s' <= calls s + n)%nat
    /\ if b then
         exists k, (calls s <= k < calls s')%nat /\ connect_response host k = Returned tt
       else
         mcpClients s' = mcpClients s
         /\ calls s' = (calls s + n)%nat
         /\ forall k, (calls s <= k < calls s + n)%nat -> is_thrown (connect_response host k).

(** ** The answers of a server that holds no session

    What the MCP agent answers to a request whose handler starts while no
    session is open. *)
Definition connection_refused : McpServer.Response :=
  {| McpServer.res_status := 503;
     McpServer.res_body := McpServer.Failure "Failed to connect to MCP services" |}.

Definition no_body (property : string) : McpServer.Response :=
  {| McpServer.res_status := 500;
     McpServer.res_body := McpServer.Failure (no_body_message property) |}.

Definition idle_answer (request : McpServer.Request) (response : McpServer.Response) : Prop :=
  match request with
  | McpServer.GetHealth =>
      exists timestamp,
        response = {| McpServer.res_status := 200;
                      McpServer.res_body := McpServer.Health "disconnected" timestamp |}
  | McpServer.GetMcpStatus =>
      response = {| McpServer.res_status := 200;
                    McpServer.res_body := McpServer.Status [] |}
  | McpServer.PostTestPlaywright None => response = no_body "url"
  | McpServer.PostTestPlaywright (Some _) =>
      response = {| McpServer.res_status := 503;
                    McpServer.res_body := McpServer.Failure "Playwright MCP not connected" |}
  | McpServer.PostCreateLeads None => response = no_body "count"
  | McpServer.PostCreateLeads (Some _) => McpServer.res_status response = 200%Z
  | McpServer.PostTestElevenLabs None | McpServer.PostTestNotion None =>
      response = no_body "practiceData"
  | McpServer.PostTestElevenLabs (Some (Some McpServer.WithoutServices)) =>
      response = connection_refused
      \/ response = {| McpServer.res_status := 500;
                       McpServer.res_body := McpServer.Failure no_services_message |}
  | McpServer.PostTestElevenLabs (Some _) | McpServer.PostTestNotion (Some _) =>
      response = connection_refused \/ McpServer.res_status response = 200%Z
  end.

(** * Naming: proofs *)

Section NamingFacts.

Import NamingSpec.

Lemma list_eqb_eq (s t : list ascii) : list_eqb s t = true <-> s = t.
Proof.
  revert t; induction s as [|c s IH]; intros [|d t]; simpl; split; try easy.
  - rewrite andb_true_iff, Ascii.eqb_eq, IH. intros [-> ->]; reflexivity.
  - intros [= -> ->]. rewrite andb_true_iff, Ascii.eqb_eq, IH. easy.
Qed.

Lemma replace_first_eq (m : Matcher) (bol : bool) (s : list ascii) :
  replace_first m bol s =
  match m bol s with
  | Some n => drop n s
  | None =>
      match s with
      | [] => []
      | c :: s' => c :: replace_first m false s'
      end
  end.
Proof. destruct s; reflexivity. Qed.

Lemma re_www_not_bol (s : list ascii) : replace_first re_www false s = s.
Proof.
  induction s as [|c s IH]; [reflexivity|].
  rewrite replace_first_eq. unfold re_www at 1. cbn [andb]. now rewrite IH.
Qed.

Lemma replace_www (s : list ascii) :
  replace_first re_www true s = strip_leading_www s.
Proof.
  unfold strip_leading_www. rewrite replace_first_eq. unfold re_www at 1.
  cbn [andb]. destruct (starts_with (chars "www.") s); [reflexivity|].
  destruct s as [|c s]; [reflexivity|]. now rewrite re_www_not_bol.
Qed.

(** The expression for the suffix matches exactly the known suffixes, and
    then to the end of the input. *)
Lemma re_tld_Some (b : bool) (s : list ascii) (n : nat) :
  re_tld b s = Some n -> In s known_suffixes /\ n = length s.
Proof.
  unfold re_tld, known_suffixes. simpl map.
  repeat match goal with
         | |- context [list_eqb s ?t] =>
             let E := fresh "E" in
             destruct (list_eqb s t) eqn:E;
             [apply list_eqb_eq in E; subst s; intros [= <-]; simpl; auto 6 |]
         end.
  discriminate.
Qed.

Lemma re_tld_known (b : bool) (t : list ascii) :
  In t known_suffixes -> re_tld b t = Some (length t).
Proof.
  unfold known_suffixes; simpl.
  intros [<- | [<- | [<- | [<- | []]]]]; reflexivity.
Qed.

Lemma re_tld_None (b : bool) (s : list ascii) :
  ~ In s known_suffixes -> re_tld b s = None.
Proof.
  intros H. destruct (re_tld b s) eqn:E; [|reflexivity].
  apply re_tld_Some in E. tauto.
Qed.

(** No known suffix is a proper suffix of another one. *)
Lemma known_suffix_not_nested (c : ascii) (p t : list ascii) :
  In t known_suffixes -> ~ In (c :: p ++ t) known_suffixes.
Proof.
  unfold known_suffixes; simpl.
  intros Ht Hs.
  destruct Ht as [<- | [<- | [<- | [<- | []]]]];
    destruct Hs as [Hs | [Hs | [Hs | [Hs | []]]]];
    destruct p as [|x [|y p]]; simpl in Hs; try discriminate Hs;
    apply (f_equal (@length ascii)) in Hs; simpl in Hs;
    rewrite ?length_app in Hs; simpl in Hs; lia.
Qed.

Lemma replace_tld_suffix (b : bool) (p t : list ascii) :
  In t known_suffixes -> replace_first re_tld b (p ++ t) = p.
Proof.
  intros Ht. revert b; induction p as [|c p IH]; intros b.
  - simpl app. destruct t as [|d t].
    + exfalso. revert Ht. unfold known_suffixes; simpl.
      intros [H | [H | [H | [H | []]]]]; discriminate H.
    + rewrite replace_first_eq, (re_tld_known b (d :: t) Ht). apply drop_all.
  - change ((c :: p) ++ t) with (c :: p ++ t).
    rewrite replace_first_eq.
    rewrite (re_tld_None b (c :: p ++ t)) by now apply known_suffix_not_nested.
    now rewrite IH.
Qed.

Lemma replace_tld_none (b : bool) (s : list ascii) :
  (forall p t, In t known_suffixes -> s <> p ++ t) ->
  replace_first re_tld b s = s.
Proof.
  revert b; induction s as [|c s IH]; intros b H.
  - rewrite replace_first_eq, re_tld_None; [reflexivity|].
    intros Hin. now apply (H [] []).
  - rewrite replace_first_eq, re_tld_None.
    + rewrite IH; [reflexivity|].
      intros p t Ht ->. now apply (H (c :: p) t).
    + intros Hin. now apply (H [] (c :: s)).
Qed.

Lemma ends_with_split (t s : list ascii) :
  ends_with t s = true <-> s = take (length s - length t) s ++ t.
Proof.
  unfold ends_with. rewrite andb_true_iff, Nat.leb_le, list_eqb_eq. split.
  - intros [_ H]. rewrite <- (take_drop (length s - length t) s) at 1.
    now rewrite H.
  - intros H. assert (L : (length t <= length s)%nat).
    { rewrite H, length_app. lia. }
    split; [exact L|].
    rewrite H at 2. rewrite drop_app_length'; [reflexivity|].
    rewrite length_take. lia.
Qed.

Lemma replace_tld (s : list ascii) :
  replace_first re_tld true s = strip_known_suffix s.
Proof.
  unfold strip_known_suffix.
  destruct (List.find (fun t => ends_with t s) known_suffixes) as [t|] eqn:F.
  - apply find_some in F as [Ht E]. apply ends_with_split in E.
    rewrite E at 1. now apply replace_tld_suffix.
  - apply replace_tld_none. intros p t Ht ->.
    apply (find_none _ _ F) in Ht.
    assert (ends_with t (p ++ t) = true); [|congruence].
    apply ends_with_split.
    rewrite length_app, Nat.add_sub, take_app_length. reflexivity.
Qed.

Lemma extractCompanyFromDomain_spec (domain : string) :
  extractCompanyFromDomain domain = derivePracticeName domain.
Proof.
  unfold extractCompanyFromDomain, derivePracticeName.
  now rewrite replace_www, replace_tld.
Qed.

End NamingFacts.

Example practice_ids_of_targets :
  map (fun url => option_map generatePracticeId (strip_scheme url)) Mcp.healthcareTargets
  = [Some "theprivateclinic"; Some "harleystreetskinclinic"; Some "152harleystreet";
     Some "eaclinic"; Some "harleyclinic"].
Proof. reflexivity. Qed.

Example company_of_target :
  extractCompanyFromDomain "www.harleystreetskinclinic.com" = "Harleystreetskinclinic Clinic".
Proof. reflexivity. Qed.

Example practice_id_of_odd_domain :
  generatePracticeId "--a..b--.net" = "a-b".
Proof. reflexivity. Qed.

(** C3. The practice name is computed from the domain alone, by the rule of
    the specification: strip a leading "www." and a known suffix, split on
    "-" and ".", capitalize, join with spaces, append "Clinic"; for
    "www.example-clinic.co.uk" it is "Example Clinic Clinic". *)
Theorem practice_name_derivation :
  (forall domain, extractCompanyFromDomain domain = NamingSpec.derivePracticeName domain)
  /\ extractCompanyFromDomain "www.example-clinic.co.uk" = "Example Clinic Clinic".
Proof.
  split.
  - apply extractCompanyFromDomain_spec.
  - reflexivity.
Qed.

(** * Practice identifiers: proofs *)

Section PracticeIdFacts.

Lemma replace_all_cons (m : Matcher) (r : list ascii) (bol : bool) (c : ascii)
    (s : list ascii) :
  replace_all m r bol 0 (c :: s) =
  match m bol (c :: s) with
  | Some (S k) => r ++ replace_all m r false k s
  | _ => c :: replace_all m r false 0 s
  end.
Proof. reflexivity. Qed.

Lemma replace_not_alnum (b : bool) (s : list ascii) :
  replace_all re_not_alnum [hyphen] b 0 s = map hyphenate s.
Proof.
  revert b; induction s as [|c s IH]; intros b; [reflexivity|].
  rewrite replace_all_cons. unfold re_not_alnum at 1.
  cbn [map]. unfold hyphenate at 1.
  destruct (is_lower c || is_digit c); cbn [app]; now rewrite IH.
Qed.

Lemma replace_hyphens (s : list ascii) :
  (forall b, replace_all re_hyphens [hyphen] b 0 s = collapse false s)
  /\ (forall b, replace_all re_hyphens [hyphen] b (leading_hyphens s) s = collapse true s).
Proof.
  induction s as [|c s [IH0 IH1]]; [split; reflexivity|].
  split; intros b.
  - rewrite replace_all_cons. unfold re_hyphens at 1.
    cbn [leading_hyphens collapse].
    destruct (is_hyphen c); cbn [app].
    + now rewrite IH1.
    + now rewrite IH0.
  - cbn [leading_hyphens collapse].
    destruct (is_hyphen c) eqn:E.
    + cbn [replace_all]. apply IH1.
    + rewrite replace_all_cons. unfold re_hyphens at 1.
      cbn [leading_hyphens]. rewrite E. now rewrite IH0.
Qed.

Lemma replace_edge_inner (s : list ascii) :
  replace_all re_edge_hyphen [] false 0 s = trim_end s.
Proof.
  induction s as [|c s IH]; [reflexivity|].
  rewrite replace_all_cons. unfold re_edge_hyphen at 1. cbn [trim_end].
  destruct (is_hyphen c), s as [|d s]; try reflexivity; cbn [app]; now rewrite IH.
Qed.

Lemma replace_edge (s : list ascii) :
  replace_all re_edge_hyphen [] true 0 s = trim s.
Proof.
  destruct s as [|c s]; [reflexivity|].
  rewrite replace_all_cons. unfold re_edge_hyphen at 1. cbn [trim].
  destruct (is_hyphen c); cbn [app]; now rewrite replace_edge_inner.
Qed.

Lemma generatePracticeId_eq (domain : string) :
  chars (generatePracticeId domain) =
  take 25 (trim (collapse false (map hyphenate (toLowerCase
    (replace_first re_tld true (replace_first re_www true (chars domain))))))).
Proof.
  unfold generatePracticeId, chars, str, substring0.
  rewrite list_ascii_of_string_of_list_ascii.
  rewrite replace_not_alnum, (proj1 (replace_hyphens _)), replace_edge.
  reflexivity.
Qed.

Lemma no_double_hyphen_cons (c : ascii) (s : list ascii) :
  no_double_hyphen (c :: s) =
  negb (is_hyphen c && starts_with_hyphen s) && no_double_hyphen s.
Proof. destruct s; [|reflexivity]. simpl. now rewrite andb_false_r. Qed.

Lemma hyphenate_id_char (c : ascii) : id_char (hyphenate c) = true.
Proof.
  unfold hyphenate, id_char.
  destruct (is_lower c || is_digit c) eqn:E; [now rewrite E|].
  apply orb_true_r.
Qed.

Lemma collapse_id_char (b : bool) (s : list ascii) :
  forallb id_char s = true -> forallb id_char (collapse b s) = true.
Proof.
  revert b; induction s as [|c s IH]; intros b; [reflexivity|].
  cbn [forallb collapse]. rewrite andb_true_iff. intros [Hc Hs].
  destruct (is_hyphen c), b; cbn [forallb]; rewrite ?IH by assumption;
    rewrite ?Hc; reflexivity.
Qed.

Lemma collapse_shape (b : bool) (s : list ascii) :
  no_double_hyphen (collapse b s) = true
  /\ (b = true -> starts_with_hyphen (collapse b s) = false).
Proof.
  revert b; induction s as [|c s IH]; intros b; [split; reflexivity|].
  cbn [collapse]. destruct (is_hyphen c) eqn:E.
  - destruct b.
    + apply IH.
    + destruct (IH true) as [N S]. split; [|discriminate].
      rewrite no_double_hyphen_cons, N, (S eq_refl). now rewrite andb_false_r.
  - destruct (IH false) as [N _]. split.
    + rewrite no_double_hyphen_cons, N, E. reflexivity.
    + intros _. simpl. exact E.
Qed.

Lemma trim_end_id_char (s : list ascii) :
  forallb id_char s = true -> forallb id_char (trim_end s) = true.
Proof.
  induction s as [|c s IH]; [reflexivity|].
  cbn [forallb trim_end]. rewrite andb_true_iff. intros [Hc Hs].
  destruct s as [|d s].
  - destruct (is_hyphen c); cbn [forallb]; rewrite ?Hc; reflexivity.
  - cbn [forallb]. rewrite Hc. now apply IH.
Qed.

Lemma trim_end_head (s : list ascii) :
  starts_with_hyphen s = false -> starts_with_hyphen (trim_end s) = false.
Proof.
  destruct s as [|c [|d s]]; intros H; [reflexivity | | exact H].
  simpl in *. now rewrite H.
Qed.

Lemma trim_end_no_double (s : list ascii) :
  no_double_hyphen s = true -> no_double_hyphen (trim_end s) = true.
Proof.
  induction s as [|c s IH]; [reflexivity|].
  rewrite no_double_hyphen_cons, andb_true_iff. intros [Hc Hs].
  cbn [trim_end]. destruct s as [|d s].
  - now destruct (is_hyphen c).
  - rewrite no_double_hyphen_cons, IH by assumption.
    destruct (is_hyphen c); [|reflexivity].
    apply negb_true_iff in Hc. cbn [andb] in Hc.
    now rewrite (trim_end_head (d :: s) Hc).
Qed.

Lemma take_id_char (n : nat) (s : list ascii) :
  forallb id_char s = true -> forallb id_char (take n s) = true.
Proof.
  revert n; induction s as [|c s IH]; intros [|n]; try reflexivity.
  cbn [forallb take firstn]. rewrite !andb_true_iff. intros [Hc Hs]. auto.
Qed.

Lemma take_head (n : nat) (s : list ascii) :
  starts_with_hyphen s = false -> starts_with_hyphen (take n s) = false.
Proof. destruct s, n; auto. Qed.

Lemma take_no_double (n : nat) (s : list ascii) :
  no_double_hyphen s = true -> no_double_hyphen (take n s) = true.
Proof.
  revert n; induction s as [|c s IH]; intros [|n]; try reflexivity.
  change (take (S n) (c :: s)) with (c :: take n s).
  rewrite !no_double_hyphen_cons, !andb_true_iff. intros [Hc Hs].
  split; [|auto].
  destruct (is_hyphen c); [|reflexivity].
  apply negb_true_iff in Hc. cbn [andb] in *. now rewrite take_head.
Qed.

(** What does hold of every practice identifier: its characters, the
    absence of doubled and of leading hyphens, and its length. *)
Lemma generatePracticeId_shape (domain : string) :
  let id := chars (generatePracticeId domain) in
  forallb id_char id = true
  /\ no_double_hyphen id = true
  /\ starts_with_hyphen id = false
  /\ (length id <= 25)%nat.
Proof.
  cbv zeta. rewrite generatePracticeId_eq.
  set (s := map hyphenate _).
  assert (Hs : forallb id_char s = true).
  { subst s. apply forallb_forall. intros c Hc.
    apply in_map_iff in Hc as [c' [<- _]]. apply hyphenate_id_char. }
  pose proof (collapse_id_char false s Hs) as Hc.
  destruct (collapse_shape false s) as [Nc _].
  set (t := collapse false s) in *.
  assert (Ht : forallb id_char (trim t) = true
               /\ no_double_hyphen (trim t) = true
               /\ starts_with_hyphen (trim t) = false).
  { destruct t as [|c t]; [repeat split|].
    cbn [trim]. cbn [forallb] in Hc. apply andb_true_iff in Hc as [Hc1 Hc2].
    rewrite no_double_hyphen_cons in Nc. apply andb_true_iff in Nc as [Nc1 Nc2].
    destruct (is_hyphen c) eqn:E.
    - apply negb_true_iff in Nc1. cbn [andb] in Nc1.
      auto using trim_end_id_char, trim_end_no_double, trim_end_head.
    - repeat split.
      + cbn [forallb]. rewrite Hc1. now apply trim_end_id_char.
      + rewrite no_double_hyphen_cons, E. now apply trim_end_no_double.
      + exact E. }
  destruct Ht as (H1 & H2 & H3).
  repeat split.
  - now apply take_id_char.
  - now apply take_no_double.
  - now apply take_head.
  - rewrite length_take. lia.
Qed.

End PracticeIdFacts.

(** C10. The practice identifier of a domain whose 25th character, once
    cleaned, is a hyphen ends with that hyphen: the identifier is cut to 25
    characters after the hyphens at its ends have been removed. *)
Theorem generatePracticeId_trailing_hyphen :
  generatePracticeId "the-london-harley-street-clinic.com" = "the-london-harley-street-"
  /\ ends_with_hyphen (chars (generatePracticeId "the-london-harley-street-clinic.com")) = true.
Proof. split; reflexivity. Qed.

(** * Lead scores: proofs *)

Lemma pow2_pos (e : Z) : (0 < pow2 e)%Q.
Proof. apply Qpower_0_lt. reflexivity. Qed.

Lemma pow2_add (a b : Z) : (pow2 (a + b) == pow2 a * pow2 b)%Q.
Proof. apply Qpower_plus. discriminate. Qed.

Lemma pow2_le (a b : Z) : (a <= b)%Z -> (pow2 a <= pow2 b)%Q.
Proof. intros H. apply Qpower_le_compat_l; [exact H | discriminate]. Qed.

Lemma pow2_lt_inv (a b : Z) : (pow2 a < pow2 b)%Q -> (a < b)%Z.
Proof. intros H. apply (Qpower_lt_compat_l_inv 2); [exact H | reflexivity]. Qed.

Lemma pow2_Z (e : Z) : (0 <= e)%Z -> (pow2 e == inject_Z (2 ^ e))%Q.
Proof. intros H. unfold pow2. now rewrite Zpower_Qpower. Qed.

Lemma pow2_opp (e : Z) : (pow2 (- e) * pow2 e == 1)%Q.
Proof.
  rewrite <- pow2_add. replace (- e + e)%Z with 0%Z by lia. reflexivity.
Qed.

Lemma exponent_le (x : Q) : (0 < x)%Q -> (pow2 (exponent x) <= x)%Q.
Proof.
  intros H. unfold exponent. destruct (Qle_bool 1 x) eqn:E.
  - apply Qle_bool_iff in E.
    assert (F : (1 <= Qfloor x)%Z).
    { rewrite <- (Qfloor_Z 1). now apply Qfloor_resp_le. }
    apply Qle_trans with (inject_Z (Qfloor x)); [|apply Qfloor_le].
    rewrite pow2_Z by apply Z.log2_nonneg. rewrite <- Zle_Qle.
    apply Z.log2_spec. lia.
  - assert (L : (x < 1)%Q).
    { apply Qnot_le_lt. intros C. apply Qle_bool_iff in C. congruence. }
    set (c := Qceiling (/ x)).
    assert (I : (/ x <= inject_Z c)%Q) by apply Qle_ceiling.
    assert (P : (0 < / x)%Q) by now apply Qinv_lt_0_compat.
    assert (U : (inject_Z c <= pow2 (Z.log2_up c))%Q).
    { rewrite pow2_Z by apply Z.log2_up_nonneg. rewrite <- Zle_Qle.
      destruct (Z.le_gt_cases c 1) as [C|C].
      - replace (Z.log2_up c) with 0%Z; [simpl; lia|].
        symmetry. apply Z.log2_up_eqn0. lia.
      - apply Z.log2_up_spec. lia. }
    assert (B : (/ x <= pow2 (Z.log2_up c))%Q) by (eapply Qle_trans; eauto).
    pose proof (pow2_pos (Z.log2_up c)) as Pp.
    pose proof (pow2_opp (Z.log2_up c)) as O.
    pose proof (pow2_pos (- Z.log2_up c)) as Pn.
    (* x * (1/x) = 1 *)
    assert (X : (x * / x == 1)%Q) by (apply Qmult_inv_r; intros Z0; lra).
    set (a := pow2 (- Z.log2_up c)) in *. set (b := pow2 (Z.log2_up c)) in *.
    set (ix := (/ x)%Q) in *. clearbody a b ix.
    (* a * b = 1, x * ix = 1, ix <= b  |-  a <= x *)
    apply Qnot_lt_le. intros C.
    assert ((x * ix < a * b)%Q); [|lra].
    apply Qle_lt_trans with (x * b)%Q.
    + apply Qmult_le_l; [exact H | exact B].
    + apply Qmult_lt_r; [exact Pp | exact C].
Qed.

Lemma round_half_even_le (y : Q) : (inject_Z (round_half_even y) <= y + (1 # 2))%Q.
Proof.
  unfold round_half_even. pose proof (Qfloor_le y) as F.
  set (f := Qfloor y) in *.
  destruct (Qcompare_spec (y - inject_Z f) (1 # 2)) as [E|E|E].
  - destruct (Z.even f); [lra|]. rewrite inject_Z_plus. change (inject_Z 1) with 1%Q. lra.
  - lra.
  - rewrite inject_Z_plus. change (inject_Z 1) with 1%Q. lra.
Qed.

Lemma round_half_even_nonneg (y : Q) : (0 <= y)%Q -> (0 <= round_half_even y)%Z.
Proof.
  intros H. unfold round_half_even.
  assert (F : (0 <= Qfloor y)%Z).
  { rewrite <- (Qfloor_Z 0). now apply Qfloor_resp_le. }
  destruct (y - inject_Z (Qfloor y) ?= 1 # 2)%Q; [destruct (Z.even _)| |]; lia.
Qed.

Lemma fl64_nonneg (x : Q) : (0 <= x)%Q -> (0 <= fl64 x)%Q.
Proof.
  intros H. unfold fl64. destruct (Qcompare_spec x 0) as [E|E|E]; [lra | lra |].
  unfold fl64_pos. apply Qmult_le_0_compat; [|apply Qlt_le_weak, pow2_pos].
  change 0%Q with (inject_Z 0). rewrite <- Zle_Qle.
  apply round_half_even_nonneg. apply Qle_shift_div_l; [apply pow2_pos | lra].
Qed.

(** A number below 1 is at most the largest of them. *)
Lemma binary64_below_one (r : Q) : binary64 r -> (r < 1)%Q -> (r <= max_draw)%Q.
Proof.
  intros (m & e & Hm & He & E) L. unfold max_draw.
  destruct (Qlt_le_dec (1 # 2) r) as [C|C]; [|lra].
  pose proof (pow2_pos e) as P.
  assert (M : (0 < m)%Z).
  { apply Z.lt_nge. intros N. assert (inject_Z m <= 0)%Q by (change 0%Q with (inject_Z 0); now rewrite <- Zle_Qle).
    assert (inject_Z m * pow2 e <= 0)%Q; [|lra].
    rewrite <- (Qmult_0_l (pow2 e)). apply Qmult_le_compat_r; lra. }
  destruct (Z.lt_ge_cases e (-53)) as [S|S].
  - exfalso.
    assert (pow2 e <= pow2 (-54))%Q by (apply pow2_le; lia).
    assert (inject_Z m <= inject_Z (2 ^ 53))%Q by (rewrite <- Zle_Qle; lia).
    assert (inject_Z m * pow2 e <= inject_Z (2 ^ 53) * pow2 (-54))%Q.
    { apply Qle_trans with (inject_Z (2 ^ 53) * pow2 e)%Q.
      - apply Qmult_le_compat_r; lra.
      - apply Qmult_le_l; [reflexivity | assumption]. }
    assert (inject_Z (2 ^ 53) * pow2 (-54) == 1 # 2)%Q by reflexivity. lra.
  - assert (D : (pow2 e == inject_Z (2 ^ (e + 53)) * pow2 (-53))%Q).
    { rewrite <- pow2_Z by lia. rewrite <- pow2_add. now replace (e + 53 + -53)%Z with e by lia. }
    assert (R : (r == inject_Z (m * 2 ^ (e + 53)) * pow2 (-53))%Q).
    { rewrite E, D, inject_Z_mult. ring. }
    set (k := (m * 2 ^ (e + 53))%Z) in *.
    assert (K : (k < 2 ^ 53)%Z).
    { rewrite Zlt_Qlt. apply Qmult_lt_r with (pow2 (-53)); [apply pow2_pos|].
      rewrite <- R. assert (inject_Z (2 ^ 53) * pow2 (-53) == 1)%Q by reflexivity. lra. }
    assert (inject_Z k <= inject_Z (2 ^ 53 - 1))%Q by (rewrite <- Zle_Qle; lia).
    assert (inject_Z k * pow2 (-53) <= inject_Z (2 ^ 53 - 1) * pow2 (-53))%Q
      by (apply Qmult_le_compat_r; [assumption | apply Qlt_le_weak, pow2_pos]).
    assert (inject_Z (2 ^ 53 - 1) * pow2 (-53) == 9007199254740991 # 9007199254740992)%Q
      by reflexivity.
    lra.
Qed.

(** The rounded product of a number below 1 by a positive integer stays
    below that integer. *)
Lemma fl64_product_below (r : Q) (n : Z) :
  (0 <= r)%Q -> (r <= max_draw)%Q -> (0 < n < 2 ^ 53)%Z ->
  (fl64 (r * inject_Z n) < inject_Z n)%Q.
Proof.
  intros H0 H1 Hn. unfold max_draw in H1.
  assert (N0 : (0 < inject_Z n)%Q) by (change 0%Q with (inject_Z 0); rewrite <- Zlt_Qlt; lia).
  set (x := (r * inject_Z n)%Q).
  assert (X0 : (0 <= x)%Q) by (apply Qmult_le_0_compat; lra).
  assert (X1 : (x <= inject_Z n - inject_Z n * (1 # 9007199254740992))%Q).
  { unfold x.
    assert (F : (inject_Z n - inject_Z n * (1 # 9007199254740992)
                 == (9007199254740991 # 9007199254740992) * inject_Z n)%Q) by ring.
    rewrite F. apply Qmult_le_compat_r; lra. }
  unfold fl64. destruct (Qcompare_spec x 0) as [E|E|E]; [lra | lra |].
  unfold fl64_pos. set (q := ulp_exponent x).
  pose proof (exponent_le x E) as L.
  pose proof (pow2_pos q) as P.
  assert (Ex : (exponent x < 53)%Z).
  { apply pow2_lt_inv. apply Qle_lt_trans with x; [exact L|].
    apply Qlt_le_trans with (inject_Z n); [lra|].
    rewrite pow2_Z by lia. rewrite <- Zle_Qle. lia. }
  assert (Q0 : (q <= 0)%Z) by (unfold q, ulp_exponent; lia).
  assert (G : (pow2 (q + 52) < inject_Z n)%Q).
  { unfold q, ulp_exponent.
    destruct (Z.max_spec (exponent x - 52) (-1074)) as [[_ ->]|[_ ->]].
    - apply Qlt_le_trans with 1%Q; [reflexivity|].
      change 1%Q with (inject_Z 1). rewrite <- Zle_Qle. lia.
    - replace (exponent x - 52 + 52)%Z with (exponent x) by lia. lra. }
  set (K := (n * 2 ^ (- q))%Z).
  assert (HK : (inject_Z K * pow2 q == inject_Z n)%Q).
  { unfold K. rewrite inject_Z_mult, <- pow2_Z by lia.
    rewrite <- Qmult_assoc, pow2_opp. ring. }
  assert (Hq : (pow2 (q + 52) == pow2 q * 4503599627370496)%Q).
  { rewrite pow2_add. apply Qmult_comp; [reflexivity | vm_compute; reflexivity]. }
  set (y := (x / pow2 q)%Q).
  assert (Y : (y * pow2 q == x)%Q) by (unfold y; field; lra).
  assert (R : (inject_Z (round_half_even y) <= inject_Z (K - 1))%Q).
  { rewrite <- Zle_Qle. apply Z.lt_succ_r. replace (Z.succ (K - 1)) with K by lia.
    rewrite Zlt_Qlt. apply Qle_lt_trans with (y + (1 # 2))%Q; [apply round_half_even_le|].
    apply Qmult_lt_r with (pow2 q); [exact P|].
    rewrite HK. rewrite Qmult_plus_distr_l, Y.
    set (p := pow2 q) in *. set (pp := pow2 (q + 52)) in *.
    set (i := inject_Z n) in *. clearbody p pp i x. lra. }
  apply Qle_lt_trans with (inject_Z (K - 1) * pow2 q)%Q.
  - apply Qmult_le_compat_r; [exact R | lra].
  - replace (K - 1)%Z with (K + -1)%Z by lia.
    rewrite inject_Z_plus, Qmult_plus_distr_l, HK.
    change (inject_Z (-1)) with (-1 # 1)%Q. lra.
Qed.

Lemma floor_scaled_bounds (r : Q) (n : Z) :
  (0 < n < 2 ^ 53)%Z -> (0 <= r)%Q -> (r < 1)%Q -> binary64 r ->
  (0 <= floor_scaled r n < n)%Z.
Proof.
  intros Hn H0 H1 B. unfold floor_scaled. split.
  - rewrite <- (Qfloor_Z 0). apply Qfloor_resp_le. apply fl64_nonneg.
    apply Qmult_le_0_compat; [exact H0|].
    change 0%Q with (inject_Z 0). rewrite <- Zle_Qle. lia.
  - rewrite Zlt_Qlt.
    eapply Qle_lt_trans; [apply Qfloor_le|].
    apply fl64_product_below; auto using binary64_below_one.
Qed.

Lemma leadScore_of_bounds (r : Q) :
  (0 <= r)%Q -> (r < 1)%Q -> binary64 r -> (70 <= leadScore_of r <= 99)%Z.
Proof.
  intros H0 H1 B. unfold leadScore_of.
  assert (N : (0 < 30 < 2 ^ 53)%Z) by (split; reflexivity).
  pose proof (floor_scaled_bounds r 30 N H0 H1 B). lia.
Qed.

(** The rounding agrees with the multiplication of the Standard Library's
    binary64 on the cases where it matters: 0.3 times 30 is 9, not a Number
    below 9; the largest Number below 1/6 times 6 is 1; the largest draw
    times 30 or 6 stays below 30 or 6. *)
Example fl64_agrees_with_SFmul :
  Forall (fun '(a, b) =>
            Qeq_bool (fl64 (value_of a * value_of b))
                     (value_of (SFmul 53 1024 a b)) = true)
    [(three_tenths, S754_finite false 15 1);
     (below_one_sixth, S754_finite false 3 1);
     (below_one, S754_finite false 15 1);
     (below_one, S754_finite false 3 1);
     (below_five_sixths, S754_finite false 3 1);
     (S754_finite false 1 (-1074), S754_finite false 15 1);
     (S754_finite false 7 (-3), S754_finite false 3 1)].
Proof. repeat constructor. Qed.

Example three_tenths_scores_79 :
  leadScore_of (value_of three_tenths) = 79%Z
  /\ (Qfloor (value_of three_tenths * 30) + 70 = 78)%Z.
Proof. split; reflexivity. Qed.

(** The rounding decides the name: for these two draws the product by 6 is a
    tie that goes to the integer above. *)
Example rounding_picks_the_name :
  floor_scaled (value_of below_one_sixth) 6 = 1%Z
  /\ Qfloor (value_of below_one_sixth * 6) = 0%Z
  /\ floor_scaled (value_of below_five_sixths) 6 = 5%Z
  /\ Qfloor (value_of below_five_sixths * 6) = 4%Z.
Proof. repeat split. Qed.

Example largest_draw_times_thirty :
  SFmul 53 1024 below_one (S754_finite false 15 1)
  = S754_finite false (15 * 2 ^ 49 - 1) (-48)
  /\ leadScore_of max_draw = 99%Z.
Proof. split; vm_compute; reflexivity. Qed.

(** * Sessions: the map *)

Lemma sessions_lookup_empty (name : string) : (∅ : Sessions) !! name = None.
Proof. reflexivity. Qed.

Lemma sessions_lookup_insert (clients : Sessions) (name client : string) :
  <[name := client]> clients !! name = Some client.
Proof.
  destruct clients as [l]. unfold lookup, insert, sessions_lookup, sessions_insert.
  cbn [entries]. induction l as [|[name' client'] l IH]; cbn [assoc_insert assoc_lookup].
  - now rewrite String.eqb_refl.
  - destruct (String.eqb name' name) eqn:E; cbn [assoc_lookup]; rewrite E; auto.
Qed.

Lemma sessions_lookup_insert_ne (clients : Sessions) (name other client : string) :
  name <> other -> <[name := client]> clients !! other = clients !! other.
Proof.
  intros N. destruct clients as [l]. unfold lookup, insert, sessions_lookup, sessions_insert.
  cbn [entries]. induction l as [|[name' client'] l IH]; cbn [assoc_insert assoc_lookup].
  - apply String.eqb_neq in N. now rewrite N.
  - destruct (String.eqb name' name) eqn:E; cbn [assoc_lookup]; [|now rewrite IH].
    apply String.eqb_eq in E. subst name'. apply String.eqb_neq in N. now rewrite N.
Qed.

(** * Frame rules *)

Section FrameRules.

Context {X : Type} (proj : State -> X).

Lemma preserves_ret {A} (a : A) : preserves proj (ret a).
Proof. intros s; reflexivity. Qed.

Lemma preserves_throw {A} (e : string) : preserves proj (@throw A e).
Proof. intros s; reflexivity. Qed.

Lemma preserves_bind {A B} (m : Js A) (k : A -> Js B) :
  preserves proj m -> (forall a, preserves proj (k a)) -> preserves proj (bind m k).
Proof.
  intros Hm Hk s. unfold bind. specialize (Hm s).
  destruct (m s) as [[a|e] s1]; simpl in *; [|exact Hm].
  rewrite <- Hm. apply Hk.
Qed.

Lemma preserves_try_catch {A} (body : Js A) (handler : string -> Js A) :
  preserves proj body -> (forall e, preserves proj (handler e)) ->
  preserves proj (try_catch body handler).
Proof.
  intros Hm Hk s. unfold try_catch. specialize (Hm s).
  destruct (body s) as [[a|e] s1]; simpl in *; [exact Hm|].
  rewrite <- Hm. apply Hk.
Qed.

Lemma preserves_hostname (host : Host) (url : string) :
  preserves proj (hostname host url).
Proof.
  unfold hostname. destruct (URL_hostname host url);
    [apply preserves_ret | apply preserves_throw].
Qed.

End FrameRules.

Lemma now_console host : preserves console (now host).
Proof. intros s; reflexivity. Qed.
Lemma now_clients host : preserves mcpClients (now host).
Proof. intros s; reflexivity. Qed.
Lemma random_console host : preserves console (random host).
Proof. intros s; reflexivity. Qed.
Lemma random_clients host : preserves mcpClients (random host).
Proof. intros s; reflexivity. Qed.
Lemma external_console {A} (response : nat -> Outcome A) :
  preserves console (external response).
Proof. intros s; reflexivity. Qed.
Lemma external_clients {A} (response : nat -> Outcome A) :
  preserves mcpClients (external response).
Proof. intros s; reflexivity. Qed.
Lemma log_clients (e : Event) : preserves mcpClients (log e).
Proof. intros s; reflexivity. Qed.
Lemma sleep_clients (ms : Z) : preserves mcpClients (sleep ms).
Proof. intros s; reflexivity. Qed.
Lemma get_client_console name : preserves console (Mcp.get_client name).
Proof. intros s; reflexivity. Qed.
Lemma get_client_clients name : preserves mcpClients (Mcp.get_client name).
Proof. intros s; reflexivity. Qed.
Lemma set_client_console name client : preserves console (Mcp.set_client name client).
Proof. intros s; reflexivity. Qed.
Lemma set_elevenLabsClient_frame {X} (proj : State -> X) (b : bool) :
  (forall s, proj (set_elevenLabsClient b s) = proj s) ->
  preserves proj (fun s => (Returned tt, set_elevenLabsClient b s)).
Proof. intros H s. apply H. Qed.

Create HintDb frame.
#[local] Hint Resolve now_console now_clients random_console random_clients
  external_console external_clients log_clients sleep_clients
  get_client_console get_client_clients set_client_console : frame.
#[local] Hint Extern 1 (preserves _ (hostname _ _)) => apply preserves_hostname : frame.

(** Decompose a frame goal along the structure of the computation. *)
Ltac frame_step :=
  first
    [ solve [auto with frame]
    | apply preserves_ret
    | apply preserves_throw
    | apply preserves_bind; [| intros ?]
    | apply preserves_try_catch; [| intros ?]
    | apply set_elevenLabsClient_frame; reflexivity
    | match goal with
      | |- preserves _ (match ?x with _ => _ end) => destruct x
      end ].

Ltac frame := cbv zeta; repeat frame_step.

Lemma generateDoctorName_console host (firsts lasts : list string) :
  preserves console (generateDoctorName host firsts lasts).
Proof. unfold generateDoctorName. frame. Qed.

Lemma generateDoctorName_clients host (firsts lasts : list string) :
  preserves mcpClients (generateDoctorName host firsts lasts).
Proof. unfold generateDoctorName. frame. Qed.

#[local] Hint Resolve generateDoctorName_console generateDoctorName_clients : frame.

Module McpFrames.

Import Mcp.

Lemma fallbackAnalysis_console host url : preserves console (fallbackAnalysis host url).
Proof. unfold fallbackAnalysis. frame. Qed.
Lemma fallbackAnalysis_clients host url : preserves mcpClients (fallbackAnalysis host url).
Proof. unfold fallbackAnalysis. frame. Qed.
#[export] Hint Resolve fallbackAnalysis_console fallbackAnalysis_clients : frame.

Lemma parseScraped_console host url text : preserves console (parseScraped host url text).
Proof. unfold parseScraped. frame. Qed.
Lemma parseScraped_clients host url text : preserves mcpClients (parseScraped host url text).
Proof. unfold parseScraped. frame. Qed.
#[export] Hint Resolve parseScraped_console parseScraped_clients : frame.

Lemma analyze_console host url : preserves console (analyzeHealthcareWebsite host url).
Proof. unfold analyzeHealthcareWebsite, callTool. frame. Qed.
Lemma analyze_clients host url : preserves mcpClients (analyzeHealthcareWebsite host url).
Proof. unfold analyzeHealthcareWebsite, callTool. frame. Qed.

Lemma mcp_createRepository_console host data :
  preserves console (createPersonalizedRepository host data).
Proof. unfold createPersonalizedRepository, execSync. frame. Qed.
Lemma mcp_createRepository_clients host data :
  preserves mcpClients (createPersonalizedRepository host data).
Proof. unfold createPersonalizedRepository, execSync. frame. Qed.

Lemma mcp_deploy_console host data repo :
  preserves console (deployToRailwayMCP host data repo).
Proof. unfold deployToRailwayMCP, callTool. frame. Qed.
Lemma mcp_deploy_clients host data repo :
  preserves mcpClients (deployToRailwayMCP host data repo).
Proof. unfold deployToRailwayMCP, callTool. frame. Qed.

Lemma voice_console host data : preserves console (createVoiceAgentMCP host data).
Proof. unfold createVoiceAgentMCP. frame. Qed.
Lemma voice_clients host data : preserves mcpClients (createVoiceAgentMCP host data).
Proof. unfold createVoiceAgentMCP. frame. Qed.

Lemma notion_console host data deployment voiceAgent :
  preserves console (storeLeadInNotionMCP host data deployment voiceAgent).
Proof. unfold storeLeadInNotionMCP, callTool. frame. Qed.
Lemma notion_clients host data deployment voiceAgent :
  preserves mcpClients (storeLeadInNotionMCP host data deployment voiceAgent).
Proof. unfold storeLeadInNotionMCP, callTool. frame. Qed.

End McpFrames.

(** * The pipelines: symbolic runs *)

Lemma sub_2 (n : nat) : (S (S n) - 2 = n)%nat.
Proof. lia. Qed.

(** Unfold the sequencing of a pipeline body. *)
Ltac run := cbv beta iota zeta delta [bind try_catch now log sleep ret throw].

(** Reduce the state reached so far. *)
Ltac settle :=
  cbv beta iota;
  cbn [calls clock_reads draws mcpClients elevenLabsClient console
       set_calls set_clock_reads set_draws set_mcpClients set_elevenLabsClient
       set_console].

(** Case analysis on the completion of the next phase, with its frame
    conditions [F1] (console) and [F2] (sessions). *)
Ltac phase F1 F2 :=
  match goal with
  | |- context [let (_, _) := ?m ?s in _] =>
      let o := fresh "o" in
      let s' := fresh "s" in
      let C := fresh "C" in
      let M := fresh "M" in
      pose proof (F1 s) as C; pose proof (F2 s) as M;
      destruct (m s) as [o s'];
      cbn [snd console mcpClients set_console set_clock_reads] in C, M;
      destruct o
  end.

(** Close a leaf of the case analysis: the run has returned a record. *)
Ltac leaf :=
  do 3 eexists; split; [reflexivity|];
  cbn [console mcpClients clock_reads set_console set_clock_reads];
  repeat match goal with
         | H : console ?x = _ |- context [console ?x] => rewrite H
         | H : mcpClients ?x = _ |- context [mcpClients ?x] => rewrite H
         end;
  rewrite ?sub_2;
  split; [rewrite <- ?app_assoc; cbn [app]; reflexivity|].

Module McpPipeline.

Import Mcp McpFrames.

Lemma mcp_process_spec host url s :
  exists r s' evs,
    processHealthcareWebsite host url s = (Returned r, s')
    /\ console s' = console s ++ evs
    /\ mcpClients s' = mcpClients s
    /\ r_url r = url
    /\ r_duration r =
         Some (round_seconds (Date_now host (clock_reads s' - 2)
                              - Date_now host (clock_reads s)))
    /\ batch_log evs = []
    /\ (exists rest, schedule mcp_order = phase_log evs ++ rest)
    /\ ((r_status r = "success" /\ r_error r = None
         /\ phase_log evs = schedule mcp_order)
        \/ (r_status r = "failed" /\ exists m, r_error r = Some m)).
Proof.
  unfold processHealthcareWebsite. run.
  phase (analyze_console host url) (analyze_clients host url);
    [phase (mcp_createRepository_console host a) (mcp_createRepository_clients host a);
     [phase (mcp_deploy_console host a a0) (mcp_deploy_clients host a a0);
      [phase (voice_console host a) (voice_clients host a);
       [phase (notion_console host a a1 a2) (notion_clients host a a1 a2)|]|]|]|];
    leaf; cbn [r_url r_duration r_status r_error];
    (repeat split; [eexists; reflexivity | eauto]).
Qed.

End McpPipeline.

Module DirectFrames.

Import Direct.

Lemma execSync_console host command : preserves console (execSync host command).
Proof. unfold execSync. frame. Qed.
Lemma execSync_clients host command : preserves mcpClients (execSync host command).
Proof. unfold execSync. frame. Qed.
#[export] Hint Resolve execSync_console execSync_clients : frame.

Lemma scrape_console host url : preserves console (scrapeHealthcareWebsite host url).
Proof. unfold scrapeHealthcareWebsite. frame. Qed.
Lemma scrape_clients host url : preserves mcpClients (scrapeHealthcareWebsite host url).
Proof. unfold scrapeHealthcareWebsite. frame. Qed.

Lemma store_console host data url : preserves console (storeLeadInNotion host data url).
Proof. unfold storeLeadInNotion. frame. Qed.
Lemma store_clients host data url : preserves mcpClients (storeLeadInNotion host data url).
Proof. unfold storeLeadInNotion. frame. Qed.

Lemma agent_console host master data :
  preserves console (createElevenLabsAgent host master data).
Proof. unfold createElevenLabsAgent. frame. Qed.
Lemma agent_clients host master data :
  preserves mcpClients (createElevenLabsAgent host master data).
Proof. unfold createElevenLabsAgent. frame. Qed.

Lemma personalize_console host repo data agentId :
  preserves console (personalizeRepository host repo data agentId).
Proof.
  unfold personalizeRepository, updatePracticeConfig, updateBrandingStyling,
    createEnvFile, execSync. frame.
Qed.
Lemma personalize_clients host repo data agentId :
  preserves mcpClients (personalizeRepository host repo data agentId).
Proof.
  unfold personalizeRepository, updatePracticeConfig, updateBrandingStyling,
    createEnvFile, execSync. frame.
Qed.
#[export] Hint Resolve personalize_console personalize_clients : frame.

Lemma direct_createRepository_console host data agentId :
  preserves console (createPersonalizedRepository host data agentId).
Proof. unfold createPersonalizedRepository. frame. Qed.
Lemma direct_createRepository_clients host data agentId :
  preserves mcpClients (createPersonalizedRepository host data agentId).
Proof. unfold createPersonalizedRepository. frame. Qed.

(** The deployment phase suspends once, for two seconds, and cannot throw. *)
Lemma direct_deploy_console host data repo s :
  console (snd (deployToRailway host data repo s)) = console s ++ [Slept 2000].
Proof. reflexivity. Qed.
Lemma direct_deploy_clients host data repo : preserves mcpClients (deployToRailway host data repo).
Proof. unfold deployToRailway. frame. Qed.

Lemma update_console host page demoUrl agentId :
  preserves console (updateNotionWithResults host page demoUrl agentId).
Proof. unfold updateNotionWithResults. frame. Qed.
Lemma update_clients host page demoUrl agentId :
  preserves mcpClients (updateNotionWithResults host page demoUrl agentId).
Proof. unfold updateNotionWithResults. frame. Qed.

End DirectFrames.

Module DirectPipeline.

Import Direct DirectFrames.

Lemma direct_process_spec host master url s :
  exists r s' evs,
    processHealthcareWebsite host master url s = (Returned r, s')
    /\ console s' = console s ++ evs
    /\ mcpClients s' = mcpClients s
    /\ r_url r = url
    /\ r_duration r =
         Some (round_seconds (Date_now host (clock_reads s' - 2)
                              - Date_now host (clock_reads s)))
    /\ batch_log evs = []
    /\ (exists rest, schedule direct_order = phase_log evs ++ rest)
    /\ ((r_status r = "success" /\ r_error r = None
         /\ phase_log evs = schedule direct_order)
        \/ (r_status r = "failed" /\ exists m, r_error r = Some m)).
Proof.
  unfold processHealthcareWebsite. run.
  phase (scrape_console host url) (scrape_clients host url);
    [phase (store_console host a url) (store_clients host a url);
     [phase (agent_console host master a) (agent_clients host master a);
      [phase (direct_createRepository_console host a a1) (direct_createRepository_clients host a a1);
       [phase (direct_deploy_console host a a2) (direct_deploy_clients host a a2);
        [phase (update_console host a0 (deploy_url a3) a1)
               (update_clients host a0 (deploy_url a3) a1)|]|]|]|]|];
    leaf; cbn [r_url r_duration r_status r_error];
    (repeat split; [eexists; reflexivity | eauto]).
Qed.

End DirectPipeline.

(** * The batch loop: proofs *)

Section EventFacts.

Lemma inner_batch_log (evs : list Event) :
  forallb is_inner evs = true -> batch_log evs = [].
Proof.
  induction evs as [|e evs IH]; [reflexivity|].
  cbn [forallb]. rewrite andb_true_iff. intros [He Hs].
  unfold batch_log in *. cbn [List.filter].
  unfold is_inner in He. apply negb_true_iff in He. rewrite He. auto.
Qed.

Lemma batch_log_app (l1 l2 : list Event) :
  batch_log (l1 ++ l2) = batch_log l1 ++ batch_log l2.
Proof. apply List.filter_app. Qed.

Lemma suspensions_batch_log (evs : list Event) :
  suspensions evs = suspensions (batch_log evs).
Proof.
  unfold suspensions, batch_log.
  induction evs as [|e evs IH]; [reflexivity|].
  cbn [List.filter].
  destruct e; cbn [is_batch_event is_suspension List.filter length]; auto.
  destruct (ms =? 3000)%Z eqn:E; cbn [List.filter is_suspension length];
    rewrite ?E; cbn [length]; auto.
Qed.

Lemma suspensions_schedule (urls : list string) :
  suspensions (batch_schedule urls) = (length urls - 1)%nat.
Proof.
  unfold suspensions.
  induction urls as [|url [|url' rest] IH]; try reflexivity.
  change (batch_schedule (url :: url' :: rest))
    with (LogTarget url :: Slept 3000 :: batch_schedule (url' :: rest)).
  cbn [List.filter is_suspension Z.eqb Pos.eqb length]. rewrite IH.
  cbn [length]. lia.
Qed.

End EventFacts.

Section ControlRules.

Context (P : Event -> bool).

Lemma emits_preserves {A} (m : Js A) : preserves console m -> emits P m.
Proof.
  intros H s. exists []. rewrite H, app_nil_r. split; reflexivity.
Qed.

Lemma total_ret {A} (a : A) : total (ret a).
Proof. intros s. eexists _, _. reflexivity. Qed.

Lemma total_bind {A B} (m : Js A) (k : A -> Js B) :
  total m -> (forall a, total (k a)) -> total (bind m k).
Proof.
  intros Hm Hk s. unfold bind. destruct (Hm s) as (a & s1 & ->). apply Hk.
Qed.

(** A handler that cannot throw makes the whole statement safe, whatever
    its body does. *)
Lemma total_try_catch {A} (body : Js A) (handler : string -> Js A) :
  (forall e, total (handler e)) -> total (try_catch body handler).
Proof.
  intros Hk s. unfold try_catch.
  destruct (body s) as [[a|e] s1]; [eexists _, _; reflexivity | apply Hk].
Qed.

End ControlRules.

Section BatchAttempts.

Context {R : Type} (host : Host).
Variable executor : string -> Js R.
Variable failed : string -> string -> Z -> R.

Lemma attempts_length (urls : list string) s (records : list R) s' :
  attempts host executor failed urls s records s' -> length records = length urls.
Proof. induction 1; cbn [length]; congruence. Qed.

(** The loop attempts every target, whatever the executor does. *)
Lemma leads_loop_attempts (rest : list string) :
  forall len i results s,
  exists new s',
    leads_loop host executor failed len i rest results s = (Returned (results ++ new), s')
    /\ attempts host executor failed rest s new s'.
Proof.
  induction rest as [|url rest IH]; intros len i results s.
  - exists [], s. cbn [leads_loop ret]. rewrite app_nil_r. split; [reflexivity | constructor].
  - cbn [leads_loop]. run. fold (announced url s).
    destruct (executor url (announced url s)) as [[r|message] s1] eqn:X.
    + destruct (i <? len - 1)%nat.
      * destruct (IH len (S i) (results ++ [r]) (set_console (console s1 ++ [Slept 3000]) s1))
          as (new & s' & -> & A).
        exists (r :: new), s'. rewrite <- app_assoc. split; [reflexivity|].
        eapply attempts_returned; [exact X | | exact A]; auto.
      * destruct (IH len (S i) (results ++ [r]) s1) as (new & s' & -> & A).
        exists (r :: new), s'. rewrite <- app_assoc. split; [reflexivity|].
        eapply attempts_returned; [exact X | | exact A]; auto.
    + destruct (IH len (S i)
                  (results ++ [failed url message (Date_now host (clock_reads s1))])
                  (set_clock_reads (S (clock_reads s1)) s1))
        as (new & s' & -> & A).
      exists (failed url message (Date_now host (clock_reads s1)) :: new), s'.
      rewrite <- app_assoc. split; [reflexivity|].
      eapply attempts_faulted; eauto.
Qed.

End BatchAttempts.

Section BatchLoopFacts.

Context {R : Type} (host : Host).
Variable executor : string -> Js R.
Variable failed : string -> string -> Z -> R.

Hypothesis executor_inner : forall url, emits is_inner (executor url).

Hypothesis executor_total : forall url, total (executor url).

Lemma leads_loop_total (rest : list string) :
  forall i results s,
  exists new s' evs,
    leads_loop host executor failed (i + length rest) i rest results s
      = (Returned (results ++ new), s')
    /\ console s' = console s ++ evs
    /\ batch_log evs = batch_schedule rest
    /\ Forall2 (fun url r => exists s0 s1, executor url s0 = (Returned r, s1)) rest new.
Proof.
  induction rest as [|url rest IH]; intros i results s.
  - exists [], s, []. cbn [leads_loop ret]. rewrite !app_nil_r. repeat split. constructor.
  - cbn [leads_loop]. run.
    destruct (executor_inner url (set_console (console s ++ [LogTarget url]) s))
      as (evs1 & E1 & F1).
    destruct (executor_total url (set_console (console s ++ [LogTarget url]) s))
      as (r & s1 & X).
    rewrite X in *. cbn [snd console set_console] in E1.
    cbn [length]. rewrite Nat.add_succ_r.
    specialize (IH (S i) (results ++ [r])). cbn [Nat.add] in IH.
    destruct rest as [|url' rest].
    + cbn [length] in *.
      replace (i <? S (i + 0) - 1)%nat with false
        by (symmetry; apply Nat.ltb_ge; lia).
      cbv beta iota.
      destruct (IH s1) as (new & s' & evs & -> & E & T & F).
      exists (r :: new), s', (LogTarget url :: evs1 ++ evs).
      rewrite <- app_assoc. split; [reflexivity|].
      split; [rewrite E, E1, <- !app_assoc; reflexivity|].
      split.
      * change (LogTarget url :: evs1 ++ evs) with ([LogTarget url] ++ evs1 ++ evs).
        rewrite !batch_log_app, T, (inner_batch_log evs1 F1). reflexivity.
      * constructor; eauto.
    + replace (i <? S (i + length (url' :: rest)) - 1)%nat with true
        by (symmetry; apply Nat.ltb_lt; cbn [length]; lia).
      cbv beta iota.
      destruct (IH (set_console (console s1 ++ [Slept 3000]) s1))
        as (new & s' & evs & -> & E & T & F).
      exists (r :: new), s', (LogTarget url :: evs1 ++ [Slept 3000] ++ evs).
      rewrite <- app_assoc. split; [reflexivity|].
      split; [rewrite E; cbn [console set_console]; rewrite E1, <- !app_assoc; reflexivity|].
      split.
      * change (LogTarget url :: evs1 ++ [Slept 3000] ++ evs)
          with ([LogTarget url] ++ evs1 ++ [Slept 3000] ++ evs).
        rewrite !batch_log_app, T, (inner_batch_log evs1 F1). reflexivity.
      * constructor; eauto.
Qed.

End BatchLoopFacts.

(** * Sessions and batches of the MCP agent: proofs *)

Module McpBatch.

Import Mcp McpFrames.

Section Sessions.

Variable host : Host.

Lemma connectMCP_total name serverPath : total (connectMCP host name serverPath).
Proof. apply total_try_catch. intros e. apply total_ret. Qed.

Lemma connectMCP_console name serverPath :
  preserves console (connectMCP host name serverPath).
Proof. unfold connectMCP. frame. Qed.

Lemma connectElevenLabs_loop_total providers :
  total (connectElevenLabs_loop host providers).
Proof.
  induction providers as [|provider rest IH]; [apply total_ret|].
  cbn [connectElevenLabs_loop]. apply total_bind.
  - apply total_try_catch. intros e. apply total_ret.
  - intros [|]; [apply total_ret | exact IH].
Qed.

Lemma connectElevenLabs_loop_console providers :
  preserves console (connectElevenLabs_loop host providers).
Proof.
  induction providers as [|provider rest IH]; [apply preserves_ret|].
  cbn [connectElevenLabs_loop]. apply preserves_bind.
  - frame.
  - intros [|]; [apply preserves_ret | exact IH].
Qed.

Lemma connectAllMCPs_total : total (connectAllMCPs host).
Proof.
  unfold connectAllMCPs, connectPlaywrightMCP, connectNotionMCP, connectElevenLabsMCP.
  apply total_bind; [apply connectMCP_total | intros c1].
  apply total_bind; [apply connectMCP_total | intros c2].
  apply total_bind; [apply connectElevenLabs_loop_total | intros c3].
  apply total_bind; [apply connectMCP_total | intros c4].
  apply total_ret.
Qed.

Lemma connectAllMCPs_console : preserves console (connectAllMCPs host).
Proof.
  unfold connectAllMCPs, connectPlaywrightMCP, connectNotionMCP, connectElevenLabsMCP.
  apply preserves_bind; [apply connectMCP_console | intros c1].
  apply preserves_bind; [apply connectMCP_console | intros c2].
  apply preserves_bind; [apply connectElevenLabs_loop_console | intros c3].
  apply preserves_bind; [apply connectMCP_console | intros c4].
  apply preserves_ret.
Qed.

Lemma close_all_spec entries :
  forall s, exists s' evs,
    close_all host entries s = (Returned tt, s')
    /\ console s' = console s ++ evs
    /\ forallb is_inner evs = true.
Proof.
  induction entries as [|[name client] rest IH]; intros s.
  - exists s, []. rewrite app_nil_r. repeat split.
  - cbn [close_all]. unfold external. run.
    destruct (close_response host (calls s)) as [[]|e].
    + destruct (IH (set_console (console (set_calls (S (calls s)) s) ++ [Closed name])
                      (set_calls (S (calls s)) s))) as (s' & evs & -> & E & F).
      cbn [console set_console set_calls] in E.
      exists s', (Closed name :: evs). split; [reflexivity|].
      split; [rewrite E, <- app_assoc; reflexivity | exact F].
    + destruct (IH (set_calls (S (calls s)) s)) as (s' & evs & -> & E & F).
      cbn [console set_calls] in E.
      exists s', evs. auto.
Qed.

(** Once [disconnectAllMCPs()] has run, no session is left. *)
Lemma disconnectAllMCPs_spec s :
  exists s' evs,
    disconnectAllMCPs host s = (Returned tt, s')
    /\ console s' = console s ++ evs
    /\ forallb is_inner evs = true
    /\ mcpClients s' = ∅.
Proof.
  unfold disconnectAllMCPs. run.
  destruct (close_all_spec (entries (mcpClients s)) s) as (s1 & evs & -> & E & F).
  exists (set_mcpClients ∅ s1), evs. auto.
Qed.

(** Each entry is closed once, in order; a close that is refused does not
    stop the others. *)
Lemma close_all_cases entries :
  forall s, exists s' evs,
    close_all host entries s = (Returned tt, s')
    /\ mcpClients s' = mcpClients s
    /\ calls s' = (calls s + length entries)%nat
    /\ console s' = console s ++ evs
    /\ sublist evs (map (fun entry => Closed entry.1) entries)
    /\ ((forall k, (calls s <= k < calls s + length entries)%nat ->
                   close_response host k = Returned tt) ->
        evs = map (fun entry => Closed entry.1) entries).
Proof.
  induction entries as [|[name client] rest IH]; intros s.
  - exists s, []. cbn [length map]. rewrite app_nil_r, Nat.add_0_r.
    repeat split. constructor.
  - cbn [Mcp.close_all]. unfold external. run.
    destruct (close_response host (calls s)) as [[]|e] eqn:C; settle.
    + match goal with
      | |- context [close_all host rest ?st] =>
          destruct (IH st) as (s' & evs & -> & M & K & E & Sub & All)
      end.
      revert M K E All. settle. intros M K E All.
      exists s', (Closed name :: evs). split; [reflexivity|].
      cbn [length map fst]. split; [exact M|]. split; [lia|].
      split; [rewrite E, <- app_assoc; reflexivity|].
      split; [now constructor|].
      intros H. f_equal. apply All. intros k Hk. apply H. lia.
    + match goal with
      | |- context [close_all host rest ?st] =>
          destruct (IH st) as (s' & evs & -> & M & K & E & Sub & All)
      end.
      revert M K E All. settle. intros M K E All.
      exists s', evs. split; [reflexivity|].
      cbn [length map fst]. split; [exact M|]. split; [lia|].
      split; [exact E|]. split; [now constructor|].
      intros H. specialize (H (calls s)). rewrite C in H. discriminate H. lia.
Qed.

Lemma disconnectAllMCPs_cases s :
  exists s' evs,
    disconnectAllMCPs host s = (Returned tt, s')
    /\ mcpClients s' = ∅
    /\ calls s' = (calls s + size (mcpClients s))%nat
    /\ console s' = console s ++ evs
    /\ sublist evs (map (fun entry => Closed entry.1) (entries (mcpClients s)))
    /\ ((forall k, (calls s <= k < calls s + size (mcpClients s))%nat ->
                   close_response host k = Returned tt) ->
        evs = map (fun entry => Closed entry.1) (entries (mcpClients s))).
Proof.
  unfold disconnectAllMCPs. run.
  destruct (close_all_cases (entries (mcpClients s)) s)
    as (s1 & evs & -> & M & K & E & Sub & All).
  exists (set_mcpClients ∅ s1), evs. settle. auto 10.
Qed.

Variable executor : string -> Js LeadRecord.
Hypothesis executor_inner : forall url, emits is_inner (executor url).

Hypothesis executor_total : forall url, total (executor url).

Lemma mcp_batch_total targets leadCount s :
  exists results s' evs,
    executeAutonomousWorkflow_with host executor targets leadCount s
      = (Returned results, s')
    /\ console s' = console s ++ evs
    /\ batch_log evs = batch_schedule (slice0 leadCount targets)
    /\ Forall2 (fun url r => exists s0 s1, executor url s0 = (Returned r, s1))
         (slice0 leadCount targets) results
    /\ mcpClients s' = ∅.
Proof.
  unfold executeAutonomousWorkflow_with, try_finally. cbv zeta. unfold bind.
  destruct (connectAllMCPs_total s) as (connected & s1 & X).
  pose proof (connectAllMCPs_console s) as C1. rewrite X in *. cbn [snd] in C1.
  destruct (leads_loop_total host executor failed_entry executor_inner executor_total
              (slice0 leadCount targets) 0 [] s1)
    as (new & s2 & evs2 & L & E2 & T2 & F2).
  cbn [Nat.add] in L. rewrite L.
  destruct (disconnectAllMCPs_spec s2) as (s3 & evs3 & -> & E3 & F3 & M3).
  exists new, s3, (evs2 ++ evs3). split; [reflexivity|].
  split; [rewrite E3, E2, C1, app_assoc; reflexivity|].
  split; [|auto].
  rewrite batch_log_app, T2, (inner_batch_log evs3 F3). apply app_nil_r.
Qed.

End Sessions.

(** The executor of the agent fits both assumptions. *)
Lemma mcp_process_inner host url : emits is_inner (processHealthcareWebsite host url).
Proof.
  intros s.
  destruct (McpPipeline.mcp_process_spec host url s) as (r & s' & evs & X & E & _ & _ & _ & B & _).
  exists evs. rewrite X. split; [exact E|].
  clear -B. induction evs as [|e evs IH]; [reflexivity|].
  unfold batch_log in B. cbn [List.filter] in B. cbn [forallb]. unfold is_inner at 1.
  destruct (is_batch_event e); [discriminate|]. now apply IH.
Qed.

Lemma mcp_process_total host url : total (processHealthcareWebsite host url).
Proof.
  intros s.
  destruct (McpPipeline.mcp_process_spec host url s) as (r & s' & evs & X & _).
  eauto.
Qed.

End McpBatch.

(** * Batches of the direct agent: proofs *)

Module DirectBatch.

Import Direct DirectFrames.

Lemma direct_process_inner host master url :
  emits is_inner (processHealthcareWebsite host master url).
Proof.
  intros s.
  destruct (DirectPipeline.direct_process_spec host master url s)
    as (r & s' & evs & X & E & _ & _ & _ & B & _).
  exists evs. rewrite X. split; [exact E|].
  clear -B. induction evs as [|e evs IH]; [reflexivity|].
  unfold batch_log in B. cbn [List.filter] in B. cbn [forallb]. unfold is_inner at 1.
  destruct (is_batch_event e); [discriminate|]. now apply IH.
Qed.

Lemma direct_process_total host master url : total (processHealthcareWebsite host master url).
Proof.
  intros s.
  destruct (DirectPipeline.direct_process_spec host master url s) as (r & s' & evs & X & _).
  eauto.
Qed.

Lemma direct_batch_total host master targets leadCount s :
  exists results s' evs,
    executeAutonomousWorkflow_with host (processHealthcareWebsite host master)
      targets leadCount s = (Returned results, s')
    /\ console s' = console s ++ evs
    /\ batch_log evs = batch_schedule (slice0 leadCount targets)
    /\ Forall2 (fun url r => exists s0 s1,
                  processHealthcareWebsite host master url s0 = (Returned r, s1))
         (slice0 leadCount targets) results.
Proof.
  unfold executeAutonomousWorkflow_with. cbv zeta. run.
  destruct (leads_loop_total host (processHealthcareWebsite host master) failed_entry
              (direct_process_inner host master) (direct_process_total host master)
              (slice0 leadCount targets) 0 [] s)
    as (new & s2 & evs2 & L & E2 & T2 & F2).
  cbn [Nat.add] in L. rewrite L. cbn [app].
  eexists _, _, evs2. split; [reflexivity|]. settle. auto.
Qed.

End DirectBatch.

(** * The fallback policy of the MCP agent: proofs *)

Module McpFallback.

Import Mcp McpFrames.

Section Offline.

Variable host : Host.

Lemma analyze_offline url s :
  mcpClients s = ∅ ->
  analyzeHealthcareWebsite host url s = fallbackAnalysis host url s.
Proof.
  intros H. unfold analyzeHealthcareWebsite, get_client, bind.
  rewrite H, sessions_lookup_empty. reflexivity.
Qed.

Lemma fallbackAnalysis_returns url domain s :
  URL_hostname host url = Some domain ->
  exists data,
    fallbackAnalysis host url s = (Returned data, set_draws (3 + draws s) s)
    /\ company data = extractCompanyFromDomain domain
    /\ practiceId data = generatePracticeId domain
    /\ contactName data =
         "Dr. " +:+ element firstNames (floor_scaled (Math_random host (draws s)) 6)
         +:+ " " +:+ element lastNames (floor_scaled (Math_random host (S (draws s))) 6)
    /\ leadScore data = leadScore_of (Math_random host (S (S (draws s))))
    /\ leadSource data = "fallback-analysis".
Proof.
  intros H. unfold fallbackAnalysis, generateDoctorName, hostname. rewrite H.
  eexists. split; [reflexivity|]. repeat split.
Qed.

Lemma deploy_offline data repo s :
  mcpClients s = ∅ ->
  exists d,
    deployToRailwayMCP host data repo s = (Returned d, set_clock_reads (S (clock_reads s)) s)
    /\ deploy_method d = "fallback".
Proof.
  intros H. unfold deployToRailwayMCP, get_client, bind.
  rewrite H, sessions_lookup_empty. eexists. split; reflexivity.
Qed.

Lemma voice_offline data s :
  is_thrown (voices_response host (calls s)) ->
  exists v s',
    createVoiceAgentMCP host data s = (Returned v, s')
    /\ voice_method v = "fallback_enhanced"
    /\ voice_status v = "fallback_created"
    /\ mcpClients s' = mcpClients s.
Proof.
  intros H. unfold createVoiceAgentMCP, bind, try_catch, external.
  cbn [calls set_elevenLabsClient].
  destruct (voices_response host (calls s)); [destruct H|].
  eexists _, _. repeat split.
Qed.

Lemma notion_offline data d v s :
  mcpClients s = ∅ ->
  exists n,
    storeLeadInNotionMCP host data d v s = (Returned n, set_clock_reads (S (clock_reads s)) s)
    /\ notion_method n = "fallback".
Proof.
  intros H. unfold storeLeadInNotionMCP, get_client, bind.
  rewrite H, sessions_lookup_empty. eexists. split; reflexivity.
Qed.

(** The provisioning phase has no fallback: a failure of its commands is
    thrown again under the phase's own message. *)
Lemma createRepository_outcome data s :
  match createPersonalizedRepository host data s with
  | (Returned _, _) => exists out, shell_response host (calls s) = Returned out
  | (Thrown e, _) =>
      match shell_response host (calls s) with
      | Thrown m => e = "Repository creation failed: " +:+ m
      | Returned _ => exists m, e = "Repository creation failed: " +:+ m
      end
  end.
Proof.
  unfold createPersonalizedRepository, execSync, external. run.
  cbn [calls set_clock_reads set_calls].
  destruct (shell_response host (calls s)) as [out|m]; [|reflexivity].
  destruct (JSON_parse_repository host out); [|eauto].
  repeat match goal with
         | |- context [shell_response host ?k] => destruct (shell_response host k)
         end; eauto.
Qed.

Ltac clients_empty :=
  cbn [mcpClients calls set_console set_clock_reads set_draws set_calls
       set_elevenLabsClient];
  repeat match goal with
         | H : mcpClients ?x = _ |- context [mcpClients ?x] => rewrite H
         end;
  cbn [mcpClients calls set_console set_clock_reads set_draws set_calls
       set_elevenLabsClient];
  auto.

Lemma process_offline url domain s :
  URL_hostname host url = Some domain ->
  mcp_sessions_down host s ->
  exists r s',
    processHealthcareWebsite host url s = (Returned r, s')
    /\ match shell_response host (calls s) with
       | Thrown m =>
           r_status r = "failed"
           /\ r_error r = Some ("Repository creation failed: " +:+ m)
       | Returned _ =>
           (r_status r = "success"
            /\ r_leadSource r = Some "fallback-analysis"
            /\ r_company r = Some (extractCompanyFromDomain domain))
           \/ (r_status r = "failed"
               /\ exists m, r_error r = Some ("Repository creation failed: " +:+ m))
       end.
Proof.
  intros Hurl [Hc Hv]. unfold processHealthcareWebsite. run.
  rewrite analyze_offline by clients_empty.
  match goal with
  | |- context [fallbackAnalysis host url ?st] =>
      destruct (fallbackAnalysis_returns url domain st Hurl)
        as (data & -> & Hcompany & _ & _ & _ & Hsource)
  end.
  cbv beta iota.
  match goal with
  | |- context [createPersonalizedRepository host data ?st] =>
      pose proof (createRepository_outcome data st) as O;
      pose proof (mcp_createRepository_clients host data st) as M;
      destruct (createPersonalizedRepository host data st) as [[repo|e] s4]
  end;
    cbn [snd mcpClients calls set_console set_clock_reads set_draws] in O, M.
  - match goal with
    | |- context [deployToRailwayMCP host ?a ?b ?st] =>
        destruct (deploy_offline a b st) as (dep & -> & Hdep); [clients_empty|]
    end.
    cbv beta iota.
    match goal with
    | |- context [createVoiceAgentMCP host ?a ?st] =>
        destruct (voice_offline a st (Hv _)) as (v & s5 & -> & Hv1 & Hv2 & M5)
    end.
    cbn [mcpClients set_console set_clock_reads] in M5.
    match goal with
    | |- context [storeLeadInNotionMCP host ?a ?b ?c ?st] =>
        destruct (notion_offline a b c st) as (n & -> & Hn); [clients_empty|]
    end.
    cbv beta iota. eexists _, _. split; [reflexivity|].
    destruct O as [out ->]. left. cbn [r_status r_leadSource r_company].
    rewrite Hsource, Hcompany. auto.
  - eexists _, _. split; [reflexivity|]. cbn [r_status r_error].
    destruct (shell_response host (calls s)).
    + right. destruct O as [m ->]. eauto.
    + subst e. auto.
Qed.

End Offline.

End McpFallback.

(** * Properties of the specification *)

Lemma element_In (names : list string) (i : Z) :
  (0 <= i < Z.of_nat (length names))%Z -> In (element names i) names.
Proof.
  intros H. unfold element.
  destruct (i <? 0)%Z eqn:E; [apply Z.ltb_lt in E; lia|].
  apply nth_In. lia.
Qed.

(** C1 (counterexample). With no session, no voice API and no working shell,
    the MCP pipeline ends with status `failed`: the provisioning phase throws
    "Repository creation failed". *)
Lemma provisioning_outage_fails_record :
  mcp_providers_down (offline_host half) initial_state
  /\ exists r s',
       Mcp.processHealthcareWebsite (offline_host half)
         "https://www.example-clinic.com" initial_state = (Returned r, s')
       /\ Mcp.r_status r = "failed"
       /\ Mcp.r_error r = Some "Repository creation failed: Command failed".
Proof.
  split.
  - repeat split; intros k; exact I.
  - eexists _, _. split; [vm_compute; reflexivity|]. split; reflexivity.
Qed.

Lemma direct_process_notion_down host master url domain s :
  URL_hostname host url = Some domain ->
  exists r s',
    Direct.processHealthcareWebsite host master url s = (Returned r, s')
    /\ match notion_response host (calls s) with
       | Thrown m =>
           Direct.r_status r = "failed"
           /\ Direct.r_error r = Some ("Notion storage failed: " +:+ m)
       | Returned _ => Direct.r_status r = "success" \/ Direct.r_status r = "failed"
       end.
Proof.
  intros Hurl.
  destruct (DirectPipeline.direct_process_spec host master url s)
    as (r & s' & evs & X & _ & _ & _ & _ & _ & _ & St).
  exists r, s'. split; [exact X|].
  destruct (notion_response host (calls s)) as [page|m] eqn:N.
  - destruct St as [[? _]|[? _]]; auto.
  - revert X.
    unfold Direct.processHealthcareWebsite, Direct.scrapeHealthcareWebsite,
      generateDoctorName, hostname, Direct.storeLeadInNotion, external, random.
    rewrite Hurl. run.
    cbn [calls set_console set_clock_reads set_draws]. rewrite N.
    intros [= <- <-]. split; reflexivity.
Qed.

(** C1 (amended). With every session of the MCP agent closed and its voice
    API failing, the discovery, deployment, voice and storage phases return
    their fallback result, tagged `fallback-analysis`, `fallback`,
    `fallback_enhanced` and `fallback`; the provisioning phase has no
    fallback, so the record is `failed` with "Repository creation failed: m"
    when its first command fails with [m], and otherwise `success` unless a
    later provisioning command fails.  In the direct agent a failing storage
    request ends the record as `failed` with "Notion storage failed: m".
    In such a run the first provider interaction, whose response is the one
    at index [calls s], is the first command of the provisioning phase (MCP
    agent) or the storage request (direct agent). *)
Theorem fallback_policy host master url domain s
    (Hurl : URL_hostname host url = Some domain)
    (Hdown : mcp_sessions_down host s) :
  (exists data s1,
     Mcp.analyzeHealthcareWebsite host url s = (Returned data, s1)
     /\ leadSource data = "fallback-analysis")
  /\ (forall data repo, exists d s1,
        Mcp.deployToRailwayMCP host data repo s = (Returned d, s1)
        /\ Mcp.deploy_method d = "fallback")
  /\ (forall data, exists v s1,
        Mcp.createVoiceAgentMCP host data s = (Returned v, s1)
        /\ Mcp.voice_method v = "fallback_enhanced")
  /\ (forall data d v, exists n s1,
        Mcp.storeLeadInNotionMCP host data d v s = (Returned n, s1)
        /\ Mcp.notion_method n = "fallback")
  /\ (exists r s',
        Mcp.processHealthcareWebsite host url s = (Returned r, s')
        /\ match shell_response host (calls s) with
           | Thrown m =>
               Mcp.r_status r = "failed"
               /\ Mcp.r_error r = Some ("Repository creation failed: " +:+ m)
           | Returned _ =>
               (Mcp.r_status r = "success"
                /\ Mcp.r_leadSource r = Some "fallback-analysis"
                /\ Mcp.r_company r = Some (extractCompanyFromDomain domain))
               \/ (Mcp.r_status r = "failed"
                   /\ exists m, Mcp.r_error r = Some ("Repository creation failed: " +:+ m))
           end)
  /\ (exists r s',
        Direct.processHealthcareWebsite host master url s = (Returned r, s')
        /\ match notion_response host (calls s) with
           | Thrown m =>
               Direct.r_status r = "failed"
               /\ Direct.r_error r = Some ("Notion storage failed: " +:+ m)
           | Returned _ => Direct.r_status r = "success" \/ Direct.r_status r = "failed"
           end).
Proof.
  pose proof Hdown as [Hc Hv].
  split; [|split; [|split; [|split; [|split]]]].
  - rewrite McpFallback.analyze_offline by exact Hc.
    destruct (McpFallback.fallbackAnalysis_returns host url domain s Hurl)
      as (data & X & _ & _ & _ & _ & Hs).
    eauto.
  - intros data repo.
    destruct (McpFallback.deploy_offline host data repo s Hc) as (d & X & Hd). eauto.
  - intros data.
    destruct (McpFallback.voice_offline host data s (Hv _)) as (v & s1 & X & Hm & _). eauto.
  - intros data d v.
    destruct (McpFallback.notion_offline host data d v s Hc) as (n & X & Hn). eauto.
  - exact (McpFallback.process_offline host url domain s Hurl Hdown).
  - exact (direct_process_notion_down host master url domain s Hurl).
Qed.

Lemma fallback_policy_witness :
  (URL_hostname (shell_only_host half) "https://www.example-clinic.com"
     = Some "www.example-clinic.com"
   /\ mcp_sessions_down (shell_only_host half) initial_state)
  /\ (exists data s1,
        Mcp.analyzeHealthcareWebsite (shell_only_host half) "https://www.example-clinic.com"
          initial_state = (Returned data, s1)
        /\ leadSource data = "fallback-analysis")
  /\ (exists r s',
        Mcp.processHealthcareWebsite (shell_only_host half) "https://www.example-clinic.com"
          initial_state = (Returned r, s')
        /\ Mcp.r_status r = "success"
        /\ Mcp.r_company r = Some "Example Clinic Clinic").
Proof.
  assert (H1 : URL_hostname (shell_only_host half) "https://www.example-clinic.com"
               = Some "www.example-clinic.com") by reflexivity.
  assert (H2 : mcp_sessions_down (shell_only_host half) initial_state)
    by (split; [reflexivity | intros k; exact I]).
  split; [split; assumption|].
  destruct (fallback_policy (shell_only_host half) "agent_master"
              "https://www.example-clinic.com" "www.example-clinic.com" initial_state H1 H2)
    as (A & _ & _ & _ & (r & s' & X & B) & _).
  split; [exact A|]. exists r, s'. split; [exact X|].
  revert X. vm_compute. intros [= <- <-]. split; reflexivity.
Defined.

(** C2 (counterexample). The MCP pipeline runs provisioning and deployment
    before voice synthesis and storage. *)
Lemma mcp_pipeline_order_differs :
  phases_started
    (console (snd (Mcp.processHealthcareWebsite (shell_only_host half)
                     "https://www.example-clinic.com" initial_state)))
  = [Discovery; Provisioning; Deployment; Voice; Storage]
  /\ phases_started
       (console (snd (Mcp.processHealthcareWebsite (shell_only_host half)
                        "https://www.example-clinic.com" initial_state)))
     <> claimed_order.
Proof. split; [vm_compute; reflexivity | vm_compute; discriminate]. Qed.

(** C2 (amended). Each pipeline runs its phases one after another in a fixed
    order, a phase starting only once the preceding one has completed, and a
    phase that throws ends the run.  The order of the direct agent is
    discovery, storage, voice, provisioning, deployment and then a status
    update; that of the MCP agent is discovery, provisioning, deployment,
    voice, storage. *)
Theorem phases_run_in_fixed_order host master url s :
  direct_order = claimed_order ++ [StatusUpdate]
  /\ (exists r s' evs,
        Direct.processHealthcareWebsite host master url s = (Returned r, s')
        /\ console s' = console s ++ evs
        /\ (exists rest, schedule direct_order = phase_log evs ++ rest)
        /\ ((Direct.r_status r = "success" /\ phase_log evs = schedule direct_order)
            \/ Direct.r_status r = "failed"))
  /\ (exists r s' evs,
        Mcp.processHealthcareWebsite host url s = (Returned r, s')
        /\ console s' = console s ++ evs
        /\ (exists rest, schedule mcp_order = phase_log evs ++ rest)
        /\ ((Mcp.r_status r = "success" /\ phase_log evs = schedule mcp_order)
            \/ Mcp.r_status r = "failed")).
Proof.
  split; [reflexivity|]. split.
  - destruct (DirectPipeline.direct_process_spec host master url s)
      as (r & s' & evs & X & E & _ & _ & _ & _ & P & St).
    exists r, s', evs. repeat split; auto.
    destruct St as [(? & _ & ?)|[? _]]; auto.
  - destruct (McpPipeline.mcp_process_spec host url s)
      as (r & s' & evs & X & E & _ & _ & _ & _ & P & St).
    exists r, s', evs. repeat split; auto.
    destruct St as [(? & _ & ?)|[? _]]; auto.
Qed.

(** C4. The lead score of a fallback discovery is an integer between 70 and
    99, whatever the draws of the random generator are. *)
Theorem fallback_lead_score_in_range host url domain s
    (Hdraws : draws_in_range host)
    (Hurl : URL_hostname host url = Some domain) :
  (exists data s',
     Mcp.fallbackAnalysis host url s = (Returned data, s')
     /\ (70 <= leadScore data <= 99)%Z)
  /\ (exists data s',
        Direct.scrapeHealthcareWebsite host url s = (Returned data, s')
        /\ (70 <= leadScore data <= 99)%Z).
Proof.
  split.
  - destruct (McpFallback.fallbackAnalysis_returns host url domain s Hurl)
      as (data & X & _ & _ & _ & Hscore & _).
    exists data, (set_draws (3 + draws s) s). split; [exact X|].
    rewrite Hscore. destruct (Hdraws (S (S (draws s)))) as (D0 & D1 & D).
    now apply leadScore_of_bounds.
  - unfold Direct.scrapeHealthcareWebsite, generateDoctorName, hostname. rewrite Hurl.
    eexists _, _. split; [reflexivity|].
    cbn [leadScore].
    match goal with
    | |- context [leadScore_of (Math_random host ?n)] =>
        destruct (Hdraws n) as (D0 & D1 & D)
    end.
    now apply leadScore_of_bounds.
Qed.

Lemma fallback_lead_score_witness :
  (draws_in_range (offline_host half)
   /\ URL_hostname (offline_host half) "https://www.example-clinic.com"
      = Some "www.example-clinic.com")
  /\ (exists data s',
     Mcp.fallbackAnalysis (offline_host half) "https://www.example-clinic.com" initial_state
       = (Returned data, s')
     /\ (70 <= leadScore data <= 99)%Z)
  /\ (exists data s',
        Direct.scrapeHealthcareWebsite (offline_host half) "https://www.example-clinic.com"
          initial_state = (Returned data, s')
        /\ (70 <= leadScore data <= 99)%Z).
Proof.
  assert (H1 : draws_in_range (offline_host half)).
  { intros n. split; [discriminate|]. split; [reflexivity|].
    exists 1%Z, (-1)%Z. split; [reflexivity|]. split; [lia | reflexivity]. }
  assert (H2 : URL_hostname (offline_host half) "https://www.example-clinic.com"
               = Some "www.example-clinic.com") by reflexivity.
  split; [split; assumption|].
  exact (fallback_lead_score_in_range (offline_host half)
           "https://www.example-clinic.com" "www.example-clinic.com" initial_state H1 H2).
Defined.

(** C5. Whatever the executor does on a target, throwing included, the
    batch hands every selected target to it, in order and in the state
    reached after the previous one, and pushes one record per target: the one
    that the executor returns or, when it throws, the record of the handler
    with the message of the fault.  In the MCP agent the batch then closes
    every session that is open, each exactly once, and holds none when it
    ends; its [finally] block does so for any body, and leaves the completion
    of the body, an exception included, as it is.  The batch of the direct
    agent, which holds no session, attempts its targets in the same way. *)
Theorem batch_survives_executor_faults host
    (executor : string -> Js Mcp.LeadRecord)
    (direct_executor : string -> Js Direct.LeadRecord) targets leadCount s :
  (exists connected s0 results s1 s' closed,
     Mcp.connectAllMCPs host s = (Returned connected, s0)
     /\ attempts host executor Mcp.failed_entry (slice0 leadCount targets) s0 results s1
     /\ length results = length (slice0 leadCount targets)
     /\ Mcp.executeAutonomousWorkflow_with host executor targets leadCount s
        = (Returned results, s')
     /\ mcpClients s' = ∅
     /\ calls s' = (calls s1 + size (mcpClients s1))%nat
     /\ console s' = console s1 ++ closed
     /\ sublist closed (map (fun entry => Closed entry.1) (entries (mcpClients s1)))
     /\ ((forall k, (calls s1 <= k < calls s1 + size (mcpClients s1))%nat ->
                    close_response host k = Returned tt) ->
         closed = map (fun entry => Closed entry.1) (entries (mcpClients s1))))
  /\ (forall (body : Js (list Mcp.LeadRecord)) s0,
        exists s',
          try_finally body (Mcp.disconnectAllMCPs host) s0 = (fst (body s0), s')
          /\ mcpClients s' = ∅
          /\ calls s'
             = (calls (snd (body s0)) + size (mcpClients (snd (body s0))))%nat)
  /\ (exists results s1,
        attempts host direct_executor Direct.failed_entry (slice0 leadCount targets)
          s results s1
        /\ length results = length (slice0 leadCount targets)
        /\ Direct.executeAutonomousWorkflow_with host direct_executor targets leadCount s
           = (Returned results, set_clock_reads (2 + clock_reads s1) s1)).
Proof.
  split; [|split].
  - unfold Mcp.executeAutonomousWorkflow_with, try_finally. cbv zeta. unfold bind.
    destruct (McpBatch.connectAllMCPs_total host s) as (connected & s0 & X).
    destruct (leads_loop_attempts host executor Mcp.failed_entry
                (slice0 leadCount targets) (length (slice0 leadCount targets)) 0 [] s0)
      as (results & s1 & L & A).
    destruct (McpBatch.disconnectAllMCPs_cases host s1)
      as (s' & closed & D & M & K & C & Sub & All).
    exists connected, s0, results, s1, s', closed.
    rewrite X, L, D. cbn [app].
    pose proof (attempts_length _ _ _ _ _ _ _ A). auto 10.
  - intros body s0. unfold try_finally. destruct (body s0) as [o s1]. cbn [fst snd].
    destruct (McpBatch.disconnectAllMCPs_cases host s1) as (s' & closed & -> & M & K & _).
    exists s'. auto.
  - unfold Direct.executeAutonomousWorkflow_with. cbv zeta. run.
    destruct (leads_loop_attempts host direct_executor Direct.failed_entry
                (slice0 leadCount targets) (length (slice0 leadCount targets)) 0 [] s)
      as (results & s1 & L & A).
    exists results, s1. rewrite L. cbn [app].
    pose proof (attempts_length _ _ _ _ _ _ _ A). auto.
Qed.

(** The teardown scenario: the executor throws `PipelineFault` on the first
    of two targets; the second is attempted all the same (its pipeline fails
    in the provisioning phase on this host) and the four sessions are closed
    at the end, in the order in which they were opened. *)
Example teardown_after_fault :
  exists r1 r2 s',
    Mcp.executeAutonomousWorkflow_with (connected_host half)
      (fails_on "https://www.theprivateclinic.co.uk"
         (Mcp.processHealthcareWebsite (connected_host half)))
      Mcp.healthcareTargets 2 initial_state = (Returned [r1; r2], s')
    /\ Mcp.r_url r1 = "https://www.theprivateclinic.co.uk"
    /\ Mcp.r_error r1 = Some "PipelineFault"
    /\ Mcp.r_url r2 = "https://www.harleystreetskinclinic.com"
    /\ Mcp.r_leadId r2 <> None
    /\ console s' =
         [LogTarget "https://www.theprivateclinic.co.uk";
          LogTarget "https://www.harleystreetskinclinic.com";
          LogPhase Discovery; LogPhaseDone Discovery; LogPhase Provisioning;
          Closed "railway"; Closed "playwright"; Closed "elevenlabs"; Closed "notion"]
    /\ mcpClients s' = ∅.
Proof.
  eexists _, _, _. split; [vm_compute; reflexivity|].
  repeat split. discriminate.
Qed.

(** C6. A batch over the single target [T] with count 1 returns exactly one
    record, for [T], and its status is `success` or `failed`. *)
Theorem single_target_batch host master T s :
  (exists r s',
     Mcp.executeAutonomousWorkflow_with host (Mcp.processHealthcareWebsite host) [T] 1 s
       = (Returned [r], s')
     /\ Mcp.r_url r = T
     /\ (Mcp.r_status r = "success" \/ Mcp.r_status r = "failed"))
  /\ (exists r s',
        Direct.executeAutonomousWorkflow_with host
          (Direct.processHealthcareWebsite host master) [T] 1 s = (Returned [r], s')
        /\ Direct.r_url r = T
        /\ (Direct.r_status r = "success" \/ Direct.r_status r = "failed")).
Proof.
  split.
  - destruct (McpBatch.mcp_batch_total host _ (McpBatch.mcp_process_inner host)
                (McpBatch.mcp_process_total host) [T] 1 s)
      as (results & s' & evs & X & _ & _ & F & _).
    change (slice0 1 [T]) with [T] in F.
    inversion F as [|? r ? rest (s0 & s1 & Y) F']; subst. inversion F'; subst.
    exists r, s'. split; [exact X|].
    destruct (McpPipeline.mcp_process_spec host T s0)
      as (r' & s1' & evs' & Y' & _ & _ & U & _ & _ & _ & St).
    rewrite Y in Y'. injection Y' as <- <-.
    split; [exact U|]. destruct St as [[? _]|[? _]]; auto.
  - destruct (DirectBatch.direct_batch_total host master [T] 1 s)
      as (results & s' & evs & X & _ & _ & F).
    change (slice0 1 [T]) with [T] in F.
    inversion F as [|? r ? rest (s0 & s1 & Y) F']; subst. inversion F'; subst.
    exists r, s'. split; [exact X|].
    destruct (DirectPipeline.direct_process_spec host master T s0)
      as (r' & s1' & evs' & Y' & _ & _ & U & _ & _ & _ & St).
    rewrite Y in Y'. injection Y' as <- <-.
    split; [exact U|]. destruct St as [[? _]|[? _]]; auto.
Qed.

(** C7. A batch over N selected targets suspends N-1 times (none for N = 0),
    once between each target and the next and never after the last: its
    targets and three-second suspensions alternate. *)
Theorem suspensions_between_targets host master targets leadCount s :
  (exists results s' evs,
     Mcp.executeAutonomousWorkflow_with host (Mcp.processHealthcareWebsite host)
       targets leadCount s = (Returned results, s')
     /\ console s' = console s ++ evs
     /\ batch_log evs = batch_schedule (slice0 leadCount targets)
     /\ suspensions evs = (length (slice0 leadCount targets) - 1)%nat)
  /\ (exists results s' evs,
        Direct.executeAutonomousWorkflow_with host
          (Direct.processHealthcareWebsite host master) targets leadCount s
          = (Returned results, s')
        /\ console s' = console s ++ evs
        /\ batch_log evs = batch_schedule (slice0 leadCount targets)
        /\ suspensions evs = (length (slice0 leadCount targets) - 1)%nat).
Proof.
  split.
  - destruct (McpBatch.mcp_batch_total host _ (McpBatch.mcp_process_inner host)
                (McpBatch.mcp_process_total host) targets leadCount s)
      as (results & s' & evs & X & E & B & _).
    exists results, s', evs. repeat split; auto.
    rewrite suspensions_batch_log, B. apply suspensions_schedule.
  - destruct (DirectBatch.direct_batch_total host master targets leadCount s)
      as (results & s' & evs & X & E & B & _).
    exists results, s', evs. repeat split; auto.
    rewrite suspensions_batch_log, B. apply suspensions_schedule.
Qed.

(** C8 (counterexample). Two fallback discoveries of the same target, one
    after the other, give two different contact names. *)
Lemma contact_name_varies_between_runs :
  exists d1 s1 d2 s2,
    Mcp.fallbackAnalysis (offline_host eighths) "https://www.example-clinic.com" initial_state
      = (Returned d1, s1)
    /\ Mcp.fallbackAnalysis (offline_host eighths) "https://www.example-clinic.com" s1
       = (Returned d2, s2)
    /\ contactName d1 = "Dr. Sarah Smith"
    /\ contactName d2 = "Dr. Emma Brown"
    /\ contactName d1 <> contactName d2.
Proof.
  eexists _, _, _, _. split; [vm_compute; reflexivity|].
  split; [vm_compute; reflexivity|].
  split; [reflexivity|]. split; [reflexivity|]. discriminate.
Qed.

(** C8 (amended). The contact name of a fallback discovery is "Dr. ", a first
    name and a last name taken from the agent's two fixed candidate lists at
    the indices given by the next two draws of the unseeded random generator;
    it depends on those draws and not on the target. *)
Theorem contact_name_follows_draws host url domain s
    (Hdraws : draws_in_range host)
    (Hurl : URL_hostname host url = Some domain) :
  (exists data s' first last,
     Mcp.fallbackAnalysis host url s = (Returned data, s')
     /\ contactName data = "Dr. " +:+ first +:+ " " +:+ last
     /\ first = element Mcp.firstNames (floor_scaled (Math_random host (draws s)) 6)
     /\ last = element Mcp.lastNames (floor_scaled (Math_random host (S (draws s))) 6)
     /\ In first Mcp.firstNames /\ In last Mcp.lastNames)
  /\ (exists data s' first last,
        Direct.scrapeHealthcareWebsite host url s = (Returned data, s')
        /\ contactName data = "Dr. " +:+ first +:+ " " +:+ last
        /\ first = element Direct.firstNames (floor_scaled (Math_random host (draws s)) 8)
        /\ last = element Direct.lastNames (floor_scaled (Math_random host (S (draws s))) 8)
        /\ In first Direct.firstNames /\ In last Direct.lastNames).
Proof.
  split.
  - destruct (McpFallback.fallbackAnalysis_returns host url domain s Hurl)
      as (data & X & _ & _ & Hname & _).
    eexists data, _, _, _. split; [exact X|]. split; [exact Hname|].
    split; [reflexivity|]. split; [reflexivity|].
    split; apply element_In;
      (apply (floor_scaled_bounds _ 6); [split; reflexivity | apply Hdraws ..]).
  - unfold Direct.scrapeHealthcareWebsite, generateDoctorName, hostname. rewrite Hurl.
    eexists _, _, _, _. split; [reflexivity|]. cbn [contactName].
    split; [reflexivity|]. split; [reflexivity|]. split; [reflexivity|].
    split; apply element_In;
      (apply (floor_scaled_bounds _ 8); [split; reflexivity | apply Hdraws ..]).
Qed.

Lemma contact_name_witness :
  (draws_in_range (offline_host half)
   /\ URL_hostname (offline_host half) "https://www.example-clinic.com"
      = Some "www.example-clinic.com")
  /\ exists data s',
       Mcp.fallbackAnalysis (offline_host half) "https://www.example-clinic.com" initial_state
         = (Returned data, s')
       /\ contactName data = "Dr. James Brown".
Proof.
  assert (H1 : draws_in_range (offline_host half)).
  { intros n. split; [discriminate|]. split; [reflexivity|].
    exists 1%Z, (-1)%Z. split; [reflexivity|]. split; [lia | reflexivity]. }
  assert (H2 : URL_hostname (offline_host half) "https://www.example-clinic.com"
               = Some "www.example-clinic.com") by reflexivity.
  split; [split; assumption|].
  destruct (contact_name_follows_draws (offline_host half)
              "https://www.example-clinic.com" "www.example-clinic.com" initial_state H1 H2)
    as ((data & s' & first & last & X & N & -> & -> & _) & _).
  exists data, s'. split; [exact X|]. rewrite N. reflexivity.
Defined.

(** C9 (counterexample). The record that the per-target handler of the batch
    pushes when the executor throws has a message but no elapsed time. *)
Lemma handler_record_has_no_duration :
  exists r s',
    Mcp.executeAutonomousWorkflow_with (offline_host half)
      (fun _ => throw "PipelineFault") ["https://www.example-clinic.com"] 1 initial_state
      = (Returned [r], s')
    /\ Mcp.r_status r = "failed"
    /\ Mcp.r_error r = Some "PipelineFault"
    /\ Mcp.r_duration r = None.
Proof.
  eexists _, _. split; [vm_compute; reflexivity|]. repeat split.
Qed.

(** C9 (amended). The executor always returns a record, and its `failed`
    records carry the message of the fault and the elapsed time, in rounded
    seconds, from the start of the run to the handler; the record that the
    per-target handler of the batch builds carries the message and a
    timestamp but no elapsed time. *)
Theorem failed_records_of_executor host master url s :
  (exists r s',
     Mcp.processHealthcareWebsite host url s = (Returned r, s')
     /\ (Mcp.r_status r = "success"
         \/ (Mcp.r_status r = "failed"
             /\ (exists m, Mcp.r_error r = Some m)
             /\ Mcp.r_duration r =
                  Some (round_seconds (Date_now host (clock_reads s' - 2)
                                       - Date_now host (clock_reads s))))))
  /\ (exists r s',
        Direct.processHealthcareWebsite host master url s = (Returned r, s')
        /\ (Direct.r_status r = "success"
            \/ (Direct.r_status r = "failed"
                /\ (exists m, Direct.r_error r = Some m)
                /\ Direct.r_duration r =
                     Some (round_seconds (Date_now host (clock_reads s' - 2)
                                          - Date_now host (clock_reads s))))))
  /\ (forall target message timestamp,
        Mcp.r_status (Mcp.failed_entry target message timestamp) = "failed"
        /\ Mcp.r_error (Mcp.failed_entry target message timestamp) = Some message
        /\ Mcp.r_duration (Mcp.failed_entry target message timestamp) = None
        /\ Direct.r_status (Direct.failed_entry target message timestamp) = "failed"
        /\ Direct.r_error (Direct.failed_entry target message timestamp) = Some message
        /\ Direct.r_duration (Direct.failed_entry target message timestamp) = None).
Proof.
  split; [|split].
  - destruct (McpPipeline.mcp_process_spec host url s)
      as (r & s' & evs & X & _ & _ & _ & D & _ & _ & St).
    exists r, s'. split; [exact X|].
    destruct St as [[? _]|[? ?]]; auto.
  - destruct (DirectPipeline.direct_process_spec host master url s)
      as (r & s' & evs & X & _ & _ & _ & D & _ & _ & St).
    exists r, s'. split; [exact X|].
    destruct St as [[? _]|[? ?]]; auto.
  - intros. repeat split.
Qed.

(** The entry points on the targets of the constructors: three leads, two
    suspensions; the MCP agent ends without a session. *)
Example mcp_three_leads :
  suspensions (console (snd (Mcp.executeAutonomousWorkflow (connected_host half) 3
                               initial_state))) = 2%nat
  /\ mcpClients (snd (Mcp.executeAutonomousWorkflow (connected_host half) 3
                        initial_state)) = ∅
  /\ targets_logged (console (snd (Mcp.executeAutonomousWorkflow (connected_host half) 3
                                     initial_state)))
     = ["https://www.theprivateclinic.co.uk";
        "https://www.harleystreetskinclinic.com";
        "https://www.152harleystreet.com"].
Proof. repeat split; vm_compute; reflexivity. Qed.

Example direct_three_leads :
  suspensions (console (snd (Direct.executeAutonomousWorkflow (offline_host half)
                               "agent_master" 3 initial_state))) = 2%nat.
Proof. vm_compute. reflexivity. Qed.

(** * Further properties of the code *)

(** * Further properties of the naming utilities *)

Lemma replace_first_length (m : Matcher) (bol : bool) (s : list ascii) :
  (length (replace_first m bol s) <= length s)%nat.
Proof.
  revert bol; induction s as [|c s IH]; intros bol; rewrite replace_first_eq.
  - destruct (m bol []); [rewrite length_drop; lia | reflexivity].
  - destruct (m bol (c :: s)); [rewrite length_drop; lia|].
    cbn [length]. specialize (IH false). lia.
Qed.

Lemma collapse_length (b : bool) (s : list ascii) :
  (length (collapse b s) <= length s)%nat.
Proof.
  revert b; induction s as [|c s IH]; intros b; [reflexivity|].
  cbn [collapse]. destruct (is_hyphen c), b; cbn [length];
    first [specialize (IH true); lia | specialize (IH false); lia].
Qed.

Lemma trim_end_length (s : list ascii) : (length (trim_end s) <= length s)%nat.
Proof.
  induction s as [|c [|d s] IH]; [reflexivity | |].
  - cbn [trim_end]. destruct (is_hyphen c); cbn [length]; lia.
  - change (trim_end (c :: d :: s)) with (c :: trim_end (d :: s)).
    cbn [length] in *. lia.
Qed.

Lemma trim_length (s : list ascii) : (length (trim s) <= length s)%nat.
Proof.
  destruct s as [|c s]; [reflexivity|]. cbn [trim].
  pose proof (trim_end_length s).
  destruct (is_hyphen c); cbn [length]; lia.
Qed.

Lemma ends_with_hyphen_cons (c : ascii) (s : list ascii) :
  ends_with_hyphen (c :: s) =
  match s with
  | [] => is_hyphen c
  | _ :: _ => ends_with_hyphen s
  end.
Proof. destruct s; reflexivity. Qed.

Lemma trim_end_last (s : list ascii) :
  no_double_hyphen s = true -> ends_with_hyphen (trim_end s) = false.
Proof.
  induction s as [|c [|d s] IH]; intros N; [reflexivity | |].
  - cbn [trim_end]. destruct (is_hyphen c) eqn:E; [reflexivity|].
    unfold ends_with_hyphen. cbn. exact E.
  - change (trim_end (c :: d :: s)) with (c :: trim_end (d :: s)).
    rewrite no_double_hyphen_cons in N. apply andb_true_iff in N as [N1 N2].
    rewrite ends_with_hyphen_cons.
    destruct (trim_end (d :: s)) as [|e t] eqn:T; [|now apply IH].
    destruct s as [|e s]; [|discriminate T].
    cbn [trim_end] in T. destruct (is_hyphen d) eqn:D; [|discriminate T].
    apply negb_true_iff in N1. cbn [starts_with_hyphen] in N1. rewrite D in N1.
    now rewrite andb_true_r in N1.
Qed.

Lemma trim_last (s : list ascii) :
  no_double_hyphen s = true -> ends_with_hyphen (trim s) = false.
Proof.
  destruct s as [|c s]; intros N; [reflexivity|].
  rewrite no_double_hyphen_cons in N. apply andb_true_iff in N as [N1 N2].
  cbn [trim]. destruct (is_hyphen c) eqn:E; [now apply trim_end_last|].
  rewrite ends_with_hyphen_cons.
  pose proof (trim_end_last s N2) as L.
  destruct (trim_end s) as [|e t] eqn:T; [exact E | exact L].
Qed.

(** X1. Every practice identifier is made of lowercase letters, digits and
    hyphens, has no doubled and no leading hyphen and at most 25 characters;
    it can end with a hyphen only when the domain has more than 25
    characters. *)
Theorem practice_id_well_formed (domain : string) :
  forallb id_char (chars (generatePracticeId domain)) = true
  /\ no_double_hyphen (chars (generatePracticeId domain)) = true
  /\ starts_with_hyphen (chars (generatePracticeId domain)) = false
  /\ (length (chars (generatePracticeId domain)) <= 25)%nat
  /\ ((25 < length (chars domain))%nat
      \/ ends_with_hyphen (chars (generatePracticeId domain)) = false).
Proof.
  destruct (generatePracticeId_shape domain) as (H1 & H2 & H3 & H4).
  repeat (split; [assumption|]).
  destruct (Nat.lt_ge_cases 25 (length (chars domain))) as [L|L]; [left; exact L | right].
  rewrite generatePracticeId_eq.
  set (s := map hyphenate _).
  assert (Ls : (length s <= 25)%nat).
  { subst s. rewrite length_map. unfold toLowerCase. rewrite length_map.
    pose proof (replace_first_length re_tld true (replace_first re_www true (chars domain))).
    pose proof (replace_first_length re_www true (chars domain)). lia. }
  destruct (collapse_shape false s) as [N _].
  pose proof (collapse_length false s) as Lc.
  pose proof (trim_length (collapse false s)) as Lt.
  rewrite take_ge by lia. now apply trim_last.
Qed.

Lemma chars_append (a b : string) : chars (a +:+ b) = chars a ++ chars b.
Proof. unfold chars. induction a as [|c a IH]; simpl; [reflexivity | now f_equal]. Qed.

Lemma chars_str (l : list ascii) : chars (str l) = l.
Proof. apply list_ascii_of_string_of_list_ascii. Qed.


Lemma upper_not_separator (c : ascii) :
  is_separator c = false -> is_separator (char_toUpperCase c) = false.
Proof. destruct c as [[] [] [] [] [] [] [] []]; intros H; try exact H; reflexivity. Qed.

Lemma split_not_nil (sep : ascii -> bool) (s : list ascii) : split sep s <> [].
Proof.
  induction s as [|c s IH]; [discriminate|]. cbn [split].
  destruct (sep c); [discriminate|]. destruct (split sep s); discriminate.
Qed.

Lemma split_words (s : list ascii) :
  Forall (fun w => forallb not_separator w = true) (split is_separator s).
Proof.
  induction s as [|c s IH]; [repeat constructor|]. cbn [split].
  destruct (is_separator c) eqn:E; [constructor; [reflexivity | exact IH]|].
  destruct (split is_separator s) as [|w ws]; [repeat constructor; cbn; unfold not_separator; now rewrite E|].
  inversion IH as [|? ? Hw Hws]; subst. constructor; [|exact Hws].
  cbn [forallb]. unfold not_separator at 1. now rewrite E, Hw.
Qed.

Lemma join_length (sep : list ascii) (ws : list (list ascii)) :
  length (join sep ws) =
  (list_sum (map (@length ascii) ws) + length sep * (length ws - 1))%nat.
Proof.
  induction ws as [|w [|w' ws] IH]; [cbn; lia | cbn; lia |].
  change (join sep (w :: w' :: ws)) with (w ++ sep ++ join sep (w' :: ws)).
  rewrite !length_app, IH. cbn [map length Nat.sub]. unfold list_sum. cbn [fold_right].
  rewrite Nat.sub_0_r. nia.
Qed.

Lemma split_length (s : list ascii) :
  (list_sum (map (@length ascii) (split is_separator s))
   + (length (split is_separator s) - 1) = length s)%nat.
Proof.
  induction s as [|c s IH]; [reflexivity|]. cbn [split].
  pose proof (split_not_nil is_separator s) as NE.
  destruct (is_separator c).
  - destruct (split is_separator s) as [|w ws]; [congruence|].
    cbn [map length] in *. unfold list_sum in *. cbn [fold_right] in *. lia.
  - destruct (split is_separator s) as [|w ws]; [congruence|].
    cbn [map length] in *. unfold list_sum in *. cbn [fold_right] in *. lia.
Qed.

Lemma capitalize_length (w : list ascii) : length (capitalize w) = length w.
Proof. destruct w; reflexivity. Qed.

Lemma capitalize_not_separator (w : list ascii) :
  forallb not_separator w = true -> forallb not_separator (capitalize w) = true.
Proof.
  destruct w as [|c w]; [reflexivity|]. cbn [capitalize forallb].
  rewrite !andb_true_iff. intros [Hc Hw]. split; [|exact Hw].
  unfold not_separator in *. apply negb_true_iff in Hc.
  now rewrite (upper_not_separator c Hc).
Qed.

Lemma join_not_separator (ws : list (list ascii)) :
  Forall (fun w => forallb not_separator w = true) ws ->
  forallb not_separator (join (chars " ") ws) = true.
Proof.
  induction ws as [|w [|w' ws] IH]; intros F; [reflexivity | |].
  - inversion F; subst. assumption.
  - change (join (chars " ") (w :: w' :: ws))
      with (w ++ chars " " ++ join (chars " ") (w' :: ws)).
    inversion F as [|? ? Hw Hws]; subst.
    rewrite !forallb_app, Hw, (IH Hws). reflexivity.
Qed.

(** X2. The company name of a domain is the rest of the domain, once "www."
    and the known suffix are stripped, with every "-" and "." turned into one
    space, followed by " Clinic": it has the length of that rest plus seven
    and holds no "-" and no ".". *)
Theorem company_name_shape (domain : string) :
  exists name,
    chars (extractCompanyFromDomain domain) = name ++ chars " Clinic"
    /\ length name
       = length (NamingSpec.strip_known_suffix
                   (NamingSpec.strip_leading_www (chars domain)))
    /\ forallb not_separator (chars (extractCompanyFromDomain domain)) = true.
Proof.
  unfold extractCompanyFromDomain. cbv zeta.
  rewrite replace_www, replace_tld.
  set (rest := NamingSpec.strip_known_suffix _).
  exists (join (chars " ") (map capitalize (split is_separator rest))).
  rewrite chars_append, chars_str. split; [reflexivity|]. split.
  - rewrite join_length, length_map.
    replace (map (@length ascii) (map capitalize (split is_separator rest)))
      with (map (@length ascii) (split is_separator rest)).
    + pose proof (split_length rest). cbn [chars list_ascii_of_string length] in *. lia.
    + rewrite map_map. apply map_ext. intros w. now rewrite capitalize_length.
  - rewrite forallb_app. apply andb_true_iff. split; [|reflexivity].
    apply join_not_separator.
    pose proof (split_words rest) as F.
    induction F; constructor; auto using capitalize_not_separator.
Qed.

(** * Further properties: configuration and strings *)

Lemma require_env_set (env : gmap string string) (envVar : string) :
  is_set env envVar = true ->
  exists value, require_env env envVar = Returned value /\ env !! envVar = Some value.
Proof.
  unfold is_set, require_env. destruct (env !! envVar) as [value|]; [|discriminate].
  intros ->. eauto.
Qed.

Lemma require_env_unset (env : gmap string string) (envVar : string) :
  is_set env envVar = false ->
  require_env env envVar = Thrown (missing_env_message envVar).
Proof.
  unfold is_set, require_env. destruct (env !! envVar) as [value|]; [|reflexivity].
  now intros ->.
Qed.

(** Read the next variable of a configuration. *)
Ltac next_variable env name :=
  unfold first_missing; cbn [List.find negb];
  destruct (is_set env name) eqn:?;
  [ match goal with
    | H : is_set env name = true |- _ =>
        let v := fresh "v" in
        let R := fresh "R" in
        let L := fresh "L" in
        destruct (require_env_set env name H) as (v & R & L);
        rewrite R; cbn [and_then negb]
    end
  | match goal with
    | H : is_set env name = false |- _ =>
        rewrite (require_env_unset env name H); reflexivity
    end ].

(** X3. The constructor of either agent succeeds exactly when every variable
    it requires is set to a non-empty value, and then its configuration holds
    those values; otherwise it throws the message that names the first
    variable, in the order it reads them, that is unset or empty. *)
Theorem config_requires_every_variable (env : gmap string string) :
  match first_missing env direct_required with
  | Some envVar => direct_config env = Thrown (missing_env_message envVar)
  | None =>
      exists config,
        direct_config env = Returned config
        /\ env !! "GITHUB_TOKEN" = Some (direct_githubToken config)
        /\ env !! "NOTION_API_KEY" = Some (direct_notionApiKey config)
        /\ env !! "ELEVENLABS_AGENT_ID" = Some (direct_masterAgentId config)
  end
  /\ match first_missing env mcp_required with
     | Some envVar => mcp_config env = Thrown (missing_env_message envVar)
     | None =>
         exists config,
           mcp_config env = Returned config
           /\ env !! "SMITHERY_API_KEY" = Some (mcp_smitheryApiKey config)
           /\ env !! "NOTION_DATABASE_ID" = Some (mcp_notionDatabaseId config)
     end.
Proof.
  split.
  - unfold direct_config, direct_required.
    next_variable env "GITHUB_TOKEN".
    next_variable env "RAILWAY_TOKEN".
    next_variable env "NOTION_API_KEY".
    next_variable env "NOTION_DATABASE_ID".
    next_variable env "ELEVENLABS_API_KEY".
    next_variable env "OPENROUTER_API_KEY".
    next_variable env "ELEVENLABS_AGENT_ID".
    eexists. split; [reflexivity|]. cbn. auto.
  - unfold mcp_config, mcp_required.
    next_variable env "SMITHERY_API_KEY".
    next_variable env "SMITHERY_PROFILE".
    next_variable env "GITHUB_TOKEN".
    next_variable env "RAILWAY_TOKEN".
    next_variable env "NOTION_DATABASE_ID".
    next_variable env "ELEVENLABS_API_KEY".
    eexists. split; [reflexivity|]. cbn. auto.
Qed.

Lemma starts_with_app (p s : list ascii) : starts_with p (p ++ s) = true.
Proof.
  induction p as [|c p IH]; [reflexivity|]. cbn [app starts_with].
  now rewrite Ascii.eqb_refl, IH.
Qed.

Lemma starts_with_split (p s : list ascii) :
  starts_with p s = true -> s = p ++ drop (length p) s.
Proof.
  revert s; induction p as [|c p IH]; intros s H; [reflexivity|].
  destruct s as [|d s]; [discriminate|]. cbn [starts_with] in H.
  apply andb_true_iff in H as [E H]. apply Ascii.eqb_eq in E as ->.
  cbn [length drop skipn app]. f_equal. now apply IH.
Qed.

Lemma indexOf_chars_Some (needle s : list ascii) (i : nat) :
  indexOf_chars needle s = Some i ->
  s = take i s ++ needle ++ drop (i + length needle) s.
Proof.
  revert i; induction s as [|c s IH]; intros i; cbn [indexOf_chars].
  - destruct (starts_with needle []) eqn:E; [|discriminate].
    intros [= <-]. now apply starts_with_split in E.
  - destruct (starts_with needle (c :: s)) eqn:E.
    + intros [= <-]. now apply starts_with_split in E.
    + destruct (indexOf_chars needle s) as [j|]; [|discriminate].
      intros [= <-]. cbn [take firstn Nat.add drop skipn app]. f_equal. now apply IH.
Qed.

Lemma indexOf_chars_None (needle s : list ascii) :
  indexOf_chars needle s = None -> includes_chars needle s = false.
Proof.
  induction s as [|c s IH]; cbn [indexOf_chars includes_chars].
  - destruct (starts_with needle []); [discriminate | reflexivity].
  - destruct (starts_with needle (c :: s)); [discriminate|].
    destruct (indexOf_chars needle s); [discriminate|]. intros _. now apply IH.
Qed.

Lemma brace_of_marker (rest : list ascii) :
  indexOf_chars (chars "{") (chars configs_marker ++ rest) = Some 63%nat.
Proof. reflexivity. Qed.

Lemma indexOf_chars_first (needle s : list ascii) (i : nat) :
  indexOf_chars needle s = Some i ->
  forall j, (j < i)%nat -> starts_with needle (drop j s) = false.
Proof.
  revert i; induction s as [|c s IH]; intros i; cbn [indexOf_chars].
  - destruct (starts_with needle []); [intros [= <-]; lia | discriminate].
  - destruct (starts_with needle (c :: s)) eqn:E; [intros [= <-]; lia|].
    destruct (indexOf_chars needle s) as [k|] eqn:K; [|discriminate].
    intros [= <-] [|j] Hj; [exact E|]. cbn [drop skipn]. apply (IH k eq_refl). lia.
Qed.

(** X4. The new entry of the practice configuration file is inserted right
    after the first declaration of [practiceConfigs], brace included, and the
    text before and after it is kept; a file without that declaration is
    left as it is. *)
Theorem practice_config_insertion (originalConfig practiceConfig : string) :
  match indexOf_chars (chars configs_marker) (chars originalConfig) with
  | Some i =>
      exists before after,
        chars originalConfig = before ++ chars configs_marker ++ after
        /\ length before = i
        /\ (forall j, (j < i)%nat ->
              starts_with (chars configs_marker) (drop j (chars originalConfig)) = false)
        /\ chars (insertPracticeConfig originalConfig practiceConfig)
           = before ++ chars configs_marker ++ chars practiceConfig ++ after
  | None =>
      includes configs_marker originalConfig = false
      /\ insertPracticeConfig originalConfig practiceConfig = originalConfig
  end.
Proof.
  unfold insertPracticeConfig. cbv zeta.
  destruct (indexOf_chars (chars configs_marker) (chars originalConfig)) as [i|] eqn:I.
  - pose proof (indexOf_chars_Some _ _ _ I) as D.
    pose proof (indexOf_chars_first _ _ _ I) as F.
    set (o := chars originalConfig) in *.
    set (after := drop (i + length (chars configs_marker)) o) in *.
    assert (Li : length (take i o) = i).
    { pose proof (f_equal (@length ascii) D) as DL.
      rewrite !length_app, length_take in DL. rewrite length_take.
      assert (0 < length (chars configs_marker))%nat by (cbn; lia). lia. }
    exists (take i o), after. split; [exact D|]. split; [exact Li|]. split; [exact F|].
    assert (Dr : drop i o = chars configs_marker ++ after).
    { rewrite D at 1. rewrite <- Li at 1. now rewrite drop_app_length. }
    unfold indexOf_from. rewrite Dr, brace_of_marker. cbn [option_map].
    rewrite chars_str.
    replace (S (i + 63)) with (i + length (chars configs_marker))%nat by (cbn; lia).
    fold after.
    replace (take (i + length (chars configs_marker)) o)
      with (take i o ++ chars configs_marker).
    + now rewrite <- app_assoc.
    + rewrite D at 2. rewrite <- Li at 2. rewrite take_app_add'; [|reflexivity].
      now rewrite take_app_length.
  - split; [|reflexivity]. now apply indexOf_chars_None.
Qed.

Lemma leading_forallb (p : ascii -> bool) (s : list ascii) :
  forallb p (leading p s) = true.
Proof.
  induction s as [|c s IH]; [reflexivity|]. cbn [leading].
  destruct (p c) eqn:E; [|reflexivity]. cbn [forallb]. now rewrite E, IH.
Qed.

Lemma leading_prefix (p : ascii -> bool) (s : list ascii) :
  starts_with (leading p s) s = true.
Proof.
  induction s as [|c s IH]; [reflexivity|]. cbn [leading].
  destruct (p c); [|reflexivity]. cbn [starts_with]. now rewrite Ascii.eqb_refl, IH.
Qed.

Lemma starts_with_join (p q s : list ascii) :
  starts_with p s = true -> starts_with q (drop (length p) s) = true ->
  starts_with (p ++ q) s = true.
Proof.
  revert s; induction p as [|c p IH]; intros s Hp Hq; [exact Hq|].
  destruct s as [|d s]; [discriminate|]. cbn [starts_with app] in *.
  apply andb_true_iff in Hp as [-> Hp]. cbn [andb]. now apply IH.
Qed.

Lemma includes_chars_here (needle s : list ascii) :
  starts_with needle s = true -> includes_chars needle s = true.
Proof. intros H. destruct s; cbn [includes_chars]; now rewrite H. Qed.

Lemma includes_chars_later (needle : list ascii) (c : ascii) (s : list ascii) :
  includes_chars needle s = true -> includes_chars needle (c :: s) = true.
Proof. intros H. cbn [includes_chars]. rewrite H. apply orb_true_r. Qed.

Lemma match_project_id_Some (s id : list ascii) :
  match_project_id_chars s = Some id ->
  id <> [] /\ forallb is_id_char id = true
  /\ includes_chars (chars "ID: " ++ id) s = true.
Proof.
  induction s as [|c s IH]; [discriminate|].
  cbn [match_project_id_chars].
  destruct (starts_with (chars "ID: ") (c :: s)) eqn:E.
  - destruct (leading is_id_char (drop 4 (c :: s))) as [|d l] eqn:L.
    + intros H. destruct (IH H) as (? & ? & ?). auto using includes_chars_later.
    + intros [= <-]. split; [discriminate|]. split.
      * rewrite <- L. apply leading_forallb.
      * apply includes_chars_here, starts_with_join; [exact E|].
        rewrite <- L. apply leading_prefix.
  - intros H. destruct (IH H) as (? & ? & ?). auto using includes_chars_later.
Qed.

Lemma match_project_id_None (s : list ascii) :
  match_project_id_chars s = None ->
  forall pre c rest, s = pre ++ chars "ID: " ++ c :: rest -> is_id_char c = false.
Proof.
  induction s as [|c0 s IH]; intros H pre c rest E.
  - destruct pre; discriminate E.
  - cbn [match_project_id_chars] in H.
    destruct pre as [|p pre].
    + cbn [app] in E. rewrite E in H.
      change (starts_with (chars "ID: ") (chars "ID: " ++ c :: rest)) with true in H.
      cbv iota in H.
      change (drop 4 (chars "ID: " ++ c :: rest)) with (c :: rest) in H.
      cbn [leading] in H. destruct (is_id_char c); [discriminate H | reflexivity].
    + injection E as -> E.
      apply (IH) with (pre := pre) (rest := rest); [|exact E].
      destruct (starts_with (chars "ID: ") (p :: s)); [|exact H].
      destruct (leading is_id_char (drop 4 (p :: s))); [exact H | discriminate H].
Qed.

(** X5. What [/ID: ([a-f0-9-]+)/] captures in the answer of the deployment
    tool: a non-empty run of the characters a-f, 0-9 and "-" that follows
    "ID: " in the text; there is no capture only if no "ID: " of the text is
    followed by such a character. *)
Theorem project_id_capture (text : string) :
  match match_project_id text with
  | Some id =>
      chars id <> []
      /\ forallb is_id_char (chars id) = true
      /\ includes ("ID: " +:+ id) text = true
  | None =>
      forall pre c rest,
        chars text = pre ++ chars "ID: " ++ c :: rest -> is_id_char c = false
  end.
Proof.
  unfold match_project_id.
  destruct (match_project_id_chars (chars text)) as [id|] eqn:M; cbn [option_map].
  - destruct (match_project_id_Some _ _ M) as (H1 & H2 & H3).
    unfold includes. rewrite chars_append, chars_str. auto.
  - now apply match_project_id_None.
Qed.

(** ** The phases of the MCP agent *)

Lemma truthy_false (text : string) : truthy text = false -> text = "".
Proof.
  unfold truthy. intros H. apply negb_false_iff in H. now apply String.eqb_eq.
Qed.

Lemma truthy_true (text : string) : truthy text = true -> text <> "".
Proof.
  unfold truthy. intros H E. subst text. discriminate H.
Qed.

(** X6. The deployment phase of the MCP agent never throws and always
    answers with the same address, built from the practice identifier.  Its
    result is tagged "railway-mcp" only if a railway session is open and the
    text answered by the tool holds a project identifier, which it then
    carries; in every other case it is tagged "fallback" and its project
    identifier is "fallback_" followed by the clock. *)
Theorem railway_deployment_outcome host data repo s :
  exists d s',
    Mcp.deployToRailwayMCP host data repo s = (Returned d, s')
    /\ Mcp.deploy_url d = Mcp.deployment_url data
    /\ Mcp.deploy_status d = "deployed"
    /\ ((Mcp.deploy_method d = "railway-mcp"
         /\ is_Some (mcpClients s !! "railway")
         /\ exists text,
              tool_response host (calls s) = Returned (Some text)
              /\ match_project_id text = Some (Mcp.deploy_projectId d))
        \/ (Mcp.deploy_method d = "fallback"
            /\ Mcp.deploy_projectId d = "fallback_" +:+ pretty (Date_now host (clock_reads s))
            /\ (mcpClients s !! "railway" = None
                \/ forall text,
                     tool_response host (calls s) = Returned (Some text) ->
                     match_project_id text = None))).
Proof.
  unfold Mcp.deployToRailwayMCP, Mcp.get_client, Mcp.callTool, external. run.
  destruct (mcpClients s !! "railway") as [client|] eqn:L.
  - destruct (tool_response host (calls s)) as [[text|]|e] eqn:T.
    + destruct (truthy text) eqn:Tr.
      * destruct (match_project_id text) as [projectId|] eqn:M.
        -- eexists _, _. split; [reflexivity|]. do 2 (split; [reflexivity|]).
           left. split; [reflexivity|]. split; [eauto|]. eauto.
        -- eexists _, _. split; [reflexivity|]. do 2 (split; [reflexivity|]).
           right. do 2 (split; [reflexivity|]). right. now intros text' [= <-].
      * eexists _, _. split; [reflexivity|]. do 2 (split; [reflexivity|]).
        right. do 2 (split; [reflexivity|]). right. intros text' [= <-].
        now rewrite (truthy_false _ Tr).
    + eexists _, _. split; [reflexivity|]. do 2 (split; [reflexivity|]).
      right. do 2 (split; [reflexivity|]). right. discriminate.
    + eexists _, _. split; [reflexivity|]. do 2 (split; [reflexivity|]).
      right. do 2 (split; [reflexivity|]). right. discriminate.
  - eexists _, _. split; [reflexivity|]. do 2 (split; [reflexivity|]).
    right. do 2 (split; [reflexivity|]). now left.
Qed.

Ltac voice_fallback :=
  solve [eexists _, _; split; [reflexivity|]; split; [reflexivity|];
         right; repeat split].

(** X7. The voice phase of the MCP agent never throws and leaves the voice
    client initialised.  A result tagged "elevenlabs_direct_api" carries a
    voice of the list answered by the API: one that the selection prefers, or
    else the first of a list in which none is preferred; every other result
    is the fallback, tagged "fallback_enhanced", without a voice. *)
Theorem voice_agent_outcome host data s :
  exists v s',
    Mcp.createVoiceAgentMCP host data s = (Returned v, s')
    /\ elevenLabsClient s' = true
    /\ ((Mcp.voice_method v = "elevenlabs_direct_api"
         /\ Mcp.voice_status v = "created_with_direct_api"
         /\ Mcp.voice_fallback_reason v = None
         /\ exists voices selected,
              voices_response host (calls s) = Returned voices
              /\ speech_response host (S (calls s)) = Returned true
              /\ In selected voices
              /\ Mcp.voice_voiceId v = Some (voice_id selected)
              /\ Mcp.voice_voiceName v = Some (voice_name selected)
              /\ (Mcp.prefers selected = true
                  \/ (head voices = Some selected
                      /\ forall other, In other voices -> Mcp.prefers other = false)))
        \/ (Mcp.voice_method v = "fallback_enhanced"
            /\ Mcp.voice_status v = "fallback_created"
            /\ Mcp.voice_voiceId v = None
            /\ Mcp.voice_voiceName v = None
            /\ Mcp.voice_fallback_reason v = Some "elevenlabs_direct_api_unavailable")).
Proof.
  unfold Mcp.createVoiceAgentMCP, external. run. settle.
  destruct (voices_response host (calls s)) as [[|first voices]|e] eqn:V;
    settle; try voice_fallback.
  destruct (speech_response host (S (calls s))) as [[|]|e] eqn:Sp;
    settle; try voice_fallback.
  destruct (buffer_response host (S (S (calls s)))) as [[]|e];
    settle; try voice_fallback.
  destruct (file_response host (S (S (S (calls s))))) as [[]|e];
    settle; try voice_fallback.
  eexists _, _. split; [reflexivity|]. split; [reflexivity|].
  left. do 3 (split; [reflexivity|]).
  exists (first :: voices), (default first (List.find Mcp.prefers (first :: voices))).
  do 2 (split; [reflexivity|]).
  destruct (List.find Mcp.prefers (first :: voices)) as [chosen|] eqn:F; cbn [default].
  - apply find_some in F as [I P]. auto 6.
  - split; [now left|]. do 2 (split; [reflexivity|]). right.
    split; [reflexivity|]. intros other I. exact (find_none _ _ F other I).
Qed.

(** X8. The storage phase of the MCP agent never throws.  Its result is
    tagged "notion-mcp" only if a notion session is open and the tool
    answered a non-empty text, which becomes the page identifier; in every
    other case the storage is simulated and tagged "fallback". *)
Theorem notion_storage_outcome host data deployment voiceAgent s :
  exists n s',
    Mcp.storeLeadInNotionMCP host data deployment voiceAgent s = (Returned n, s')
    /\ ((Mcp.notion_method n = "notion-mcp"
         /\ Mcp.notion_status n = "stored"
         /\ is_Some (mcpClients s !! "notion")
         /\ tool_response host (calls s) = Returned (Some (Mcp.notion_pageId n))
         /\ Mcp.notion_pageId n <> "")
        \/ (Mcp.notion_method n = "fallback"
            /\ Mcp.notion_status n = "simulated"
            /\ Mcp.notion_pageId n
               = "notion_page_" +:+ pretty (Date_now host (clock_reads s))
            /\ (mcpClients s !! "notion" = None
                \/ forall text,
                     tool_response host (calls s) = Returned (Some text) -> text = ""))).
Proof.
  unfold Mcp.storeLeadInNotionMCP, Mcp.get_client, Mcp.callTool, external. run.
  destruct (mcpClients s !! "notion") as [client|] eqn:L.
  - destruct (tool_response host (calls s)) as [[text|]|e] eqn:T.
    + destruct (truthy text) eqn:Tr.
      * eexists _, _. split; [reflexivity|]. left.
        do 2 (split; [reflexivity|]). split; [eauto|]. split; [reflexivity|].
        now apply truthy_true.
      * eexists _, _. split; [reflexivity|]. right.
        do 3 (split; [reflexivity|]). right. intros text' [= <-].
        now apply truthy_false.
    + eexists _, _. split; [reflexivity|]. right.
      do 3 (split; [reflexivity|]). right. discriminate.
    + eexists _, _. split; [reflexivity|]. right.
      do 3 (split; [reflexivity|]). right. discriminate.
  - eexists _, _. split; [reflexivity|]. right.
    do 3 (split; [reflexivity|]). now left.
Qed.

(** The discovery of the MCP agent, once the address is parsed: the page
    that was scraped, if any, fills the fields that it gives. *)
Lemma parseScraped_outcome host url text domain s :
  URL_hostname host url = Some domain ->
  exists o s',
    Mcp.parseScraped host url text s = (Returned o, s')
    /\ clock_reads s' = clock_reads s
    /\ match o with
       | Some data =>
           draws s' = (3 + draws s)%nat
           /\ practiceId data = generatePracticeId domain
           /\ leadSource data = "playwright-mcp-scraping"
           /\ leadScore data = leadScore_of (Math_random host (S (S (draws s))))
       | None => draws s' = draws s /\ JSON_parse_page host text = None
       end.
Proof.
  intros H. unfold Mcp.parseScraped, generateDoctorName, hostname, random. run.
  rewrite H. destruct (JSON_parse_page host text) as [page|]; settle.
  - eexists (Some _), _. split; [reflexivity|]. repeat split.
  - exists None, s. repeat split.
Qed.

Lemma parseScraped_invalid host url text s :
  URL_hostname host url = None ->
  Mcp.parseScraped host url text s = (Returned None, s).
Proof.
  intros H. unfold Mcp.parseScraped, hostname. run.
  rewrite H. now destruct (JSON_parse_page host text).
Qed.

Lemma mcp_analyze_cases host url s :
  match URL_hostname host url with
  | None => fst (Mcp.analyzeHealthcareWebsite host url s) = Thrown "Invalid URL"
  | Some domain =>
      exists data s',
        Mcp.analyzeHealthcareWebsite host url s = (Returned data, s')
        /\ practiceId data = generatePracticeId domain
        /\ draws s' = (3 + draws s)%nat
        /\ leadScore data = leadScore_of (Math_random host (S (S (draws s))))
        /\ ((leadSource data = "fallback-analysis"
             /\ company data = extractCompanyFromDomain domain
             /\ email data = "info@" +:+ domain)
            \/ (leadSource data = "playwright-mcp-scraping"
                /\ is_Some (mcpClients s !! "playwright")))
  end.
Proof.
  assert (Fallback : forall domain st,
    URL_hostname host url = Some domain ->
    exists data,
      Mcp.fallbackAnalysis host url st = (Returned data, set_draws (3 + draws st) st)
      /\ practiceId data = generatePracticeId domain
      /\ leadScore data = leadScore_of (Math_random host (S (S (draws st))))
      /\ leadSource data = "fallback-analysis"
      /\ company data = extractCompanyFromDomain domain
      /\ email data = "info@" +:+ domain).
  { intros domain st H. unfold Mcp.fallbackAnalysis, generateDoctorName, hostname.
    rewrite H. eexists. split; [reflexivity|]. repeat split. }
  assert (Invalid : forall st,
    URL_hostname host url = None ->
    fst (Mcp.fallbackAnalysis host url st) = Thrown "Invalid URL").
  { intros st H. unfold Mcp.fallbackAnalysis, hostname. now rewrite H. }
  destruct (URL_hostname host url) as [domain|] eqn:H.
  - assert (Done : forall st, draws st = draws s ->
      exists data s',
        Mcp.fallbackAnalysis host url st = (Returned data, s')
        /\ practiceId data = generatePracticeId domain
        /\ draws s' = (3 + draws s)%nat
        /\ leadScore data = leadScore_of (Math_random host (S (S (draws s))))
        /\ ((leadSource data = "fallback-analysis"
             /\ company data = extractCompanyFromDomain domain
             /\ email data = "info@" +:+ domain)
            \/ (leadSource data = "playwright-mcp-scraping"
                /\ is_Some (mcpClients s !! "playwright")))).
    { intros st D. destruct (Fallback domain st eq_refl) as (data & -> & ? & ? & ? & ? & ?).
      exists data, (set_draws (3 + draws st) st). rewrite <- D. auto 10. }
    unfold Mcp.analyzeHealthcareWebsite, Mcp.get_client, Mcp.callTool, external. run.
    destruct (mcpClients s !! "playwright") as [client|] eqn:L; [|now apply Done].
    destruct (tool_response host (calls s)) as [[text|]|e]; settle;
      try (now apply Done).
    destruct (includes "Successfully navigated" text); settle; try (now apply Done).
    destruct (tool_response host (S (calls s))) as [shot|e]; settle;
      try (now apply Done).
    destruct (tool_response host (S (S (calls s)))) as [[text'|]|e]; settle;
      try (now apply Done).
    destruct (truthy text'); settle; try (now apply Done).
    match goal with
    | |- context [Mcp.parseScraped host url text' ?st] =>
        destruct (parseScraped_outcome host url text' domain st H)
          as ([data|] & s1 & -> & _ & P)
    end; settle.
    + destruct P as (D & I & Src & Sc). exists data, s1.
      split; [reflexivity|]. cbn [draws set_calls set_clock_reads] in D, Sc.
      repeat split; auto.
    + destruct P as [D _]. apply Done. exact D.
  - unfold Mcp.analyzeHealthcareWebsite, Mcp.get_client, Mcp.callTool, external. run.
    destruct (mcpClients s !! "playwright") as [client|]; [|now apply Invalid].
    destruct (tool_response host (calls s)) as [[text|]|e]; settle;
      try (now apply Invalid).
    destruct (includes "Successfully navigated" text); settle; try (now apply Invalid).
    destruct (tool_response host (S (calls s))) as [shot|e]; settle;
      try (now apply Invalid).
    destruct (tool_response host (S (S (calls s)))) as [[text'|]|e]; settle;
      try (now apply Invalid).
    destruct (truthy text'); settle; try (now apply Invalid).
    rewrite parseScraped_invalid by exact H. now apply Invalid.
Qed.

(** X9. The discovery phase of the MCP agent throws exactly when the address
    of the target does not parse, with the message "Invalid URL", whatever
    the playwright session answers.  On an address that parses it returns:
    the practice identifier is that of the host name, three draws are
    consumed, the last of which gives the lead score, and the data are
    either the fallback ones (company name and mailbox derived from the host
    name) or, only with a playwright session, the scraped ones. *)
Theorem discovery_outcome host url s :
  match URL_hostname host url with
  | None => fst (Mcp.analyzeHealthcareWebsite host url s) = Thrown "Invalid URL"
  | Some domain =>
      exists data s',
        Mcp.analyzeHealthcareWebsite host url s = (Returned data, s')
        /\ practiceId data = generatePracticeId domain
        /\ draws s' = (3 + draws s)%nat
        /\ leadScore data = leadScore_of (Math_random host (S (S (draws s))))
        /\ ((leadSource data = "fallback-analysis"
             /\ company data = extractCompanyFromDomain domain
             /\ email data = "info@" +:+ domain)
            \/ (leadSource data = "playwright-mcp-scraping"
                /\ is_Some (mcpClients s !! "playwright")))
  end.
Proof. exact (mcp_analyze_cases host url s). Qed.

(** ** The records of the two pipelines *)

Lemma mcp_deploy_returns host data repo s :
  exists d s',
    Mcp.deployToRailwayMCP host data repo s = (Returned d, s')
    /\ Mcp.deploy_url d = Mcp.deployment_url data.
Proof.
  unfold Mcp.deployToRailwayMCP, Mcp.get_client, Mcp.callTool, external. run.
  destruct (mcpClients s !! "railway") as [client|];
    [destruct (tool_response host (calls s)) as [[text|]|e];
     [destruct (truthy text); [destruct (match_project_id text)|]| |]|];
    eexists _, _; split; reflexivity.
Qed.

Lemma mcp_voice_returns host data s :
  exists v s',
    Mcp.createVoiceAgentMCP host data s = (Returned v, s')
    /\ mcpClients s' = mcpClients s
    /\ (Mcp.voice_method v = "elevenlabs_direct_api"
        \/ Mcp.voice_method v = "fallback_enhanced").
Proof.
  pose proof (McpFrames.voice_clients host data s) as M.
  revert M. unfold Mcp.createVoiceAgentMCP, external. run. settle.
  destruct (voices_response host (calls s)) as [[|first voices]|e]; settle;
    try (intros M; eexists _, _; split; [reflexivity|]; split; [exact M | now right]).
  destruct (speech_response host (S (calls s))) as [[|]|e]; settle;
    try (intros M; eexists _, _; split; [reflexivity|]; split; [exact M | now right]).
  destruct (buffer_response host (S (S (calls s)))) as [[]|e]; settle;
    try (intros M; eexists _, _; split; [reflexivity|]; split; [exact M | now right]).
  destruct (file_response host (S (S (S (calls s))))) as [[]|e]; settle;
    intros M; eexists _, _; (split; [reflexivity|]); (split; [exact M |]);
    [now left | now right].
Qed.

Lemma mcp_notion_returns host data deployment voiceAgent s :
  exists n s',
    Mcp.storeLeadInNotionMCP host data deployment voiceAgent s = (Returned n, s')
    /\ mcpClients s' = mcpClients s
    /\ (Mcp.notion_method n = "notion-mcp"
        /\ is_Some (mcpClients s !! "notion") /\ Mcp.notion_pageId n <> ""
        \/ Mcp.notion_method n = "fallback").
Proof.
  unfold Mcp.storeLeadInNotionMCP, Mcp.get_client, Mcp.callTool, external. run.
  destruct (mcpClients s !! "notion") as [client|] eqn:L;
    [destruct (tool_response host (calls s)) as [[text|]|e];
     [destruct (truthy text) eqn:Tr| |]|];
    eexists _, _; (split; [reflexivity|]); (split; [reflexivity|]);
    try (now right).
  left. split; [reflexivity|]. split; [eauto | now apply truthy_true].
Qed.

(** X10. A run of the MCP pipeline always returns a record, and a record is
    `failed` for two reasons only: the address of the target does not parse
    (error "Invalid URL"), or the provisioning phase threw (error "Repository
    creation failed: ..."); no failure of a session, of the voice API or of
    the storage shows in the record.  A `success` record carries the demo
    address built from the practice identifier of the host name. *)
Theorem mcp_record_taxonomy host url s :
  exists r s',
    Mcp.processHealthcareWebsite host url s = (Returned r, s')
    /\ match URL_hostname host url with
       | None =>
           Mcp.r_status r = "failed"
           /\ Mcp.r_error r = Some "Invalid URL"
           /\ Mcp.r_method r = Some "typescript-mcp"
       | Some domain =>
           (Mcp.r_status r = "success"
            /\ Mcp.r_error r = None
            /\ Mcp.r_method r = Some "typescript-mcp-complete"
            /\ Mcp.r_demoUrl r
               = Some ("https://" +:+ generatePracticeId domain
                       +:+ "-mcp-demo-production.up.railway.app"))
           \/ (Mcp.r_status r = "failed"
               /\ Mcp.r_method r = Some "typescript-mcp"
               /\ Mcp.r_demoUrl r = None
               /\ exists m, Mcp.r_error r = Some ("Repository creation failed: " +:+ m))
       end.
Proof.
  unfold Mcp.processHealthcareWebsite. run.
  match goal with
  | |- context [Mcp.analyzeHealthcareWebsite host url ?st] =>
      pose proof (mcp_analyze_cases host url st) as A
  end.
  destruct (URL_hostname host url) as [domain|].
  - destruct A as (data & s1 & -> & Id & _). settle.
    match goal with
    | |- context [Mcp.createPersonalizedRepository host data ?st] =>
        pose proof (McpFallback.createRepository_outcome host data st) as O;
        destruct (Mcp.createPersonalizedRepository host data st) as [[repo|e] s2]
    end; settle.
    + match goal with
      | |- context [Mcp.deployToRailwayMCP host data repo ?st] =>
          destruct (mcp_deploy_returns host data repo st) as (d & s3 & -> & U)
      end; settle.
      match goal with
      | |- context [Mcp.createVoiceAgentMCP host data ?st] =>
          destruct (mcp_voice_returns host data st) as (v & s4 & -> & _)
      end; settle.
      match goal with
      | |- context [Mcp.storeLeadInNotionMCP host data d v ?st] =>
          destruct (mcp_notion_returns host data d v st) as (n & s5 & -> & _)
      end; settle.
      eexists _, _. split; [reflexivity|]. left.
      cbn [Mcp.r_status Mcp.r_error Mcp.r_method Mcp.r_demoUrl].
      rewrite U. unfold Mcp.deployment_url. rewrite Id. repeat split.
    + eexists _, _. split; [reflexivity|]. right.
      cbn [Mcp.r_status Mcp.r_error Mcp.r_method Mcp.r_demoUrl].
      do 3 (split; [reflexivity|]).
      destruct (shell_response host _) as [out|m]; [destruct O as [m ->]|subst e]; eauto.
  - match goal with
    | |- context [Mcp.analyzeHealthcareWebsite host url ?st] =>
        destruct (Mcp.analyzeHealthcareWebsite host url st) as [o s1]
    end.
    cbn [fst] in A. subst o. eexists _, _. split; [reflexivity|]. repeat split.
Qed.

Lemma direct_scrape_cases host url s :
  match URL_hostname host url with
  | None => Direct.scrapeHealthcareWebsite host url s = (Thrown "Invalid URL", s)
  | Some domain =>
      exists data,
        Direct.scrapeHealthcareWebsite host url s
          = (Returned data, set_draws (3 + draws s) s)
        /\ practiceId data = generatePracticeId domain
  end.
Proof.
  unfold Direct.scrapeHealthcareWebsite, generateDoctorName, hostname.
  destruct (URL_hostname host url); [|reflexivity].
  eexists. split; reflexivity.
Qed.

(** Every command of the personalisation that can stop it is a shell
    command: the failures of the three file operations are swallowed. *)
Lemma direct_personalize_cases host repo data agentId s :
  match Direct.personalizeRepository host repo data agentId s with
  | (Returned _, _) => True
  | (Thrown e, _) =>
      exists k m,
        shell_response host k = Thrown m
        /\ e = "Repository personalization failed: " +:+ m
  end.
Proof.
  unfold Direct.personalizeRepository, Direct.updatePracticeConfig,
    Direct.updateBrandingStyling, Direct.createEnvFile, Direct.execSync, external.
  run. settle.
  repeat match goal with
         | |- context [match shell_response host ?k with _ => _ end] =>
             let E := fresh "E" in
             destruct (shell_response host k) eqn:E; settle
         | |- context [match file_response host ?k with _ => _ end] =>
             destruct (file_response host k) as [[]|]; settle
         end; eauto.
Qed.

Lemma direct_createRepository_cases host data agentId s :
  match Direct.createPersonalizedRepository host data agentId s with
  | (Returned repo, _) => github_response host (calls s) = Returned repo
  | (Thrown e, _) =>
      (exists m,
         github_response host (calls s) = Thrown m
         /\ e = "Repository creation failed: " +:+ m)
      \/ (exists k m,
            shell_response host k = Thrown m
            /\ e = "Repository creation failed: Repository personalization failed: " +:+ m)
  end.
Proof.
  unfold Direct.createPersonalizedRepository, external. run. settle.
  destruct (github_response host (calls s)) as [repo|m]; settle; [|left; eauto].
  match goal with
  | |- context [Direct.personalizeRepository host repo data agentId ?st] =>
      pose proof (direct_personalize_cases host repo data agentId st) as P;
      destruct (Direct.personalizeRepository host repo data agentId st) as [[[]|e] s1]
  end; settle; [reflexivity|].
  right. destruct P as (k & m & E & ->). eauto.
Qed.

(** X11. A run of the direct pipeline always returns a record, and a record
    is `failed` for three reasons only: the address of the target does not
    parse ("Invalid URL"), the storage request threw ("Notion storage
    failed: ..."), or the provisioning threw ("Repository creation failed:
    ...", the message being that of the repository request or, under
    "Repository personalization failed: ", that of a shell command).  The
    voice phase, the deployment, the status update and the file operations
    never fail a record; a record that fails on the provisioning is that of a
    lead already stored.  A `success` record carries the page answered by
    the storage request, an agent identifier made of the clock and the
    practice identifier, and the demo address of that practice identifier. *)
Theorem direct_record_taxonomy host master url s :
  exists r s',
    Direct.processHealthcareWebsite host master url s = (Returned r, s')
    /\ match URL_hostname host url with
       | None =>
           Direct.r_status r = "failed" /\ Direct.r_error r = Some "Invalid URL"
       | Some domain =>
           (Direct.r_status r = "success"
            /\ Direct.r_error r = None
            /\ Direct.r_demoUrl r
               = Some ("https://" +:+ generatePracticeId domain
                       +:+ "-service-production.up.railway.app")
            /\ Direct.r_agentId r
               = Some ("agent_" +:+ pretty (Date_now host (2 + clock_reads s))
                       +:+ "_" +:+ generatePracticeId domain)
            /\ exists page,
                 Direct.r_notionId r = Some page
                 /\ notion_response host (calls s) = Returned page)
           \/ (Direct.r_status r = "failed"
               /\ Direct.r_demoUrl r = None
               /\ exists m,
                    (Direct.r_error r = Some ("Notion storage failed: " +:+ m)
                     /\ notion_response host (calls s) = Thrown m)
                    \/ ((exists page, notion_response host (calls s) = Returned page)
                        /\ Direct.r_error r = Some ("Repository creation failed: " +:+ m)
                        /\ github_response host (S (calls s)) = Thrown m)
                    \/ ((exists page, notion_response host (calls s) = Returned page)
                        /\ Direct.r_error r
                           = Some ("Repository creation failed: Repository personalization failed: "
                                   +:+ m)
                        /\ exists k, shell_response host k = Thrown m))
       end.
Proof.
  unfold Direct.processHealthcareWebsite. run.
  match goal with
  | |- context [Direct.scrapeHealthcareWebsite host url ?st] =>
      pose proof (direct_scrape_cases host url st) as A
  end.
  destruct (URL_hostname host url) as [domain|].
  - destruct A as (data & -> & Id). settle.
    unfold Direct.storeLeadInNotion, Direct.createElevenLabsAgent,
      Direct.deployToRailway, Direct.updateNotionWithResults, external.
    run. settle.
    destruct (notion_response host (calls s)) as [page|m] eqn:N; settle.
    + match goal with
      | |- context [Direct.createPersonalizedRepository host data ?a ?st] =>
          pose proof (direct_createRepository_cases host data a st) as O;
          destruct (Direct.createPersonalizedRepository host data a st)
            as [[repo|e] s2]
      end; settle.
      * destruct (notion_response host (calls s2)) as [page'|m'];
          eexists _, _; (split; [reflexivity|]); left;
          cbn [Direct.r_status Direct.r_error Direct.r_demoUrl Direct.r_agentId
               Direct.r_notionId Direct.deploy_url];
          rewrite Id; repeat split; eauto.
      * eexists _, _. split; [reflexivity|]. right.
        cbn [Direct.r_status Direct.r_error Direct.r_demoUrl].
        do 2 (split; [reflexivity|]).
        destruct O as [(m & G & ->)|(k & m & E & ->)]; exists m; eauto 8.
    + eexists _, _. split; [reflexivity|]. right.
      cbn [Direct.r_status Direct.r_error Direct.r_demoUrl].
      do 2 (split; [reflexivity|]). exists m. auto.
  - rewrite A. eexists _, _. split; [reflexivity|]. repeat split.
Qed.

(** X12. The handler of the voice phase of the direct agent, which would
    answer the master agent, is never reached: the batch of the direct agent
    does not depend on the master agent identifier it was configured
    with. *)
Theorem master_agent_never_used host (master1 master2 : string) leadCount s :
  Direct.executeAutonomousWorkflow host master1 leadCount s
  = Direct.executeAutonomousWorkflow host master2 leadCount s.
Proof.
  assert (E : Direct.processHealthcareWebsite host master1
              = Direct.processHealthcareWebsite host master2) by reflexivity.
  unfold Direct.executeAutonomousWorkflow. now rewrite E.
Qed.

(** ** Sessions: what the connections do *)

Lemma connectMCP_cases host name serverPath s :
  Mcp.connectMCP host name serverPath s
  = match connect_response host (calls s) with
    | Returned _ =>
        (Returned true,
         set_mcpClients (<[name := serverPath]> (mcpClients s)) (set_calls (S (calls s)) s))
    | Thrown _ => (Returned false, set_calls (S (calls s)) s)
    end.
Proof.
  unfold Mcp.connectMCP, Mcp.set_client, external. run.
  now destruct (connect_response host (calls s)).
Qed.

Lemma connectMCP_connects host name serverPath :
  connects host [name] 1 (Mcp.connectMCP host name serverPath).
Proof.
  intros s. rewrite connectMCP_cases.
  destruct (connect_response host (calls s)) as [[]|e] eqn:C.
  - eexists _, _. split; [reflexivity|]. settle. split; [|split; [|split]].
    + intros other H. apply sessions_lookup_insert_ne. set_solver.
    + intros other H. destruct (decide (name = other)) as [->|N].
      * rewrite sessions_lookup_insert. eauto.
      * now rewrite sessions_lookup_insert_ne.
    + lia.
    + exists (calls s). split; [lia | exact C].
  - eexists _, _. split; [reflexivity|]. settle. repeat split; auto; try lia.
    intros k Hk. replace k with (calls s) by lia. now rewrite C.
Qed.

Lemma connectElevenLabs_loop_cases host (providers : list string) s :
  exists b s',
    Mcp.connectElevenLabs_loop host providers s = (Returned b, s')
    /\ if b then
         exists i provider,
           providers !! i = Some provider
           /\ connect_response host (calls s + i) = Returned tt
           /\ (forall j, (j < i)%nat -> is_thrown (connect_response host (calls s + j)))
           /\ mcpClients s' = <["elevenlabs" := provider]> (mcpClients s)
           /\ calls s' = (calls s + i + 1)%nat
       else
         (forall j, (j < length providers)%nat ->
                    is_thrown (connect_response host (calls s + j)))
         /\ mcpClients s' = mcpClients s
         /\ calls s' = (calls s + length providers)%nat.
Proof.
  revert s. induction providers as [|provider rest IH]; intros s.
  - exists false, s. split; [reflexivity|]. cbn [length]. repeat split; lia.
  - cbn [Mcp.connectElevenLabs_loop]. unfold Mcp.set_client, external. run.
    destruct (connect_response host (calls s)) as [[]|e] eqn:C; settle.
    + eexists true, _. split; [reflexivity|]. exists 0%nat, provider. settle.
      rewrite Nat.add_0_r. repeat split; auto; lia.
    + destruct (IH (set_calls (S (calls s)) s)) as (b & s' & -> & H).
      exists b, s'. split; [reflexivity|]. revert H. settle. destruct b.
      * intros (i & p & L & R & T & M & K). exists (S i), p.
        rewrite <- !Nat.add_succ_comm. repeat split; auto; try lia.
        intros [|j] Hj; [rewrite Nat.add_0_r, C; exact I|].
        rewrite <- Nat.add_succ_comm. apply T. lia.
      * intros (T & M & K). cbn [length]. repeat split; auto; try lia.
        intros [|j] Hj; [rewrite Nat.add_0_r, C; exact I|].
        rewrite <- Nat.add_succ_comm. apply T. lia.
Qed.

(** X13. The voice session is opened with the first provider, in the order
    of the list, whose connection is accepted, and no later provider is
    tried; the function answers [false], leaving the sessions as they were,
    exactly when every provider of the list has been tried and refused. *)
Theorem first_accepting_provider host (providers : list string) s :
  exists b s',
    Mcp.connectElevenLabs_loop host providers s = (Returned b, s')
    /\ if b then
         exists i provider,
           providers !! i = Some provider
           /\ connect_response host (calls s + i) = Returned tt
           /\ (forall j, (j < i)%nat -> is_thrown (connect_response host (calls s + j)))
           /\ mcpClients s' = <["elevenlabs" := provider]> (mcpClients s)
           /\ calls s' = (calls s + i + 1)%nat
       else
         (forall j, (j < length providers)%nat ->
                    is_thrown (connect_response host (calls s + j)))
         /\ mcpClients s' = mcpClients s
         /\ calls s' = (calls s + length providers)%nat.
Proof. exact (connectElevenLabs_loop_cases host providers s). Qed.

Lemma connectElevenLabs_loop_connects host providers :
  connects host ["elevenlabs"] (length providers) (Mcp.connectElevenLabs_loop host providers).
Proof.
  intros s. destruct (connectElevenLabs_loop_cases host providers s) as (b & s' & E & H).
  exists b, s'. split; [exact E|]. destruct b.
  - destruct H as (i & provider & L & R & T & M & K).
    apply lookup_lt_Some in L. rewrite M. split; [|split; [|split]].
    + intros other H. apply sessions_lookup_insert_ne. set_solver.
    + intros other H. destruct (decide ("elevenlabs" = other)) as [<-|N].
      * rewrite sessions_lookup_insert. eauto.
      * now rewrite sessions_lookup_insert_ne.
    + lia.
    + exists (calls s + i)%nat. split; [lia | exact R].
  - destruct H as (T & M & K). rewrite M. repeat split; auto; try lia.
    intros k Hk. replace k with (calls s + (k - calls s))%nat by lia. apply T. lia.
Qed.

Lemma connectAllMCPs_connects host :
  connects host ["railway"; "playwright"; "elevenlabs"; "notion"] 6 (Mcp.connectAllMCPs host).
Proof.
  intros s.
  destruct (connectMCP_connects host "railway" "@jason-tan-swe/railway-mcp" s)
    as (c1 & s1 & E1 & O1 & K1 & B1 & R1).
  destruct (connectMCP_connects host "playwright" "@adalovu/mcp-playwright" s1)
    as (c2 & s2 & E2 & O2 & K2 & B2 & R2).
  destruct (connectElevenLabs_loop_connects host
              ["@elevenlabs/elevenlabs-mcp"; "@elevenlabs/mcp-server"; "elevenlabs-voice-mcp"]
              s2)
    as (c3 & s3 & E3 & O3 & K3 & B3 & R3).
  destruct (connectMCP_connects host "notion" "@smithery/notion" s3)
    as (c4 & s4 & E4 & O4 & K4 & B4 & R4).
  cbn [length] in *.
  exists (0 <? length (filter (fun b : bool => b = true) [c1; c2; c3; c4]))%nat, s4.
  split.
  { unfold Mcp.connectAllMCPs, Mcp.connectPlaywrightMCP, Mcp.connectElevenLabsMCP,
      Mcp.connectNotionMCP, bind. now rewrite E1, E2, E3, E4. }
  split.
  { intros name H. rewrite !not_elem_of_cons in H. destruct H as (N1 & N2 & N3 & N4 & _).
    rewrite O4, O3, O2, O1; [reflexivity|..]; rewrite not_elem_of_cons; auto using not_elem_of_nil. }
  split; [auto|]. split; [lia|].
  destruct c1.
  { destruct R1 as (k & Hk & R). replace (0 <? _)%nat with true by now destruct c2, c3, c4.
    exists k. split; [lia | exact R]. }
  destruct c2.
  { destruct R2 as (k & Hk & R). replace (0 <? _)%nat with true by now destruct c3, c4.
    exists k. split; [lia | exact R]. }
  destruct c3.
  { destruct R3 as (k & Hk & R). replace (0 <? _)%nat with true by now destruct c4.
    exists k. split; [lia | exact R]. }
  destruct c4.
  { destruct R4 as (k & Hk & R). replace (0 <? _)%nat with true by reflexivity.
    exists k. split; [lia | exact R]. }
  replace (0 <? _)%nat with false by reflexivity.
  destruct R1 as (M1 & C1 & T1), R2 as (M2 & C2 & T2), R3 as (M3 & C3 & T3),
    R4 as (M4 & C4 & T4).
  split; [congruence|]. split; [lia|].
  intros k Hk.
  destruct (decide (k < calls s1)%nat); [apply T1; lia|].
  destruct (decide (k < calls s2)%nat); [apply T2; lia|].
  destruct (decide (k < calls s3)%nat); [apply T3; lia|].
  apply T4. lia.
Qed.

(** X14. [connectAllMCPs()] never throws.  It keeps every session that was
    open (replacing those it opens again) and touches no name other than its
    four.  It answers [true] when at least one of its connection attempts
    was accepted; it answers [false] only after six refused attempts (one
    for each of railway, playwright and notion, three for the providers of
    the voice), and then the sessions are exactly as before. *)
Theorem connect_all_outcome host s :
  exists b s',
    Mcp.connectAllMCPs host s = (Returned b, s')
    /\ (forall name,
          name ∉ ["railway"; "playwright"; "elevenlabs"; "notion"] ->
          mcpClients s' !! name = mcpClients s !! name)
    /\ (forall name, is_Some (mcpClients s !! name) -> is_Some (mcpClients s' !! name))
    /\ (calls s <= calls s' <= calls s + 6)%nat
    /\ if b then
         exists k, (calls s <= k < calls s')%nat /\ connect_response host k = Returned tt
       else
         mcpClients s' = mcpClients s
         /\ calls s' = (calls s + 6)%nat
         /\ forall k, (calls s <= k < calls s + 6)%nat -> is_thrown (connect_response host k).
Proof. exact (connectAllMCPs_connects host s). Qed.

(** X15. [disconnectAllMCPs()] never throws and leaves no session.  It
    attempts to close every session exactly once, a refused close not
    stopping the others; the sessions it reports closed are among those that
    were open, in their order, and are all of them when every close is
    accepted. *)
Theorem session_closing host s :
  exists s' evs,
    Mcp.disconnectAllMCPs host s = (Returned tt, s')
    /\ mcpClients s' = ∅
    /\ calls s' = (calls s + size (mcpClients s))%nat
    /\ console s' = console s ++ evs
    /\ sublist evs (map (fun entry => Closed entry.1) (entries (mcpClients s)))
    /\ ((forall k, (calls s <= k < calls s + size (mcpClients s))%nat ->
                   close_response host k = Returned tt) ->
        evs = map (fun entry => Closed entry.1) (entries (mcpClients s))).
Proof. exact (McpBatch.disconnectAllMCPs_cases host s). Qed.

(** ** The size of a batch *)

Lemma slice0_length {A} (n : Z) (l : list A) :
  Z.of_nat (length (slice0 n l))
  = if (n <? 0)%Z then Z.max 0 (Z.of_nat (length l) + n)
    else Z.min n (Z.of_nat (length l)).
Proof.
  unfold slice0. destruct (n <? 0)%Z eqn:E; rewrite length_take.
  - apply Z.ltb_lt in E. lia.
  - apply Z.ltb_ge in E. lia.
Qed.

(** Case analysis on the completion of the next phase. *)
Ltac any_phase :=
  match goal with
  | |- context [let (_, _) := ?m ?s in _] => destruct (m s) as [[?|?] ?]
  end.

Lemma mcp_process_leadId host url s r s' :
  Mcp.processHealthcareWebsite host url s = (Returned r, s') ->
  Mcp.r_url r = url /\ is_Some (Mcp.r_leadId r) /\ is_Some (Mcp.r_duration r).
Proof.
  unfold Mcp.processHealthcareWebsite. run. repeat any_phase;
    intros [= <- <-]; cbn [Mcp.r_url Mcp.r_leadId Mcp.r_duration]; eauto.
Qed.

Lemma direct_process_leadId host master url s r s' :
  Direct.processHealthcareWebsite host master url s = (Returned r, s') ->
  Direct.r_url r = url /\ is_Some (Direct.r_leadId r) /\ is_Some (Direct.r_duration r).
Proof.
  unfold Direct.processHealthcareWebsite. run. repeat any_phase;
    intros [= <- <-]; cbn [Direct.r_url Direct.r_leadId Direct.r_duration]; eauto.
Qed.

(** X16. The number of records of a batch as a function of the count that
    was asked for: a count above the number of targets of the constructor
    (five in the MCP agent, eight in the direct one) gives one record per
    target, a count of zero gives none, and a negative count -k leaves out
    the last k targets.  The records are those of the selected targets, in
    their order, and each is a record of the executor, with its lead
    identifier and elapsed time: the handler of the loop is never
    reached. *)
Theorem batch_size_of_count host master leadCount s :
  (exists results s',
     Mcp.executeAutonomousWorkflow host leadCount s = (Returned results, s')
     /\ map Mcp.r_url results = slice0 leadCount Mcp.healthcareTargets
     /\ Z.of_nat (length results)
        = (if (leadCount <? 0)%Z then Z.max 0 (5 + leadCount) else Z.min leadCount 5)
     /\ Forall (fun r => is_Some (Mcp.r_leadId r) /\ is_Some (Mcp.r_duration r)) results)
  /\ (exists results s',
        Direct.executeAutonomousWorkflow host master leadCount s = (Returned results, s')
        /\ map Direct.r_url results = slice0 leadCount Direct.healthcareTargets
        /\ Z.of_nat (length results)
           = (if (leadCount <? 0)%Z then Z.max 0 (8 + leadCount) else Z.min leadCount 8)
        /\ Forall (fun r => is_Some (Direct.r_leadId r) /\ is_Some (Direct.r_duration r))
             results).
Proof.
  split.
  - destruct (McpBatch.mcp_batch_total host _ (McpBatch.mcp_process_inner host)
                (McpBatch.mcp_process_total host) Mcp.healthcareTargets leadCount s)
      as (results & s' & evs & X & _ & _ & F & _).
    exists results, s'. split; [exact X|].
    rewrite <- (Forall2_length _ _ _ F), slice0_length.
    split; [|split; [reflexivity|]].
    + clear X. induction F as [|url r urls rs (s0 & s1 & Y) F IH]; [reflexivity|].
      cbn [map]. rewrite IH. f_equal. now apply mcp_process_leadId in Y.
    + clear X. induction F as [|url r urls rs (s0 & s1 & Y) F IH]; constructor; auto.
      now apply mcp_process_leadId in Y.
  - destruct (DirectBatch.direct_batch_total host master Direct.healthcareTargets leadCount s)
      as (results & s' & evs & X & _ & _ & F).
    exists results, s'. split; [exact X|].
    rewrite <- (Forall2_length _ _ _ F), slice0_length.
    split; [|split; [reflexivity|]].
    + clear X. induction F as [|url r urls rs (s0 & s1 & Y) F IH]; [reflexivity|].
      cbn [map]. rewrite IH. f_equal. now apply direct_process_leadId in Y.
    + clear X. induction F as [|url r urls rs (s0 & s1 & Y) F IH]; constructor; auto.
      now apply direct_process_leadId in Y.
Qed.

(** ** The routes *)

Lemma mcp_batch_statuses host leadCount s :
  exists results s',
    Mcp.executeAutonomousWorkflow host leadCount s = (Returned results, s')
    /\ mcpClients s' = ∅
    /\ Forall (fun r => Mcp.r_status r = "success" \/ Mcp.r_status r = "failed") results.
Proof.
  destruct (McpBatch.mcp_batch_total host _ (McpBatch.mcp_process_inner host)
              (McpBatch.mcp_process_total host) Mcp.healthcareTargets leadCount s)
    as (results & s' & evs & X & _ & _ & F & M).
  exists results, s'. split; [exact X|]. split; [exact M|].
  clear X. induction F as [|url r urls rs (s0 & s1 & Y) F IH]; constructor; auto.
  destruct (McpPipeline.mcp_process_spec host url s0)
    as (r' & s1' & evs' & Y' & _ & _ & _ & _ & _ & _ & St).
  rewrite Y in Y'. injection Y' as <- <-. destruct St as [[? _]|[? _]]; auto.
Qed.

Lemma direct_batch_statuses host master leadCount s :
  exists results s',
    Direct.executeAutonomousWorkflow host master leadCount s = (Returned results, s')
    /\ Forall (fun r => Direct.r_status r = "success" \/ Direct.r_status r = "failed")
         results.
Proof.
  destruct (DirectBatch.direct_batch_total host master Direct.healthcareTargets leadCount s)
    as (results & s' & evs & X & _ & _ & F).
  exists results, s'. split; [exact X|].
  clear X. induction F as [|url r urls rs (s0 & s1 & Y) F IH]; constructor; auto.
  destruct (DirectPipeline.direct_process_spec host master url s0)
    as (r' & s1' & evs' & Y' & _ & _ & _ & _ & _ & _ & St).
  rewrite Y in Y'. injection Y' as <- <-. destruct St as [[? _]|[? _]]; auto.
Qed.

Lemma mcp_status_partition (results : list Mcp.LeadRecord) :
  Forall (fun r => Mcp.r_status r = "success" \/ Mcp.r_status r = "failed") results ->
  (McpServer.completed_of results + McpServer.failed_of results = length results)%nat.
Proof.
  unfold McpServer.completed_of, McpServer.failed_of.
  induction 1 as [|r rs [E|E] F IH]; [reflexivity| |];
    cbn [List.filter]; rewrite E; cbn [String.eqb Ascii.eqb Bool.eqb length andb];
    cbn [length]; lia.
Qed.

Lemma direct_status_partition (results : list Direct.LeadRecord) :
  Forall (fun r => Direct.r_status r = "success" \/ Direct.r_status r = "failed") results ->
  (DirectServer.completed_of results + DirectServer.failed_of results = length results)%nat.
Proof.
  unfold DirectServer.completed_of, DirectServer.failed_of.
  induction 1 as [|r rs [E|E] F IH]; [reflexivity| |];
    cbn [List.filter]; rewrite E; cbn [String.eqb Ascii.eqb Bool.eqb length andb];
    cbn [length]; lia.
Qed.

Lemma mcp_createLeads_cases host count s :
  exists results s1,
    Mcp.executeAutonomousWorkflow host (default 1%Z count) s = (Returned results, s1)
    /\ McpServer.createLeads host (Some count) s
       = (Returned {| McpServer.res_status := 200;
                      McpServer.res_body :=
                        McpServer.Leads (default 1%Z count)
                          (McpServer.completed_of results) results |},
          answered 200 s1)
    /\ (McpServer.completed_of results + McpServer.failed_of results = length results)%nat
    /\ mcpClients s1 = ∅.
Proof.
  destruct (mcp_batch_statuses host (default 1%Z count) s) as (results & s1 & X & M & F).
  exists results, s1. split; [exact X|]. split; [|auto using mcp_status_partition].
  unfold McpServer.createLeads, destructure, McpServer.respond. run. now rewrite X.
Qed.


Lemma process_all_cases host master (urls : list string) :
  forall results s,
  exists new s' evs,
    DirectServer.process_all host master urls results s = (Returned (results ++ new), s')
    /\ map Direct.r_url new = urls
    /\ console s' = console s ++ evs
    /\ batch_log evs = [].
Proof.
  induction urls as [|url rest IH]; intros results s.
  - exists [], s, []. cbn [DirectServer.process_all ret]. rewrite !app_nil_r. auto.
  - cbn [DirectServer.process_all]. unfold bind.
    destruct (DirectPipeline.direct_process_spec host master url s)
      as (r & s1 & evs1 & -> & E1 & _ & U & _ & B1 & _).
    destruct (IH (results ++ [r]) s1) as (new & s' & evs & -> & Us & E & B).
    exists (r :: new), s', (evs1 ++ evs). rewrite <- app_assoc. split; [reflexivity|].
    cbn [map]. rewrite U, Us, E, E1, batch_log_app, B1, B, app_assoc. auto.
Qed.


(** The [finally] block of the test routes: it runs once the answer has been
    sent, and closes the sessions that are open then. *)
Lemma finally_closes {A} host (body : Js A) s (a : A) s1 :
  body s = (Returned a, s1) ->
  exists s',
    try_finally body (Mcp.disconnectAllMCPs host) s = (Returned a, s')
    /\ mcpClients s' = ∅
    /\ calls s' = (calls s1 + size (mcpClients s1))%nat.
Proof.
  intros X. unfold try_finally. rewrite X.
  destruct (McpBatch.disconnectAllMCPs_cases host s1) as (s' & closed & -> & M & K & _).
  exists s'. auto.
Qed.

Lemma voice_test_try host (body : option (option McpServer.VoicePractice)) s :
  exists response s0,
    McpServer.testElevenLabs_try host body s
      = (Returned response, answered (McpServer.res_status response) s0)
    /\ match body with
       | None => response = no_body "practiceData" /\ s0 = s
       | Some practice =>
           (response = connection_refused
            /\ forall k, (calls s <= k < calls s + 6)%nat ->
                         is_thrown (connect_response host k))
           \/ ((exists k, (calls s <= k < calls s + 6)%nat
                          /\ connect_response host k = Returned tt)
               /\ match default (McpServer.WithServices McpServer.default_voice_data)
                          practice with
                  | McpServer.WithServices _ =>
                      McpServer.res_status response = 200%Z
                      /\ exists voiceAgent,
                           McpServer.res_body response
                           = McpServer.ElevenLabsTest (has_session "elevenlabs" s0)
                               voiceAgent false
                           /\ (Mcp.voice_method voiceAgent = "elevenlabs_direct_api"
                               \/ Mcp.voice_method voiceAgent = "fallback_enhanced")
                  | McpServer.WithoutServices =>
                      response = {| McpServer.res_status := 500;
                                    McpServer.res_body :=
                                      McpServer.Failure no_services_message |}
                  end)
       end.
Proof.
  destruct body as [practice|]; [|exists (no_body "practiceData"), s; split; [reflexivity | auto]].
  unfold McpServer.testElevenLabs_try, destructure, McpServer.respond. run.
  destruct (connectAllMCPs_connects host s) as (b & s1 & -> & _ & _ & B & R). settle.
  destruct b; settle.
  - assert (Acc : exists k, (calls s <= k < calls s + 6)%nat
                            /\ connect_response host k = Returned tt).
    { destruct R as (k & Hk & R). exists k. split; [lia | exact R]. }
    destruct (default (McpServer.WithServices McpServer.default_voice_data) practice)
      as [practiceData|]; cbn [McpServer.createVoiceAgent_of].
    + destruct (mcp_voice_returns host practiceData s1) as (v & s2 & -> & _ & Mt). settle.
      unfold Mcp.get_client. settle.
      eexists _, s2. split; [reflexivity|]. right. split; [exact Acc|].
      cbn [McpServer.res_status McpServer.res_body]. split; [reflexivity|].
      exists v. split; [|exact Mt]. unfold has_session.
      destruct Mt as [-> | ->]; reflexivity.
    + unfold McpServer.createVoiceAgent_without_services. run. settle.
      eexists _, (set_clock_reads (S (clock_reads s1)) (set_elevenLabsClient true s1)).
      split; [reflexivity|]. right. split; [exact Acc | reflexivity].
  - eexists _, s1. split; [reflexivity|]. left. split; [reflexivity | apply R].
Qed.


Lemma notion_test_try host (body : option (option PracticeData)) s :
  exists response s0,
    McpServer.testNotion_try host body s
      = (Returned response, answered (McpServer.res_status response) s0)
    /\ match body with
       | None => response = no_body "practiceData" /\ s0 = s
       | Some _ =>
           (response = connection_refused
            /\ forall k, (calls s <= k < calls s + 6)%nat ->
                         is_thrown (connect_response host k))
           \/ ((exists k, (calls s <= k < calls s + 6)%nat
                          /\ connect_response host k = Returned tt)
               /\ McpServer.res_status response = 200%Z
               /\ exists storage,
                    McpServer.res_body response
                    = McpServer.NotionTest (has_session "notion" s0) storage
                        (String.eqb (Mcp.notion_method storage) "notion-mcp")
                    /\ (Mcp.notion_method storage = "notion-mcp"
                        /\ has_session "notion" s0 = true
                        /\ Mcp.notion_pageId storage <> ""
                        \/ Mcp.notion_method storage = "fallback"))
       end.
Proof.
  destruct body as [practice|]; [|exists (no_body "practiceData"), s; split; [reflexivity | auto]].
  unfold McpServer.testNotion_try, destructure, McpServer.respond. run.
  destruct (connectAllMCPs_connects host s) as (b & s1 & -> & _ & _ & B & R). settle.
  destruct b; settle.
  - match goal with
    | |- context [Mcp.storeLeadInNotionMCP host ?d ?dep ?v ?st] =>
        destruct (mcp_notion_returns host d dep v st) as (n & s2 & -> & M & Mt)
    end; settle.
    unfold Mcp.get_client. settle.
    eexists _, s2. split; [reflexivity|]. right. split.
    { destruct R as (k & Hk & R). exists k. split; [lia | exact R]. }
    cbn [McpServer.res_status McpServer.res_body]. split; [reflexivity|].
    exists n. split; [reflexivity|].
    destruct Mt as [(E & [client L] & P) | E]; [left | now right].
    split; [exact E|]. split; [|exact P].
    unfold has_session. now rewrite M, L.
  - eexists _, s1. split; [reflexivity|]. left. split; [reflexivity | apply R].
Qed.


Lemma playwright_test_try host (body : option (option string)) s :
  exists response s0,
    McpServer.testPlaywright_try host body s
      = (Returned response, answered (McpServer.res_status response) s0)
    /\ match body with
       | None => response = no_body "url" /\ s0 = s
       | Some url =>
           match mcpClients s !! "playwright" with
           | None =>
               response = {| McpServer.res_status := 503;
                             McpServer.res_body :=
                               McpServer.Failure "Playwright MCP not connected" |}
               /\ s0 = s
           | Some _ =>
               (response = connection_refused
                /\ forall k, (calls s <= k < calls s + 6)%nat ->
                             is_thrown (connect_response host k))
               \/ (response = {| McpServer.res_status := 500;
                                 McpServer.res_body := McpServer.Failure "Invalid URL" |}
                   /\ URL_hostname host (default "https://example.com" url) = None)
               \/ (McpServer.res_status response = 200%Z
                   /\ has_session "playwright" s0 = true
                   /\ exists data domain,
                        McpServer.res_body response
                        = McpServer.PlaywrightTest true data
                            (String.eqb (leadSource data) "playwright-mcp-scraping")
                        /\ URL_hostname host (default "https://example.com" url)
                           = Some domain
                        /\ practiceId data = generatePracticeId domain)
           end
       end.
Proof.
  destruct body as [url|]; [|exists (no_body "url"), s; split; [reflexivity | auto]].
  unfold McpServer.testPlaywright_try, destructure, McpServer.respond. run.
  unfold Mcp.get_client at 1. settle.
  destruct (mcpClients s !! "playwright") as [client|] eqn:L; settle;
    [|eexists _, s; split; [reflexivity | auto]].
  destruct (connectAllMCPs_connects host s) as (b & s1 & -> & _ & K & _ & R). settle.
  destruct b; settle.
  - match goal with
    | |- context [Mcp.analyzeHealthcareWebsite host ?u ?st] =>
        pose proof (mcp_analyze_cases host u st) as A;
        pose proof (McpFrames.analyze_clients host u st) as M;
        destruct (Mcp.analyzeHealthcareWebsite host u st) as [[data|e] s2]
    end; cbn [snd fst] in A, M; settle.
    + unfold Mcp.get_client. settle. rewrite M.
      destruct (K "playwright") as [client' P]; [rewrite L; eauto|]. rewrite P.
      eexists _, s2. split; [reflexivity|]. right. right.
      cbn [McpServer.res_status McpServer.res_body]. split; [reflexivity|].
      split; [unfold has_session; now rewrite M, P|].
      destruct (URL_hostname host (default "https://example.com" url)) as [domain|];
        [|discriminate A].
      destruct A as (data' & s2' & [= <- <-] & Id & _). eauto.
    + eexists _, s2. split; [reflexivity|]. right. left.
      destruct (URL_hostname host (default "https://example.com" url)) as [domain|].
      * destruct A as (data' & s2' & [=] & _).
      * injection A as ->. auto.
  - eexists _, s1. split; [reflexivity|]. left. split; [reflexivity | apply R].
Qed.


Lemma idle_handle host listTools_response request s :
  mcpClients s = ∅ ->
  exists response s',
    McpServer.handle host listTools_response request s = (Returned response, s')
    /\ mcpClients s' = ∅
    /\ idle_answer request response.
Proof.
  intros Idle. destruct request as [|body| |body|body|body];
    cbn [McpServer.handle].
  - unfold McpServer.health, McpServer.get_clients, McpServer.respond. run. settle.
    rewrite Idle. eexists _, _. split; [reflexivity|]. settle.
    split; [exact Idle|]. eexists. reflexivity.
  - destruct body as [count|].
    + destruct (mcp_createLeads_cases host count s) as (results & s1 & _ & -> & _ & M).
      eexists _, _. split; [reflexivity|]. split; [exact M | reflexivity].
    + eexists _, _. split; [reflexivity|]. split; [exact Idle | reflexivity].
  - unfold McpServer.mcpStatus, McpServer.get_clients, McpServer.respond. run.
    rewrite Idle. eexists _, _. split; [reflexivity|]. split; [exact Idle | reflexivity].
  - destruct (playwright_test_try host body s) as (response & s0 & T & Cases).
    destruct (finally_closes host _ _ _ _ T) as (s' & F & M & _).
    exists response, s'. split; [exact F|]. split; [exact M|].
    destruct body as [url|]; cbn [idle_answer]; [|tauto].
    rewrite Idle, sessions_lookup_empty in Cases. tauto.
  - destruct (voice_test_try host body s) as (response & s0 & T & Cases).
    destruct (finally_closes host _ _ _ _ T) as (s' & F & M & _).
    exists response, s'. split; [exact F|]. split; [exact M|].
    destruct body as [[[practiceData|]|]|]; cbn [idle_answer from_option id] in *; tauto.
  - destruct (notion_test_try host body s) as (response & s0 & T & Cases).
    destruct (finally_closes host _ _ _ _ T) as (s' & F & M & _).
    exists response, s'. split; [exact F|]. split; [exact M|].
    destruct body as [practice|]; cbn [idle_answer]; tauto.
Qed.



(** X23. The provisioning phase of the MCP agent runs seven shell commands
    and stops at the first that fails: it returns only when all seven have
    succeeded and the output of the first parses as the repository it
    returns; otherwise it throws "Repository creation failed: " followed by
    the message of the command that failed, after which no further command
    is run, or by that of the parser of the first output. *)
Theorem provisioning_fails_fast host data s :
  match Mcp.createPersonalizedRepository host data s with
  | (Returned repository, s') =>
      calls s' = (calls s + 7)%nat
      /\ (exists out,
            shell_response host (calls s) = Returned out
            /\ JSON_parse_repository host out = Some repository)
      /\ forall k, (k < 7)%nat -> exists out, shell_response host (k + calls s) = Returned out
  | (Thrown e, s') =>
      exists m,
        e = "Repository creation failed: " +:+ m
        /\ ((exists k,
               (k < 7)%nat
               /\ calls s' = (S k + calls s)%nat
               /\ shell_response host (k + calls s) = Thrown m
               /\ forall j, (j < k)%nat ->
                            exists out, shell_response host (j + calls s) = Returned out)
            \/ (calls s' = S (calls s)
                /\ exists out,
                     shell_response host (calls s) = Returned out
                     /\ JSON_parse_repository host out = None))
  end.
Proof.
  unfold Mcp.createPersonalizedRepository, Mcp.execSync, external. run. settle.
  assert (Earlier : forall k (P : nat -> Prop),
            (forall j, (j < k)%nat -> P j) -> P k -> forall j, (j < S k)%nat -> P j).
  { intros k P H Hk j Hj. destruct (decide (j = k)) as [->|]; [exact Hk | apply H; lia]. }
  assert (H0 : forall j, (j < 0)%nat ->
                 exists out, shell_response host (j + calls s) = Returned out) by lia.
  destruct (shell_response host (calls s)) as [out0|m] eqn:E0; settle;
    [|exists m; split; [reflexivity|]; left; exists 0%nat; auto with lia].
  pose proof (Earlier 0%nat _ H0 (ex_intro _ out0 E0)) as H1.
  destruct (JSON_parse_repository host out0) as [repository|] eqn:J; settle;
    [|eexists; split; [reflexivity|]; right; eauto].
  destruct (shell_response host (S (calls s))) as [out1|m] eqn:E1; settle;
    [|exists m; split; [reflexivity|]; left; exists 1%nat; auto with lia].
  pose proof (Earlier 1%nat _ H1 (ex_intro _ out1 E1)) as H2.
  destruct (shell_response host (S (S (calls s)))) as [out2|m] eqn:E2; settle;
    [|exists m; split; [reflexivity|]; left; exists 2%nat; auto with lia].
  pose proof (Earlier 2%nat _ H2 (ex_intro _ out2 E2)) as H3.
  destruct (shell_response host (S (S (S (calls s))))) as [out3|m] eqn:E3; settle;
    [|exists m; split; [reflexivity|]; left; exists 3%nat; auto with lia].
  pose proof (Earlier 3%nat _ H3 (ex_intro _ out3 E3)) as H4.
  destruct (shell_response host (S (S (S (S (calls s)))))) as [out4|m] eqn:E4; settle;
    [|exists m; split; [reflexivity|]; left; exists 4%nat; auto with lia].
  pose proof (Earlier 4%nat _ H4 (ex_intro _ out4 E4)) as H5.
  destruct (shell_response host (S (S (S (S (S (calls s))))))) as [out5|m] eqn:E5; settle;
    [|exists m; split; [reflexivity|]; left; exists 5%nat; auto with lia].
  pose proof (Earlier 5%nat _ H5 (ex_intro _ out5 E5)) as H6.
  destruct (shell_response host (S (S (S (S (S (S (calls s)))))))) as [out6|m] eqn:E6; settle;
    [|exists m; split; [reflexivity|]; left; exists 6%nat; auto with lia].
  pose proof (Earlier 6%nat _ H6 (ex_intro _ out6 E6)) as H7.
  split; [lia|]. split; [eauto | exact H7].
Qed.

Lemma status_of_all_cases listTools_response entries :
  forall status s, exists new s',
    McpServer.status_of_all listTools_response entries status s
      = (Returned (status ++ new), s')
    /\ mcpClients s' = mcpClients s
    /\ calls s' = (calls s + length entries)%nat
    /\ map fst new = map fst entries
    /\ forall i name entry,
         new !! i = Some (name, entry) -> entry = listTools_response (calls s + i)%nat.
Proof.
  induction entries as [|[name client] rest IH]; intros status s.
  - exists [], s. cbn [length map McpServer.status_of_all ret].
    rewrite app_nil_r, Nat.add_0_r. repeat split. intros i ? ? H. discriminate H.
  - cbn [McpServer.status_of_all]. unfold external. run.
    destruct (listTools_response (calls s)) as [toolCount|e] eqn:L; settle;
      match goal with
      | |- context [McpServer.status_of_all _ rest ?st ?s0] =>
          destruct (IH st s0) as (new & s' & -> & M & K & N & T)
      end;
      revert M K T; settle; intros M K T;
      eexists (_ :: new), s'; rewrite <- app_assoc;
      (split; [reflexivity|]); (split; [exact M|]); (split; [cbn [length]; lia|]);
      (split; [cbn [map fst]; now rewrite N|]);
      (intros [|i] name' entry H;
       [injection H as <- <-; now rewrite Nat.add_0_r, L
       |rewrite <- Nat.add_succ_comm; now apply (T i name')]).
Qed.

(** X24. [GET /mcp-status] always answers 200 and changes no session.  Its
    body has one entry for each open session, under the name of the session
    and in their order; each session is asked for its tools exactly once,
    and its entry is the answer it gave: the number of its tools, or the
    message of its failure, which does not stop the enquiry of the
    others. *)
Theorem mcp_status_answer listTools_response s :
  exists status s',
    McpServer.mcpStatus listTools_response s
      = (Returned {| McpServer.res_status := 200;
                     McpServer.res_body := McpServer.Status status |}, s')
    /\ mcpClients s' = mcpClients s
    /\ calls s' = (calls s + size (mcpClients s))%nat
    /\ map fst status = map fst (entries (mcpClients s))
    /\ forall i name entry,
         status !! i = Some (name, entry) -> entry = listTools_response (calls s + i)%nat.
Proof.
  unfold McpServer.mcpStatus, McpServer.get_clients, McpServer.respond. run.
  destruct (status_of_all_cases listTools_response (entries (mcpClients s)) [] s)
    as (new & s' & -> & M & K & N & T).
  cbn [app].
  exists new, (answered 200 s'). auto.
Qed.
